(** * SwimrankingsScraper: a shallow embedding of
      [swimrankingsscraper/swimrankingsscraper.py] and its verified properties.

    Conventions of the embedding.
    - A Python call either returns a value or raises: [result A].
    - The value returned by [convert_time] is a Python [float]: an IEEE 754
      binary64 number, with the arithmetic of the Standard Library's
      [SpecFloat] (precision 53, rounding to nearest, ties to even).
    - The clock ([time.time()], [time.sleep]) runs on exact rationals [Q], in
      seconds.
    - Python [str] is [string]; only the characters of [ascii] are represented.
    - Objects that are mutated ([SessionManager], [ScraperMixin]) live in an
      explicit program state threaded through a state-and-exception monad. *)

From stdpp Require Import gmap strings.
From Stdlib Require Import String Ascii List Sorted ZArith QArith Qabs Qpower Lqa Lia
  Bool SpecFloat.
Import ListNotations.

Local Open Scope string_scope.
Local Open Scope list_scope.

(** ** Python exceptions and results *)

Inductive exn : Type :=
| AttributeError
| IndexError
| KeyError
| TypeError
| ValueError
| HTTPError          (* requests.HTTPError, a RequestException *)
| ConnectionError    (* requests.ConnectionError, a RequestException *)
| RequestException.  (* requests.RequestException itself *)

(** [except requests.RequestException] catches the class and its subclasses. *)
Definition is_RequestException (e : exn) : bool :=
  match e with
  | HTTPError | ConnectionError | RequestException => true
  | _ => false
  end.

Definition is_AttributeError (e : exn) : bool :=
  match e with AttributeError => true | _ => false end.

Inductive result (A : Type) : Type :=
| Ok (a : A)
| Raise (e : exn).
Arguments Ok {A} a.
Arguments Raise {A} e.

Module Res.
Definition bind {A B} (r : result A) (k : A -> result B) : result B :=
  match r with
  | Ok a => k a
  | Raise e => Raise e
  end.

(** [for x in l: acc.append(f x)], stopping at the first exception. *)
Fixpoint mapM {A B} (f : A -> result B) (l : list A) : result (list B) :=
  match l with
  | [] => Ok []
  | x :: xs =>
      bind (f x) (fun y => bind (mapM f xs) (fun ys => Ok (y :: ys)))
  end.
End Res.

Declare Scope res_scope.
Delimit Scope res_scope with res.
Notation "'let!' x ':=' c 'in' k" := (Res.bind c (fun x => k))
  (at level 10, x pattern, c at level 100, k at level 200) : res_scope.

(** ** Sequences: Python indexing *)

(** [l[i]] for a Python list: negative indices count from the end, an index
    out of range raises [IndexError]. *)
Definition py_index {A} (l : list A) (i : Z) : result A :=
  let n := Z.of_nat (length l) in
  let j := (if i <? 0 then i + n else i)%Z in
  if ((j <? 0) || (n <=? j))%Z then Raise IndexError
  else match nth_error l (Z.to_nat j) with
       | Some x => Ok x
       | None => Raise IndexError
       end.

(** ** DurationParser: [convert_time] *)

Module Strptime.
(** The part of CPython's [_strptime] that [datetime.strptime] runs for the
    three formats used by [convert_time].  A format is compiled to a regular
    expression, one group per directive:
      %H  ->  2[0-3]|[0-1]\d|\d
      %M  ->  [0-5]\d|\d
      %S  ->  6[0-1]|[0-5]\d|\d
      %f  ->  [0-9]{1,6}
    [re.match] is a backtracking search: every matcher below returns its
    candidate matches in the order the regex engine tries them, sequencing
    is [flat_map], and the match found is the first candidate. *)

Definition digit (c : ascii) : option nat :=
  let n := nat_of_ascii c in
  if (48 <=? n)%nat && (n <=? 57)%nat then Some (n - 48)%nat else None.

Definition cands (A : Type) : Type := list (A * list ascii).

(** two characters, both digits, satisfying [p] *)
Definition two_digits (p : nat -> nat -> bool) (s : list ascii) : cands nat :=
  match s with
  | c1 :: c2 :: r =>
      match digit c1, digit c2 with
      | Some a, Some b => if p a b then [((10 * a + b)%nat, r)] else []
      | _, _ => []
      end
  | _ => []
  end.

(** [\d] *)
Definition one_digit (s : list ascii) : cands nat :=
  match s with
  | c :: r => match digit c with Some a => [(a, r)] | None => [] end
  | [] => []
  end.

Definition rx_H (s : list ascii) : cands nat :=
  two_digits (fun a b => (a =? 2)%nat && (b <=? 3)%nat) s
  ++ two_digits (fun a _ => (a <=? 1)%nat) s
  ++ one_digit s.

Definition rx_M (s : list ascii) : cands nat :=
  two_digits (fun a _ => (a <=? 5)%nat) s ++ one_digit s.

Definition rx_S (s : list ascii) : cands nat :=
  two_digits (fun a b => (a =? 6)%nat && (b <=? 1)%nat) s
  ++ two_digits (fun a _ => (a <=? 5)%nat) s
  ++ one_digit s.

(** exactly [n] digits; the value is the list of digit values *)
Fixpoint digits_n (n : nat) (s : list ascii) : option (list nat * list ascii) :=
  match n with
  | O => Some ([], s)
  | S n' =>
      match s with
      | c :: r =>
          match digit c with
          | Some a =>
              match digits_n n' r with
              | Some (ds, r') => Some (a :: ds, r')
              | None => None
              end
          | None => None
          end
      | [] => None
      end
  end.

Definition opt_cand {A} (o : option (A * list ascii)) : cands A :=
  match o with Some x => [x] | None => [] end.

(** [[0-9]{1,6}], greedy: six digits are tried first, one digit last *)
Definition rx_f (s : list ascii) : cands (list nat) :=
  flat_map (fun n => opt_cand (digits_n n s)) [6; 5; 4; 3; 2; 1]%nat.

(** a literal character of the format *)
Definition lit (c : ascii) (s : list ascii) : cands unit :=
  match s with
  | c' :: r => if Ascii.eqb c c' then [(tt, r)] else []
  | [] => []
  end.

Definition seq {A B} (m : cands A) (k : A -> list ascii -> cands B) : cands B :=
  flat_map (fun '(a, r) => k a r) m.

Inductive format : Type :=
| fmt_HMSf    (* '%H:%M:%S.%f' *)
| fmt_MSf     (* '%M:%S.%f' *)
| fmt_Sf.     (* '%S.%f' *)

(** The groups found: hour, minute, second and the text of %f. *)
Definition groups : Type := (nat * nat * nat * list nat)%type.

Definition rx_MSf_from (h : nat) (s : list ascii) : cands groups :=
  seq (rx_M s) (fun m r =>
  seq (lit ":" r) (fun _ r =>
  seq (rx_S r) (fun sec r =>
  seq (lit "." r) (fun _ r =>
  seq (rx_f r) (fun f r => [((h, m, sec, f), r)]))))).

Definition rx_Sf_from (h m : nat) (s : list ascii) : cands groups :=
  seq (rx_S s) (fun sec r =>
  seq (lit "." r) (fun _ r =>
  seq (rx_f r) (fun f r => [((h, m, sec, f), r)]))).

Definition regex (f : format) (s : list ascii) : cands groups :=
  match f with
  | fmt_HMSf =>
      seq (rx_H s) (fun h r => seq (lit ":" r) (fun _ r => rx_MSf_from h r))
  | fmt_MSf => rx_MSf_from 0 s
  | fmt_Sf => rx_Sf_from 0 0 s
  end.

(** [int(s)] of a run of digits *)
Definition int_of_digits (ds : list nat) : nat :=
  fold_left (fun acc d => (10 * acc + d)%nat) ds 0%nat.

(** [s += "0" * (6 - len(s)); fraction = int(s)] *)
Definition fraction (ds : list nat) : nat :=
  int_of_digits (ds ++ repeat 0%nat (6 - length ds)).

(** The fields of [datetime.time] read by [convert_time]. *)
Record time : Type := mk_time
  { hour : nat; minute : nat; second : nat; microsecond : nat }.

(** [datetime.strptime(s, fmt).time()]: no match, unconverted data, and a
    second out of 0..59 (refused by the [datetime] constructor) are all
    [ValueError]. *)
Definition strptime (s : list ascii) (f : format) : result time :=
  match hd_error (regex f s) with
  | None => Raise ValueError
  | Some ((h, m, sec, fr), rest) =>
      match rest with
      | _ :: _ => Raise ValueError
      | [] =>
          if (59 <? sec)%nat then Raise ValueError
          else Ok (mk_time h m sec (fraction fr))
      end
  end.
End Strptime.

Definition Qnat (n : nat) : Q := inject_Z (Z.of_nat n).

(** [str.count(':')] *)
Definition count_colon (s : list ascii) : nat :=
  length (List.filter (Ascii.eqb ":") s).

(** [time_str[:-1]] *)
Definition drop_last (s : list ascii) : list ascii := removelast s.

(** Python [float]: IEEE 754 binary64. *)
Module Float.
Definition float : Type := spec_float.
Definition prec : Z := 53.
Definition emax : Z := 1024.

(** [float(n)] for an [int]: the nearest binary64 number (exact below 2^53) *)
Definition of_int (n : Z) : float := binary_normalize prec emax n 0 false.

(** [x + y] on floats *)
Definition add (x y : float) : float := SFadd prec emax x y.

(** [a / b] on two [int]s, [b] not zero: the quotient of the two converted
    operands, correctly rounded (both are exact below 2^53) *)
Definition int_truediv (a b : Z) : float := SFdiv prec emax (of_int a) (of_int b).

Definition is_finite (x : float) : bool :=
  match x with
  | S754_zero _ | S754_finite _ _ _ => true
  | S754_infinity _ | S754_nan => false
  end.

(** The number a finite float stands for: mantissa times 2^exponent. *)
Definition to_Q (x : float) : Q :=
  match x with
  | S754_finite s m e => (inject_Z (cond_Zopp s (Zpos m)) * 2 ^ e)%Q
  | _ => 0%Q
  end.
End Float.

Definition convert_time_chars (time_str : list ascii) : result Float.float :=
  (let! last_char := py_index time_str (-1) in
   let time_str := if Ascii.eqb last_char "M" then drop_last time_str else time_str in
   let col_count := count_colon time_str in
   let time_format :=
     if (col_count =? 2)%nat then Strptime.fmt_HMSf
     else if (col_count =? 1)%nat then Strptime.fmt_MSf
     else Strptime.fmt_Sf in
   let! time := Strptime.strptime time_str time_format in
   let total_second :=
     Float.add
       (Float.of_int (Z.of_nat (Strptime.second time) + Z.of_nat (Strptime.minute time) * 60
                      + Z.of_nat (Strptime.hour time) * 3600))
       (Float.int_truediv (Z.of_nat (Strptime.microsecond time)) 1000000) in
   Ok total_second)%res.

Definition convert_time (time_str : string) : result Float.float :=
  convert_time_chars (list_ascii_of_string time_str).

(** ** The document tree returned by the markup parser

    The parsed page ([BeautifulSoup(page.content, "lxml")]) as the extractors
    see it: tags with a name, attributes and children, and text nodes.  The
    document object itself is a tag whose children are the top-level nodes. *)

#[warnings="-register-all"]
Inductive node : Type :=
| Tag (name : string) (attrs : list (string * string)) (children : list node)
| NavigableString (text : string).

Module Soup.
Definition name (n : node) : string :=
  match n with Tag nm _ _ => nm | NavigableString _ => "" end.

Definition attrs (n : node) : list (string * string) :=
  match n with Tag _ a _ => a | NavigableString _ => [] end.

(** every node below [n], in document order *)
Fixpoint descendants (n : node) : list node :=
  match n with
  | Tag _ _ cs =>
      (fix below (l : list node) : list node :=
         match l with
         | [] => []
         | c :: l' => c :: descendants c ++ below l'
         end) cs
  | NavigableString _ => []
  end.

Definition is_tag (n : node) : bool :=
  match n with Tag _ _ _ => true | NavigableString _ => false end.

Fixpoint lookup (key : string) (a : list (string * string)) : option string :=
  match a with
  | [] => None
  | (k, v) :: a' => if String.eqb k key then Some v else lookup key a'
  end.

(** Python's whitespace among the characters of [ascii] *)
Definition is_space (c : ascii) : bool :=
  let n := nat_of_ascii c in
  ((9 <=? n) && (n <=? 13) || (28 <=? n) && (n <=? 32))%nat.

(** the whitespace-separated words of [s] *)
Fixpoint words_aux (cur : list ascii) (s : list ascii) : list string :=
  let flush := match cur with
               | [] => []
               | _ => [string_of_list_ascii (rev cur)]
               end in
  match s with
  | [] => flush
  | c :: r => if is_space c then flush ++ words_aux [] r
              else words_aux (c :: cur) r
  end.

Definition words (s : string) : list string :=
  words_aux [] (list_ascii_of_string s).

Fixpoint lstrip (s : list ascii) : list ascii :=
  match s with
  | c :: r => if is_space c then lstrip r else s
  | [] => []
  end.

(** [str.strip()] *)
Definition strip (s : string) : string :=
  string_of_list_ascii
    (rev (lstrip (rev (lstrip (list_ascii_of_string s))))).

(** [tag[key]] for an attribute with a single value *)
Definition getitem (n : node) (key : string) : result string :=
  match lookup key (attrs n) with
  | Some v => Ok v
  | None => Raise KeyError
  end.

(** [tag['class']]: the parser stores the class attribute as the list of
    its whitespace-separated words *)
Definition getitem_class (n : node) : result (list string) :=
  match lookup "class" (attrs n) with
  | Some v => Ok (words v)
  | None => Raise KeyError
  end.

(** The attribute part of a search: [{}], [{'class': c}] with one name or a
    list of names (a tag matches when one of its classes is among them), or
    [{key: value}] for a single-valued attribute. *)
Inductive attr_filter : Type :=
| any_attrs
| class_in (cs : list string)
| attr_is (key value : string).

Definition mem (x : string) (l : list string) : bool :=
  existsb (String.eqb x) l.

Definition attrs_match (f : attr_filter) (n : node) : bool :=
  match f with
  | any_attrs => true
  | class_in cs =>
      match lookup "class" (attrs n) with
      | Some v => existsb (fun c => mem c cs) (words v)
      | None => false
      end
  | attr_is key value =>
      match lookup key (attrs n) with
      | Some v => String.eqb v value
      | None => false
      end
  end.

Definition matches (nm : string) (f : attr_filter) (n : node) : bool :=
  is_tag n && String.eqb (name n) nm && attrs_match f n.

(** [tag.find_all(nm, f)] *)
Definition find_all (nm : string) (f : attr_filter) (n : node) : list node :=
  List.filter (matches nm f) (descendants n).

(** [tag.find(nm, f)]: the first match, or [None] *)
Definition find (nm : string) (f : attr_filter) (n : node) : option node :=
  hd_error (find_all nm f n).

(** [tag.find(function)]: the function is called on the tags below [n] in
    document order until it answers true; an exception it raises leaves
    the search. *)
Fixpoint first_such (p : node -> result bool) (l : list node)
  : result (option node) :=
  match l with
  | [] => Ok None
  | n :: l' =>
      if is_tag n then
        match p n with
        | Ok true => Ok (Some n)
        | Ok false => first_such p l'
        | Raise e => Raise e
        end
      else first_such p l'
  end.

Definition find_fn (p : node -> result bool) (n : node) : result (option node) :=
  first_such p (descendants n).

(** the text nodes below [n], in document order *)
Definition strings (n : node) : list string :=
  flat_map (fun d => match d with
                     | NavigableString t => [t]
                     | Tag _ _ _ => []
                     end) (descendants n).

(** [tag.text], [tag.get_text()] *)
Definition text (n : node) : string := String.concat "" (strings n).

(** [tag.get_text(strip=True)]: every text node stripped, the empty ones
    dropped *)
Definition get_text_strip (n : node) : string :=
  String.concat ""
    (List.filter (fun t => negb (String.eqb t "")) (map strip (strings n))).

(** [needle in haystack] for strings *)
Fixpoint contains (needle haystack : string) : bool :=
  String.prefix needle haystack
  || match haystack with
     | EmptyString => false
     | String _ rest => contains needle rest
     end.
End Soup.

(** A Python expression that is a tag or [None]. *)
Definition maybe_tag : Type := option node.

(** [x.method(...)]: on [None] it is an [AttributeError]. *)
Definition call {A} (x : maybe_tag) (method : node -> result A) : result A :=
  match x with
  | Some n => method n
  | None => Raise AttributeError
  end.

(** [x.find(nm, f)] *)
Definition py_find (nm : string) (f : Soup.attr_filter) (x : maybe_tag)
  : result maybe_tag :=
  call x (fun n => Ok (Soup.find nm f n)).

(** [x.find_all(nm, f)] *)
Definition py_find_all (nm : string) (f : Soup.attr_filter) (x : maybe_tag)
  : result (list node) :=
  call x (fun n => Ok (Soup.find_all nm f n)).

(** [x.get_text(strip=True)] *)
Definition py_get_text (x : maybe_tag) : result string :=
  call x (fun n => Ok (Soup.get_text_strip n)).

(** [x[key]]: on [None] it is a [TypeError], on a tag without the attribute a
    [KeyError]. *)
Definition py_getitem (x : maybe_tag) (key : string) : result string :=
  match x with
  | Some n => Soup.getitem n key
  | None => Raise TypeError
  end.

(** [d[key]] for a dictionary given by its items *)
Fixpoint dict_getitem {V} (d : list (string * V)) (key : string) : result V :=
  match d with
  | [] => Raise KeyError
  | (k, v) :: d' => if String.eqb k key then Ok v else dict_getitem d' key
  end.

(** [for x in l: if keep(x): data.append(make(x))] *)
Fixpoint filter_mapM {A B} (f : A -> result (option B)) (l : list A)
  : result (list B) :=
  match l with
  | [] => Ok []
  | x :: xs =>
      Res.bind (f x) (fun o =>
      Res.bind (filter_mapM f xs) (fun ys =>
      Ok (match o with Some y => y :: ys | None => ys end)))
  end.

(** ** Program state: the clock, the network, and the two mutable objects *)

(** The values that occur in a request's parameter mapping. *)
Inductive pyval : Type :=
| PyStr (s : string)
| PyInt (z : Z)
| PyNone.

#[global] Instance pyval_eq_dec : EqDecision pyval.
Proof. solve_decision. Defined.

(** A parameter mapping is a Python [dict]: equal when it has the same keys
    with the same values, whatever the order they were written in. *)
Abbreviation params := (gmap string pyval).

Definition dict (items : list (string * pyval)) : params := list_to_map items.

(** What one [session.get] meets: no answer at all, or a response with its
    status code and the document the parser builds from its content. *)
Inductive reply : Type :=
| NoConnection
| Response (status_code : Z) (document : node).

(** [now] is what [time.time()] returns.  [network] scripts the remote side:
    each GET consumes one entry, the time the exchange takes and its outcome
    (an exhausted script answers nothing).  [requests_sent] logs the GETs
    issued, oldest first. *)
Record world : Type := mk_world
  { now : Q;
    network : list (Q * reply);
    requests_sent : list params }.

(** [SessionManager]; its [session] is the [world], and the attribute
    [last_updated], never read or written after construction, is left out. *)
Record SessionManager : Type := mk_SessionManager
  { request_history : list Q;
    max_requests_per_second : Z;
    max_per : Q }.

Record ScraperMixin : Type := mk_ScraperMixin
  { last_request : option params;
    page_content : maybe_tag;
    update_interval : Q;
    last_updated : option Q }.

(** One extractor object ([self]) and the session manager it shares. *)
Record pystate : Type := mk_pystate
  { env : world;
    sessionManager : SessionManager;
    self : ScraperMixin }.

(** [SessionManager.__init__] *)
Definition SessionManager_init (max_requests_per_timeframe : Z * Q) : SessionManager :=
  {| request_history := [];
     max_requests_per_second := fst max_requests_per_timeframe;
     max_per := snd max_requests_per_timeframe |}.

(** [ScraperMixin.__init__] *)
Definition ScraperMixin_init (update_interval : Q) : ScraperMixin :=
  {| last_request := None;
     page_content := None;
     update_interval := update_interval;
     last_updated := None |}.

Definition M (A : Type) : Type := pystate -> result A * pystate.

Module St.
Definition ret {A} (a : A) : M A := fun st => (Ok a, st).

Definition bind {A B} (m : M A) (k : A -> M B) : M B :=
  fun st =>
    match m st with
    | (Ok a, st') => k a st'
    | (Raise e, st') => (Raise e, st')
    end.

Definition raise {A} (e : exn) : M A := fun st => (Raise e, st).

Definition lift {A} (r : result A) : M A := fun st => (r, st).

Definition get : M pystate := fun st => (Ok st, st).

Definition set_env (w : world) : M unit :=
  fun st => (Ok tt, {| env := w; sessionManager := sessionManager st; self := self st |}).

Definition set_sessionManager (sm : SessionManager) : M unit :=
  fun st => (Ok tt, {| env := env st; sessionManager := sm; self := self st |}).

Definition set_self (s : ScraperMixin) : M unit :=
  fun st => (Ok tt, {| env := env st; sessionManager := sessionManager st; self := s |}).

(** [try: body  except E: handler], the state as the body left it *)
Definition try_except {A} (E : exn -> bool) (body : M A) (handler : M A) : M A :=
  fun st =>
    match body st with
    | (Ok a, st') => (Ok a, st')
    | (Raise e, st') => if E e then handler st' else (Raise e, st')
    end.

(** [try: x = body  except E: return r] followed by the rest of the
    function, [rest x] *)
Definition try_except_return {A R} (E : exn -> bool) (body : M A) (r : R)
    (rest : A -> M R) : M R :=
  fun st =>
    match body st with
    | (Ok a, st') => rest a st'
    | (Raise e, st') => if E e then (Ok r, st') else (Raise e, st')
    end.
End St.

Declare Scope st_scope.
Delimit Scope st_scope with st.
Notation "'do' x '<-' c ';' k" := (St.bind c (fun x => k))
  (at level 10, x pattern, c at level 100, k at level 200) : st_scope.

(** [time.time()] *)
Definition time_time : M Q := fun st => (Ok (now (env st)), st).

Definition advance (d : Q) (w : world) : world :=
  {| now := (now w + d)%Q; network := network w; requests_sent := requests_sent w |}.

(** [time.sleep(d)]: a negative argument is a [ValueError], otherwise the
    clock moves on by [d]. *)
Definition time_sleep (d : Q) : M unit :=
  fun st =>
    if Qle_bool 0 d
    then St.set_env (advance d (env st)) st
    else (Raise ValueError, st).

(** Time passing between two calls of the caller. *)
Definition elapse (d : Q) : M unit :=
  fun st => St.set_env (advance d (env st)) st.

(** [session.get(BASE_URL, params=params)]: the request is sent, time passes,
    and the call returns the response or raises a transport error. *)
Definition session_get (p : params) : M (Z * node) :=
  fun st =>
    let w := env st in
    match network w with
    | [] =>
        (Raise ConnectionError,
         {| env := {| now := now w; network := []; requests_sent := requests_sent w ++ [p] |};
            sessionManager := sessionManager st; self := self st |})
    | (latency, r) :: rest =>
        let st' :=
          {| env := {| now := (now w + latency)%Q; network := rest;
                       requests_sent := requests_sent w ++ [p] |};
             sessionManager := sessionManager st; self := self st |} in
        match r with
        | NoConnection => (Raise ConnectionError, st')
        | Response code doc => (Ok (code, doc), st')
        end
    end.

(** [page.raise_for_status()]: client and server error codes raise. *)
Definition raise_for_status (status_code : Z) : M unit :=
  if ((400 <=? status_code) && (status_code <? 600))%Z
  then St.raise HTTPError
  else St.ret tt.

(** ** RateGovernor: [SessionManager] *)

Definition Qltb (x y : Q) : bool := negb (Qle_bool y x).

Definition with_history (sm : SessionManager) (h : list Q) : SessionManager :=
  {| request_history := h;
     max_requests_per_second := max_requests_per_second sm;
     max_per := max_per sm |}.

(** [SessionManager.add_request] *)
Definition add_request : M unit :=
  (do request_time <- time_time;
   do st <- St.get;
   let sm := sessionManager st in
   St.set_sessionManager (with_history sm (request_history sm ++ [request_time])))%st.

(** [SessionManager.check_request_rate_limit] *)
Definition check_request_rate_limit : M unit :=
  (do current_time <- time_time;
   do st <- St.get;
   let sm := sessionManager st in
   let window_start_time := (current_time - max_per sm)%Q in
   let valid_requests := List.filter (fun t => Qltb window_start_time t) (request_history sm) in
   if (Z.of_nat (length valid_requests) >=? max_requests_per_second sm)%Z then
     do first_valid <- St.lift (py_index valid_requests 0);
     let time_to_wait := (first_valid + max_per sm - current_time)%Q in
     do _ <- time_sleep time_to_wait;
     do st <- St.get;
     let sm := sessionManager st in
     St.set_sessionManager
       (with_history sm
          (List.filter (fun t => Qltb (window_start_time + time_to_wait) t)
             (request_history sm)))
   else St.ret tt)%st.

(** ** FetchCache: [ScraperMixin] *)

Definition is_None {A} (o : option A) : bool :=
  match o with None => true | Some _ => false end.

(** [ScraperMixin._update_page_content] *)
Definition _update_page_content (p : params) : M unit :=
  St.try_except is_RequestException
    (do _ <- check_request_rate_limit;
     do page <- session_get p;
     do _ <- raise_for_status (fst page);
     do st <- St.get;
     let s := self st in
     do _ <- St.set_self {| last_request := last_request s;
                       page_content := Some (snd page);
                       update_interval := update_interval s;
                       last_updated := last_updated s |};
     do t <- time_time;
     do st <- St.get;
     let s := self st in
     do _ <- St.set_self {| last_request := last_request s;
                       page_content := page_content s;
                       update_interval := update_interval s;
                       last_updated := Some t |};
     do _ <- add_request;
     do st <- St.get;
     do body <- St.lift (py_find "body" Soup.any_attrs (page_content (self st)));
     if is_None body then St.raise RequestException else St.ret tt)%st
    (St.ret tt).

(** The test of [_get_page_content]; [or] evaluates left to right and stops
    at the first true operand. *)
Definition needs_update (p : params) (s : ScraperMixin) (current_time : Q) : bool :=
  match last_updated s with
  | None => true
  | Some t =>
      negb (bool_decide (Some p = last_request s))
      || Qltb (update_interval s) (current_time - t)
  end.

(** [ScraperMixin._get_page_content] *)
Definition _get_page_content (p : params) : M maybe_tag :=
  (do st <- St.get;
   do current_time <- time_time;
   do _ <- (if needs_update p (self st) current_time
       then _update_page_content p else St.ret tt);
   do st <- St.get;
   let s := self st in
   do _ <- St.set_self {| last_request := Some p;
                     page_content := page_content s;
                     update_interval := update_interval s;
                     last_updated := last_updated s |};
   do st <- St.get;
   St.ret (page_content (self st)))%st.

(** ** Extractors *)

Record PersonalBest : Type := mk_PersonalBest
  { pb_result_id : Z; pb_event_name : string; pb_course_length : string;
    pb_time : Float.float; pb_fina_points : string }.

Record MeetAppearance : Type := mk_MeetAppearance
  { ma_meet_id : Z; ma_meet_date : string; ma_meet_city : string;
    ma_meet_name : string }.

Record ClubEntry : Type := mk_ClubEntry
  { club_id : string; club_name : string }.

Record Event : Type := mk_Event
  { event_id : string; event_gender : string; event_name : string }.

Record Race : Type := mk_Race
  { race_id : Z; race_name : string }.

Record ResultRow : Type := mk_ResultRow
  { rr_result_id : string; rr_athlete_id : string; rr_name : string;
    rr_club_name : string; rr_time : string; rr_split_times : list string }.

Record Period : Type := mk_Period
  { period_id : string; period_name : string }.

Record Nation : Type := mk_Nation
  { nation_id : string; nation_name : string }.

Record MeetSummary : Type := mk_MeetSummary
  { ms_meet_id : string; ms_meet_date : string; ms_meet_city : string;
    ms_meet_name : string; ms_course_length : string }.

Record RosterEntry : Type := mk_RosterEntry
  { athlete_id : string; athlete_name : string }.

Section Extractors.
(** Library functions the extractors call on the text they found; the
    properties below hold whatever these compute. *)

(** [unicodedata.normalize("NFKD", s)] *)
Variable normalize_NFKD : string -> string.
(** [parse_qs(urlparse(url).query)]: the query's keys with their values *)
Variable parse_qs_query : string -> list (string * list string).
(** [int(s)] *)
Variable py_int : string -> result Z.
(** [re.findall(r"<td class=\\'split1\\'>(.*?)<\/td>", s)] *)
Variable findall_split1 : string -> list string.

(** [parse_qs(urlparse(url).query)[key][0]] *)
Definition query_value (url key : string) : result string :=
  (let! values := dict_getitem (parse_qs_query url) key in
   py_index values 0)%res.

(** *** Athlete *)

Definition personal_best_of_row (row : node) : result PersonalBest :=
  (let! event_cell := py_find "td" (Soup.class_in ["event"]) (Some row) in
   let! event_link := py_find "a" Soup.any_attrs event_cell in
   let! event_name := py_get_text event_link in
   let! course_cell := py_find "td" (Soup.class_in ["course"]) (Some row) in
   let! course_length := py_get_text course_cell in
   let! time_cell := py_find "td" (Soup.class_in ["time"; "swimtimeImportant"]) (Some row) in
   let! time_text := py_get_text time_cell in
   let! time := convert_time time_text in
   let! time_link := py_find "a" Soup.any_attrs time_cell in
   let! result_url := py_getitem time_link "href" in
   let! id_text := query_value result_url "id" in
   let! result_id := py_int id_text in
   let! code_cell := py_find "td" (Soup.class_in ["code"]) (Some row) in
   let! fina_points := py_get_text code_cell in
   Ok (mk_PersonalBest result_id event_name course_length time fina_points))%res.

Definition personal_bests_params (athlete_id : pyval) (season : string) : params :=
  dict [("page", PyStr "athleteDetail"); ("athleteId", athlete_id);
        ("pbest", PyStr season)].

Definition Athlete_list_personal_bests (athlete_id : pyval) (season : string)
  : M (list PersonalBest) :=
  let params := personal_bests_params athlete_id season in
  St.try_except_return is_AttributeError
    (do soup <- _get_page_content params;
     St.lift (py_find "table" (Soup.class_in ["athleteBest"]) soup))%st
    []
    (fun table => St.lift
       (let! rows := py_find_all "tr" (Soup.class_in ["athleteBest0"; "athleteBest1"]) table in
        Res.mapM personal_best_of_row rows)%res).

Definition meet_appearance_of_row (row : node) : result MeetAppearance :=
  (let! date_cell := py_find "td" (Soup.class_in ["date"]) (Some row) in
   let! date_text := py_get_text date_cell in
   let meet_date := normalize_NFKD date_text in
   let! city_cell := py_find "td" (Soup.class_in ["city"]) (Some row) in
   let! link := py_find "a" Soup.any_attrs city_cell in
   let! meet_city := py_get_text link in
   let! link := py_find "a" Soup.any_attrs city_cell in
   let! meet_name := py_getitem link "title" in
   let! link := py_find "a" Soup.any_attrs city_cell in
   let! meet_url := py_getitem link "href" in
   let! id_text := query_value meet_url "meetId" in
   let! meet_id := py_int id_text in
   Ok (mk_MeetAppearance meet_id meet_date meet_city meet_name))%res.

Definition athlete_meets_params (athlete_id : pyval) : params :=
  dict [("page", PyStr "athleteDetail"); ("athleteId", athlete_id);
        ("athletePage", PyStr "MEET")].

Definition Athlete_list_meets (athlete_id : pyval) : M (list MeetAppearance) :=
  let params := athlete_meets_params athlete_id in
  St.try_except_return is_AttributeError
    (do soup <- _get_page_content params;
     St.lift (py_find "table" (Soup.class_in ["athleteMeet"]) soup))%st
    []
    (fun table => St.lift
       (let! rows := py_find_all "tr" (Soup.class_in ["athleteMeet0"; "athleteMeet1"]) table in
        Res.mapM meet_appearance_of_row rows)%res).

(** *** Meet *)

Definition club_of_row (row : node) : result ClubEntry :=
  (let! club_cell := py_find "td" (Soup.class_in ["club"]) (Some row) in
   let! link := py_find "a" Soup.any_attrs club_cell in
   let! club_url := py_getitem link "href" in
   let! club_id := query_value club_url "clubId" in
   let! link := py_find "a" Soup.any_attrs club_cell in
   let! club_name := py_get_text link in
   Ok (mk_ClubEntry club_id club_name))%res.

Definition meet_params (meet_id : pyval) : params :=
  dict [("page", PyStr "meetDetail"); ("meetId", meet_id)].

Definition Meet_list_clubs (meet_id : pyval) : M (list ClubEntry) :=
  let params := meet_params meet_id in
  St.try_except_return is_AttributeError
    (do soup <- _get_page_content params;
     St.lift (py_find "table" (Soup.class_in ["meetSearch"]) soup))%st
    []
    (fun table => St.lift
       (let! rows := py_find_all "tr" (Soup.class_in ["meetResult0"; "meetResult1"]) table in
        Res.mapM club_of_row rows)%res).

(** [lambda tag: tag.name == 'td' and tag['class'][0] == 'navigation'
                 and search_text in tag.text] *)
Definition is_menu_cell (search_text : string) (tag : node) : result bool :=
  if String.eqb (Soup.name tag) "td" then
    (let! classes := Soup.getitem_class tag in
     let! first_class := py_index classes 0 in
     if String.eqb first_class "navigation"
     then Ok (Soup.contains search_text (Soup.text tag))
     else Ok false)%res
  else Ok false.

Definition event_of_option (gender : string) (item : node) : result (option Event) :=
  (let! value := Soup.getitem item "value" in
   if negb (String.eqb value "0") then
     let! value := Soup.getitem item "value" in
     Ok (Some (mk_Event value gender (Soup.get_text_strip item)))
   else Ok None)%res.

Definition events_of_menu (table : maybe_tag) (search_text gender : string)
  : result (list Event) :=
  (let! menu := call table (Soup.find_fn (is_menu_cell search_text)) in
   let! items := py_find_all "option" Soup.any_attrs menu in
   filter_mapM (event_of_option gender) items)%res.

Definition Meet_list_events (meet_id : pyval) : M (list Event) :=
  let params := meet_params meet_id in
  St.try_except_return is_AttributeError
    (do soup <- _get_page_content params;
     St.lift (py_find "table" (Soup.class_in ["navigation"]) soup))%st
    []
    (fun table => St.lift
       (let! men := events_of_menu table "Men's events: " "1" in
        let! women := events_of_menu table "Women's events: " "2" in
        Ok (men ++ women))%res).

Definition race_of_table (id : nat) (table : node) : result Race :=
  (let! head := py_find "tr" (Soup.class_in ["meetResultHead"]) (Some table) in
   let! name_cell := py_find "th" (Soup.class_in ["event"]) head in
   let! name_text := py_get_text name_cell in
   let name := normalize_NFKD name_text in
   Ok (mk_Race (Z.of_nat id + 1) name))%res.

(** [for (id, table) in enumerate(tables): races.append(...)], counting
    from [id] *)
Fixpoint races_from (id : nat) (tables : list node) : result (list Race) :=
  match tables with
  | [] => Ok []
  | table :: rest =>
      (let! race := race_of_table id table in
       let! races := races_from (S id) rest in
       Ok (race :: races))%res
  end.

Definition meet_event_params (meet_id gender event_id : pyval) : params :=
  dict [("page", PyStr "meetDetail"); ("meetId", meet_id); ("gender", gender);
        ("styleId", event_id)].

Definition Meet_list_races (meet_id event_id gender : pyval) : M (list Race) :=
  let params := meet_event_params meet_id gender event_id in
  St.try_except_return is_AttributeError
    (do soup <- _get_page_content params;
     St.lift (py_find_all "table" (Soup.class_in ["meetResult"]) soup))%st
    []
    (fun tables => St.lift (races_from 0 tables)).

(** [try: tag['onmouseover']  except KeyError: ""] on the link of the time
    cell *)
Definition split_times_rough (link : maybe_tag) : result string :=
  match py_getitem link "onmouseover" with
  | Raise KeyError => Ok ""
  | r => r
  end.

Definition result_of_row (row : node) : result ResultRow :=
  (let! name_cell := py_find "td" (Soup.class_in ["name"]) (Some row) in
   let! link := py_find "a" Soup.any_attrs name_cell in
   let! name := py_get_text link in
   let! link := py_find "a" Soup.any_attrs name_cell in
   let! name_url := py_getitem link "href" in
   let! athlete_id := query_value name_url "athleteId" in
   let! club_cell := py_index (Soup.find_all "td" (Soup.class_in ["name"]) row) 1 in
   let! link := py_find "a" Soup.any_attrs (Some club_cell) in
   let! club_name := py_get_text link in
   let! time_cell := py_find "td" (Soup.class_in ["swimtime"]) (Some row) in
   let! link := py_find "a" Soup.any_attrs time_cell in
   let! time := py_get_text link in
   let! link := py_find "a" Soup.any_attrs time_cell in
   let! rough := split_times_rough link in
   let split_times := findall_split1 rough in
   let! link := py_find "a" Soup.any_attrs time_cell in
   let! result_url := py_getitem link "href" in
   let! result_id := query_value result_url "id" in
   Ok (mk_ResultRow result_id athlete_id name club_name time split_times))%res.

(** the rows [list_results] reads from one result table *)
Definition results_of_table (table : node) : result (list ResultRow) :=
  Res.mapM result_of_row
    (Soup.find_all "tr" (Soup.class_in ["meetResult0"; "meetResult1"]) table).

Definition Meet_list_results (meet_id event_id gender : pyval) (race_id : Z)
  : M (list ResultRow) :=
  let params := meet_event_params meet_id gender event_id in
  St.try_except_return is_AttributeError
    (do soup <- _get_page_content params;
     St.lift (py_find_all "table" (Soup.class_in ["meetResult"]) soup))%st
    []
    (fun tables => St.lift
       (let! table := py_index tables (race_id - 1) in
        results_of_table table)%res).

(** *** Result *)

Definition result_params (result_id : pyval) : params :=
  dict [("page", PyStr "resultDetail"); ("id", result_id)].

Definition Result_get_time (result_id : pyval) : M (option string) :=
  let params := result_params result_id in
  St.try_except_return is_AttributeError
    (do soup <- _get_page_content params;
     St.lift (let! cell := py_find "td" (Soup.class_in ["swimtimeLarge"]) soup in
              call cell (fun n => Ok (Soup.text n)))%res)%st
    None
    (fun data => St.ret (Some data)).

(** *** Meets *)

Definition meets_params (nation_id time_period_id : pyval) : params :=
  dict [("page", PyStr "meetSelect"); ("nationId", nation_id);
        ("selectPage", time_period_id)].

Definition meets_index_params : params :=
  meets_params (PyStr "0") (PyStr "RECENT").

Definition period_of_option (item : node) : result (option Period) :=
  (let! value := Soup.getitem item "value" in
   let! keep :=
     (if negb (String.eqb value "RECENT")
      then let! value := Soup.getitem item "value" in
           Ok (negb (String.eqb value "BYTYPE"))
      else Ok false) in
   if keep : bool then
     let! value := Soup.getitem item "value" in
     Ok (Some (mk_Period value (normalize_NFKD (Soup.get_text_strip item))))
   else Ok None)%res.

Definition Meets_list_time_periods : M (list Period) :=
  St.try_except_return is_AttributeError
    (do soup <- _get_page_content meets_index_params;
     St.lift (py_find "select" (Soup.attr_is "name" "selectPage") soup))%st
    []
    (fun menu => St.lift
       (let! items := py_find_all "option" Soup.any_attrs menu in
        filter_mapM period_of_option items)%res).

Definition nation_of_option (item : node) : result (option Nation) :=
  (let! value := Soup.getitem item "value" in
   if negb (String.eqb value "$$$") then
     let! value := Soup.getitem item "value" in
     Ok (Some (mk_Nation value (normalize_NFKD (Soup.get_text_strip item))))
   else Ok None)%res.

Definition Meets_list_nations : M (list Nation) :=
  St.try_except_return is_AttributeError
    (do soup <- _get_page_content meets_index_params;
     St.lift (py_find "select" (Soup.attr_is "name" "nationId") soup))%st
    []
    (fun menu => St.lift
       (let! items := py_find_all "option" Soup.any_attrs menu in
        filter_mapM nation_of_option items)%res).

Definition meet_summary_of_row (row : node) : result MeetSummary :=
  (let! date_cell := py_find "td" (Soup.class_in ["date"]) (Some row) in
   let! date_text := py_get_text date_cell in
   let meet_date := normalize_NFKD date_text in
   let! city_cell := py_find "td" (Soup.class_in ["city"]) (Some row) in
   let! link := py_find "a" Soup.any_attrs city_cell in
   let! city_text := py_get_text link in
   let meet_city := normalize_NFKD city_text in
   let! link := py_find "a" Soup.any_attrs city_cell in
   let! meet_url := py_getitem link "href" in
   let! name_cell := py_index (Soup.find_all "td" (Soup.class_in ["name"]) row) 1 in
   let! link := py_find "a" Soup.any_attrs (Some name_cell) in
   let! meet_name := py_get_text link in
   let! course_cell := py_find "td" (Soup.class_in ["course"]) (Some row) in
   let! course_length := py_get_text course_cell in
   let! meet_id := query_value meet_url "meetId" in
   Ok (mk_MeetSummary meet_id meet_date meet_city meet_name course_length))%res.

(** [for table in tables: for row in table.find_all(...): out.append(...)] *)
Fixpoint rows_of_tables {A} (row_classes : list string) (f : node -> result A)
    (tables : list node) : result (list A) :=
  match tables with
  | [] => Ok []
  | table :: rest =>
      (let! here := Res.mapM f (Soup.find_all "tr" (Soup.class_in row_classes) table) in
       let! there := rows_of_tables row_classes f rest in
       Ok (here ++ there))%res
  end.

Definition Meets_list_meets (nation_id time_period_id : pyval) : M (list MeetSummary) :=
  let params := meets_params nation_id time_period_id in
  St.try_except_return is_AttributeError
    (do soup <- _get_page_content params;
     St.lift (py_find_all "table" (Soup.class_in ["meetSearch"]) soup))%st
    []
    (fun tables => St.lift
       (rows_of_tables ["meetSearch0"; "meetSearch1"] meet_summary_of_row tables)).

(** *** Club *)

Definition roster_entry_of_row (row : node) : result RosterEntry :=
  (let! name_cell := py_find "td" (Soup.class_in ["name"]) (Some row) in
   let! link := py_find "a" Soup.any_attrs name_cell in
   let! name := py_get_text link in
   let! link := py_find "a" Soup.any_attrs name_cell in
   let! athlete_url := py_getitem link "href" in
   let! athlete_id := query_value athlete_url "athleteId" in
   Ok (mk_RosterEntry athlete_id name))%res.

Definition club_params (club_id : pyval) (athlete_gender : string) : params :=
  dict [("page", PyStr "rankingDetail"); ("clubId", club_id);
        ("stroke", PyStr "9"); ("athleteGender", PyStr athlete_gender)].

Definition Club_list_athletes (club_id : pyval) (gender : Z) : M (list RosterEntry) :=
  (do athlete_gender <- St.lift (py_index ["CURRENT"; "ALL_MEN"; "All_WOMEN"] gender);
   let params := club_params club_id athlete_gender in
   St.try_except_return is_AttributeError
     (do soup <- _get_page_content params;
      St.lift (py_find_all "table" (Soup.class_in ["athleteList"]) soup))
     []
     (fun tables => St.lift
        (rows_of_tables ["athleteSearch0"; "athleteSearch1"] roster_entry_of_row tables)))%st.
End Extractors.

(** ** Specification-level notions for [convert_time] *)

(** [txt] is a run of decimal digits with the values [ds]. *)
Definition numeral (txt : list ascii) (ds : list nat) : Prop :=
  Forall2 (fun c d => Strptime.digit c = Some d) txt ds.

(** A one- or two-digit component with value [v], at most [bound]. *)
Definition field (bound : nat) (txt : list ascii) (v : nat) : Prop :=
  exists ds, numeral txt ds /\ (length ds = 1 \/ length ds = 2)%nat
             /\ v = Strptime.int_of_digits ds /\ (v <= bound)%nat.

(** The fractional seconds: one to six digits. *)
Definition frac_field (txt : list ascii) (ds : list nat) : Prop :=
  numeral txt ds /\ (1 <= length ds <= 6)%nat.

(** The three shapes of a duration: [h:mm:ss.ffffff], [mm:ss.ffffff] and
    [ss.ffffff], with the values of their components. *)
Inductive duration_shape : list ascii -> nat -> nat -> nat -> list nat -> Prop :=
| shape_hms hh mm ss ff h m s f :
    field 23 hh h -> field 59 mm m -> field 59 ss s -> frac_field ff f ->
    duration_shape (hh ++ ":" :: mm ++ ":" :: ss ++ "." :: ff)%char h m s f
| shape_ms mm ss ff m s f :
    field 59 mm m -> field 59 ss s -> frac_field ff f ->
    duration_shape (mm ++ ":" :: ss ++ "." :: ff)%char 0 m s f
| shape_s ss ff s f :
    field 59 ss s -> frac_field ff f ->
    duration_shape (ss ++ "." :: ff)%char 0 0 s f.

(** The value of the digits [f] read after the decimal point. *)
Definition frac_value (f : list nat) : Q :=
  (Qnat (Strptime.int_of_digits f) / inject_Z (10 ^ Z.of_nat (length f)))%Q.

(** hours*3600 + minutes*60 + seconds, fraction included *)
Definition seconds_value (h m s : nat) (f : list nat) : Q :=
  (Qnat h * 3600 + Qnat m * 60 + Qnat s + frac_value f)%Q.

(** The string without its marker suffix, when it has one. *)
Definition strip_marker (s : list ascii) : list ascii :=
  match rev s with
  | c :: r => if Ascii.eqb c "M" then rev r else s
  | [] => s
  end.

Definition with_marker (marker : bool) (body : list ascii) : string :=
  string_of_list_ascii (body ++ (if marker then ["M"%char] else [])).

(** The next character, if any, is no digit. *)
Definition no_digit_ahead (r : list ascii) : Prop :=
  match r with [] => True | c :: _ => Strptime.digit c = None end.

(** The format [convert_time] picks for a string. *)
Definition format_of (s : list ascii) : Strptime.format :=
  if (count_colon s =? 2)%nat then Strptime.fmt_HMSf
  else if (count_colon s =? 1)%nat then Strptime.fmt_MSf
  else Strptime.fmt_Sf.

(** *** Notions for the binary64 arithmetic *)

(** The remainder [R] over [D] that a shift record stands for: its round bit
    tells whether the remainder is at least half, its sticky bit whether it
    is off both zero and the half. *)
Definition rec_ok (D R : Z) (rec : shr_record) : Prop :=
  (0 <= R < D)%Z /\ (shr_r rec = true <-> (D <= 2 * R)%Z)
  /\ (shr_s rec = true <-> R <> 0%Z /\ (2 * R)%Z <> D).

(** Where the remainder [R] over [D] lies between two neighbours. *)
Definition loc_of (R D : Z) : location :=
  if (R =? 0)%Z then loc_Exact else loc_Inexact (2 * R ?= D)%Z.

(** A positive float with a full mantissa of 53 bits, of moderate size. *)
Definition normal (m : positive) (e : Z) : Prop :=
  Zpos (digits2_pos m) = 53%Z /\ (-1000 <= e <= 0)%Z.

(** The whole seconds of a duration. *)
Definition whole_seconds (h m s : nat) : Z := Z.of_nat (h * 3600 + m * 60 + s).

(** 2^-36, a bound on the distance between the float returned and the exact
    value: half a unit in the last place of a float below 2^17 is 2^-37, and
    the rounding of the quotient adds at most 2^-54. *)
Definition rounding_tolerance : Q := 1 # 68719476736.

(** ** Specification-level notions for the rate governor *)

(** The recorded timestamps newer than [t - max_per]: the requests of the
    window that ends at [t]. *)
Definition valid_requests_at (sm : SessionManager) (t : Q) : list Q :=
  List.filter (fun r => Qltb (t - max_per sm) r) (request_history sm).

(** [t] falls within the trailing interval of length [w] that ends at [T]. *)
Definition in_window (w T t : Q) : bool := Qltb (T - w) t && Qle_bool t T.

Definition window_count (w T : Q) (log : list Q) : nat :=
  length (List.filter (in_window w T) log).

(** Timestamps in the order they were taken. *)
Definition chronological (l : list Q) : Prop := StronglySorted Qle l.

(** The history is in the order of the clock and holds nothing newer than
    now. *)
Definition history_in_order (st : pystate) : Prop :=
  chronological (request_history (sessionManager st))
  /\ Forall (fun r => (r <= now (env st))%Q) (request_history (sessionManager st)).

(** What a caller does with the governor: let time pass, ask for admission
    ([check_request_rate_limit]), record a request ([add_request]). *)
Inductive action : Type :=
| Elapse (d : Q)
| Admit
| Record_request.

Definition perform (a : action) : M unit :=
  match a with
  | Elapse d => elapse d
  | Admit => check_request_rate_limit
  | Record_request => add_request
  end.

Fixpoint run (trace : list action) : M unit :=
  match trace with
  | [] => St.ret tt
  | a :: rest => St.bind (perform a) (fun _ => run rest)
  end.

(** Admitted before recorded, read by counting: at no point of the trace
    have more requests been recorded than admitted, and time does not run
    backwards.  [pending] counts the admissions not yet used by a recording. *)
Fixpoint admitted_before_recorded (pending : nat) (trace : list action) : bool :=
  match trace with
  | [] => true
  | Elapse d :: rest => Qle_bool 0 d && admitted_before_recorded pending rest
  | Admit :: rest => admitted_before_recorded (S pending) rest
  | Record_request :: rest =>
      match pending with
      | O => false
      | S pending' => admitted_before_recorded pending' rest
      end
  end.

(** One request at a time: a [Record_request] follows an [Admit] of its own,
    with no other recording in between, and time does not run backwards.
    [admitted] tells whether an admission is pending. *)
Fixpoint follows_protocol (admitted : bool) (trace : list action) : bool :=
  match trace with
  | [] => true
  | Elapse d :: rest => Qle_bool 0 d && follows_protocol admitted rest
  | Admit :: rest => follows_protocol true rest
  | Record_request :: rest => admitted && follows_protocol false rest
  end.

Fixpoint admitted_after (admitted : bool) (trace : list action) : bool :=
  match trace with
  | [] => admitted
  | Elapse _ :: rest => admitted_after admitted rest
  | Admit :: rest => admitted_after true rest
  | Record_request :: rest => admitted_after false rest
  end.

(** Every timestamp recorded while the trace runs, oldest first (the history
    of the session manager forgets those it prunes). *)
Fixpoint recorded_during (trace : list action) (st : pystate) : list Q :=
  match trace with
  | [] => []
  | a :: rest =>
      (match a with Record_request => [now (env st)] | _ => [] end)
      ++ recorded_during rest (snd (perform a st))
  end.

(** The invariant of the request window: the history agrees with the full
    log on the current window, no trailing interval of the log holds more
    than the maximum, and a pending admission has room for its request. *)
Definition window_invariant (max : Z) (w : Q) (admitted : bool)
    (st : pystate) (log : list Q) : Prop :=
  let sm := sessionManager st in
  let live := fun r => Qltb (now (env st) - w) r in
  max_requests_per_second sm = max
  /\ max_per sm = w
  /\ List.filter live log = List.filter live (request_history sm)
  /\ (forall T, (Z.of_nat (window_count w T log) <= max)%Z)
  /\ (Z.of_nat (length (List.filter live (request_history sm))) <= max)%Z
  /\ (admitted = true ->
      (Z.of_nat (length (List.filter live (request_history sm))) < max)%Z).

(** A session manager configured [(max, w)] with the history [h], at time [t]. *)
Definition governor_state (max : Z) (w : Q) (h : list Q) (t : Q) : pystate :=
  {| env := {| now := t; network := []; requests_sent := [] |};
     sessionManager := {| request_history := h; max_requests_per_second := max;
                          max_per := w |};
     self := ScraperMixin_init 60 |}.

(** Three requests in quick succession. *)
Definition burst_trace : list action :=
  [Admit; Record_request; Elapse (1 # 10); Admit; Record_request;
   Elapse (1 # 10); Admit; Record_request].

(** Three callers are admitted one after the other, and only then record
    their requests, over four fifths of a second; a fourth asks for
    admission. *)
Definition interleaved_trace : list action :=
  [Admit; Admit; Admit; Record_request; Elapse (2 # 5); Record_request;
   Elapse (2 # 5); Record_request; Admit].

(** ** Specification-level notions for the fetch cache *)

(** The number of GETs issued so far. *)
Definition fetches (st : pystate) : nat := length (requests_sent (env st)).

(** A status code that [raise_for_status] lets through. *)
Definition http_ok (status_code : Z) : bool :=
  negb ((400 <=? status_code) && (status_code <? 600))%Z.

(** The state a request leaves behind: sent, logged, and its time spent. *)
Definition after_exchange (p : params) (latency : Q) (rest : list (Q * reply))
    (st : pystate) : pystate :=
  {| env := {| now := (now (env st) + latency)%Q; network := rest;
               requests_sent := requests_sent (env st) ++ [p] |};
     sessionManager := sessionManager st;
     self := self st |}.

(** The state a request leaves behind when the script of the network has run
    out: sent and logged, never answered. *)
Definition after_silence (p : params) (st : pystate) : pystate :=
  {| env := {| now := now (env st); network := [];
               requests_sent := requests_sent (env st) ++ [p] |};
     sessionManager := sessionManager st;
     self := self st |}.

(** The state after a response with a good status: the document cached, the
    time of the fetch noted, the request recorded. *)
Definition after_success (p : params) (latency : Q) (rest : list (Q * reply))
    (doc : node) (st : pystate) : pystate :=
  let t := (now (env st) + latency)%Q in
  {| env := {| now := t; network := rest;
               requests_sent := requests_sent (env st) ++ [p] |};
     sessionManager :=
       with_history (sessionManager st)
         (request_history (sessionManager st) ++ [t]);
     self := {| last_request := last_request (self st);
                page_content := Some doc;
                update_interval := update_interval (self st);
                last_updated := Some t |} |}.

(** A new extractor and a new session manager, at time 0, facing [net]. *)
Definition fresh_state (max_requests_per_timeframe : Z * Q) (interval : Q)
    (net : list (Q * reply)) : pystate :=
  {| env := {| now := 0; network := net; requests_sent := [] |};
     sessionManager := SessionManager_init max_requests_per_timeframe;
     self := ScraperMixin_init interval |}.

(** A parsed page with the given content in its body. *)
Definition page (content : list node) : node :=
  Tag "[document]" [] [Tag "html" [] [Tag "body" [] content]].

(** What the parser makes of an empty response: a document without body. *)
Definition empty_page : node := Tag "[document]" [] [].

Definition athlete_params : params :=
  dict [("page", PyStr "athleteDetail"); ("athleteId", PyStr "4292888");
        ("pbest", PyStr "")].

Definition other_params : params :=
  dict [("page", PyStr "athleteDetail"); ("athleteId", PyStr "4292888");
        ("pbest", PyStr "2024")].

(** [_get_page_content(p)] twice, [d] seconds apart. *)
Definition get_twice (p p' : params) (d : Q) : M maybe_tag :=
  St.bind (_get_page_content p) (fun _ =>
  St.bind (elapse d) (fun _ => _get_page_content p')).

(** [self.last_request = params] *)
Definition remember (p : params) (st : pystate) : pystate :=
  {| env := env st;
     sessionManager := sessionManager st;
     self := {| last_request := Some p;
                page_content := page_content (self st);
                update_interval := update_interval (self st);
                last_updated := last_updated (self st) |} |}.

(** The first fetch is refused by the server, the second one is served. *)
Definition refused_then_served : pystate :=
  fresh_state (15%Z, 30) 60 [(0, Response 500 empty_page); (0, Response 200 (page []))].

(** The first fetch is served, the second one is refused. *)
Definition served_then_refused : pystate :=
  fresh_state (15%Z, 30) 60 [(0, Response 200 (page [])); (0, Response 500 empty_page)].

(** The first fetch is served, the second one gets no answer. *)
Definition served_then_dropped : pystate :=
  fresh_state (15%Z, 30) 60 [(0, Response 200 (page [])); (0, NoConnection)].

(** The only fetch is answered with an empty body. *)
Definition served_empty : pystate :=
  fresh_state (15%Z, 30) 60 [(0, Response 200 empty_page)].

(** Two fetches are served. *)
Definition served_twice : pystate :=
  fresh_state (15%Z, 30) 60 [(0, Response 200 (page [])); (0, Response 200 (page []))].

(** The document the cache holds. *)
Definition cached (st : pystate) : maybe_tag := page_content (self st).

(** ** Example pages and states for the extractors *)

(** A page with a body and none of the tables the extractors look for. *)
Definition bare_page : node := page [Tag "p" [] [NavigableString "No data"]].

(** The fetch of the extractor is answered with [doc]. *)
Definition served (doc : node) : pystate :=
  fresh_state (15%Z, 30) 60 [(0, Response 200 doc)].

(** The fetch of the extractor gets no answer. *)
Definition unreachable : pystate := fresh_state (15%Z, 30) 60 [].

(** A result table with its heading and no rows. *)
Definition result_table (heading : string) : node :=
  Tag "table" [("class", "meetResult")]
    [Tag "tr" [("class", "meetResultHead")]
       [Tag "th" [("class", "event")] [NavigableString heading]]].

(** A page with two result tables for one event: the heats, then the final. *)
Definition two_race_page : node :=
  page [result_table "Heats"; result_table "Final"].

(** The result tables of a page, in document order. *)
Definition result_tables (soup : node) : list node :=
  Soup.find_all "table" (Soup.class_in ["meetResult"]) soup.

(** The result rows of a table, in document order. *)
Definition result_rows (table : node) : list node :=
  Soup.find_all "tr" (Soup.class_in ["meetResult0"; "meetResult1"]) table.

(** A result row: the athlete, the club, and the time with its link; [over]
    is what the link shows on hovering, if anything. *)
Definition result_row (class athlete_url name club time result_url : string)
    (over : list (string * string)) : node :=
  Tag "tr" [("class", class)]
    [Tag "td" [("class", "name")]
       [Tag "a" [("href", athlete_url)] [NavigableString name]];
     Tag "td" [("class", "name")]
       [Tag "a" [("href", "?page=clubDetail&clubId=7")] [NavigableString club]];
     Tag "td" [("class", "swimtime")]
       [Tag "a" (("href", result_url) :: over) [NavigableString time]]].

(** A result table with its heading and rows. *)
Definition result_table_with (heading : string) (rows : list node) : node :=
  Tag "table" [("class", "meetResult")]
    (Tag "tr" [("class", "meetResultHead")]
       [Tag "th" [("class", "event")] [NavigableString heading]] :: rows).

Definition heats_table : node :=
  result_table_with "Heats"
    [result_row "meetResult0" "?page=athleteDetail&athleteId=101" "Alice" "Club A" "29.10"
       "?page=resultDetail&id=11" [];
     result_row "meetResult1" "?page=athleteDetail&athleteId=102" "Bob" "Club B" "28.44"
       "?page=resultDetail&id=12"
       [("onmouseover", "<td class=\'split1\'>13.70</td>")]].

Definition final_table : node :=
  result_table_with "Final"
    [result_row "meetResult0" "?page=athleteDetail&athleteId=102" "Bob" "Club B" "27.90"
       "?page=resultDetail&id=21" []].

(** A page with the heats and the final of one event, with their results. *)
Definition heats_and_final_page : node := page [heats_table; final_table].

(** Stand-ins for the library functions, for running the extractors on the
    example pages: no normalisation, no query, no integer, no split times. *)
Definition same_text (s : string) : string := s.
Definition no_query (url : string) : list (string * list string) := [].
Definition no_int (s : string) : result Z := Raise ValueError.
Definition no_splits (s : string) : list string := [].

(** A stand-in for the query parser that knows the links of the example
    rows. *)
Definition example_query (url : string) : list (string * list string) :=
  if String.eqb url "?page=athleteDetail&athleteId=101"
  then [("page", ["athleteDetail"]); ("athleteId", ["101"])]
  else if String.eqb url "?page=athleteDetail&athleteId=102"
  then [("page", ["athleteDetail"]); ("athleteId", ["102"])]
  else if String.eqb url "?page=resultDetail&id=11"
  then [("page", ["resultDetail"]); ("id", ["11"])]
  else if String.eqb url "?page=resultDetail&id=12"
  then [("page", ["resultDetail"]); ("id", ["12"])]
  else if String.eqb url "?page=resultDetail&id=21"
  then [("page", ["resultDetail"]); ("id", ["21"])]
  else [].

(** ** Split times: the pattern of [Meet.list_results] *)

Module SplitTimes.
(** [re.findall(r"<td class=\\'split1\\'>(.*?)<\/td>", s)]: the text between
    each opening [<td class=\'split1\'>] (the quotes are escaped in the
    attribute that carries the payload) and the first [</td>] after it on
    the same line, scanning left to right without overlap. *)

Definition cell_open : list ascii := list_ascii_of_string "<td class=\'split1\'>".
Definition cell_close : list ascii := list_ascii_of_string "</td>".

Definition newline : ascii := ascii_of_nat 10.

(** [s] without the prefix [p], when it starts with it *)
Fixpoint strip_prefix (p s : list ascii) : option (list ascii) :=
  match p with
  | [] => Some s
  | c :: p' =>
      match s with
      | c' :: s' => if Ascii.eqb c c' then strip_prefix p' s' else None
      | [] => None
      end
  end.

(** [(.*?)<\/td>]: the shortest run of characters other than newline that
    is followed by the closing tag *)
Fixpoint lazy_group (s : list ascii) : option (list ascii) :=
  match strip_prefix cell_close s with
  | Some _ => Some []
  | None =>
      match s with
      | c :: s' =>
          if Ascii.eqb c newline then None
          else match lazy_group s' with
               | Some g => Some (c :: g)
               | None => None
               end
      | [] => None
      end
  end.

(** the group of a match that starts at the head of [s] *)
Definition match_at (s : list ascii) : option (list ascii) :=
  match strip_prefix cell_open s with
  | Some r => lazy_group r
  | None => None
  end.

(** The scan: [skip] characters still belong to the match found last. *)
Fixpoint findall_from (skip : nat) (s : list ascii) : list string :=
  match s with
  | [] => []
  | _ :: r =>
      match skip with
      | S k => findall_from k r
      | O =>
          match match_at s with
          | Some g =>
              string_of_list_ascii g
              :: findall_from (length cell_open + length g + length cell_close - 1) r
          | None => findall_from 0 r
          end
      end
  end.

Definition findall (s : string) : list string :=
  findall_from 0 (list_ascii_of_string s).

(** One split-time cell of the payload. *)
Definition cell (text : list ascii) : list ascii := cell_open ++ text ++ cell_close.

(** [p] and [s] differ at a position both have: [p] does not start [s], and
    no continuation of [s] makes it do so. *)
Fixpoint mismatch (p s : list ascii) : bool :=
  match p, s with
  | c :: p', c' :: s' => if Ascii.eqb c c' then mismatch p' s' else true
  | _, _ => false
  end.

(** No occurrence of [p] begins inside [s]. *)
Fixpoint clear_of (p s : list ascii) : bool :=
  match s with
  | [] => true
  | _ :: r => mismatch p s && clear_of p r
  end.

(** The text of a cell: on one line, and without the closing tag. *)
Definition cell_text (text : list ascii) : bool :=
  clear_of cell_close text && forallb (fun c => negb (Ascii.eqb c newline)) text.

(** Cells, each after a stretch without the opening tag, and such a stretch
    at the end. *)
Fixpoint payload (cells : list (list ascii * list ascii)) (tail : list ascii)
  : list ascii :=
  match cells with
  | [] => tail
  | (before, text) :: rest => before ++ cell text ++ payload rest tail
  end.

Definition well_formed_cell (c : list ascii * list ascii) : bool :=
  clear_of cell_open (fst c) && cell_text (snd c).

(** The payload of a row with two split times. *)
Definition two_splits : list (list ascii * list ascii) :=
  [(list_ascii_of_string "<tr><td class=\'split0\'>50m:</td>",
    list_ascii_of_string "28.91");
   (list_ascii_of_string "</tr><tr><td class=\'split0\'>100m:</td>",
    list_ascii_of_string "1:00.12")].
End SplitTimes.

(** ** The facade and the objects it hands out *)

(** [SwimrankingsScraper.__init__]: the session manager every extractor of
    the scraper shares, with the default limit. *)
Definition SwimrankingsScraper_init : SessionManager :=
  SessionManager_init (15%Z, 30).

(** The extractor objects handed out so far ([get_athlete], [get_meet],
    [get_result], [get_meets], [get_club]: each a new [ScraperMixin] with the
    default interval, bound to the shared session manager), the clock and
    network, and the session manager. *)
Record scraper : Type := mk_scraper
  { sc_env : world;
    sc_sessionManager : SessionManager;
    sc_objects : list ScraperMixin }.

(** [SwimrankingsScraper.get_athlete] and its siblings: a new object; the
    reference returned is its position. *)
Definition get_extractor (sc : scraper) : nat * scraper :=
  (length (sc_objects sc),
   {| sc_env := sc_env sc;
      sc_sessionManager := sc_sessionManager sc;
      sc_objects := sc_objects sc ++ [ScraperMixin_init 60] |}).

Fixpoint replace_nth {A} (i : nat) (x : A) (l : list A) : list A :=
  match l, i with
  | [], _ => []
  | _ :: l', O => x :: l'
  | y :: l', S i' => y :: replace_nth i' x l'
  end.

(** A method call on the object [i]: it runs with that object as [self] and
    the shared session manager, and leaves both as it changed them (also
    when it raises).  A reference to no object is an [AttributeError]. *)
Definition call_on {A} (i : nat) (method : M A) (sc : scraper) : result A * scraper :=
  match nth_error (sc_objects sc) i with
  | None => (Raise AttributeError, sc)
  | Some obj =>
      let '(r, st) := method {| env := sc_env sc;
                                sessionManager := sc_sessionManager sc;
                                self := obj |} in
      (r, {| sc_env := env st;
             sc_sessionManager := sessionManager st;
             sc_objects := replace_nth i (self st) (sc_objects sc) |})
  end.

(** What the caller of a scraper does: fetch a page through one of its
    extractors, or let time pass. *)
Inductive use : Type :=
| Fetch (i : nat) (p : params)
| Pause (d : Q).

Definition step_use (u : use) (sc : scraper) : result unit * scraper :=
  match u with
  | Fetch i p =>
      match call_on i (_get_page_content p) sc with
      | (Ok _, sc') => (Ok tt, sc')
      | (Raise e, sc') => (Raise e, sc')
      end
  | Pause d =>
      (Ok tt, {| sc_env := advance d (sc_env sc);
                 sc_sessionManager := sc_sessionManager sc;
                 sc_objects := sc_objects sc |})
  end.

Fixpoint run_uses (us : list use) (sc : scraper) : result unit * scraper :=
  match us with
  | [] => (Ok tt, sc)
  | u :: rest =>
      match step_use u sc with
      | (Ok _, sc') => run_uses rest sc'
      | (Raise e, sc') => (Raise e, sc')
      end
  end.

(** Every reference names an object and time does not run backwards. *)
Definition sound_use (n : nat) (u : use) : bool :=
  match u with
  | Fetch i _ => (i <? n)%nat
  | Pause d => Qle_bool 0 d
  end.

(** A scraper with [n] extractors and nothing requested yet, facing [net]. *)
Definition new_scraper (n : nat) (net : list (Q * reply)) : scraper :=
  {| sc_env := {| now := 0; network := net; requests_sent := [] |};
     sc_sessionManager := SwimrankingsScraper_init;
     sc_objects := repeat (ScraperMixin_init 60) n |}.

(** ** What an extractor makes of the page it got *)

(** [try: x = lookup(soup)  except AttributeError: return r] and then
    [rest x], for the page [soup] that [_get_page_content] returned. *)
Definition entry_result {A R} (lookup : maybe_tag -> result A) (r : R)
    (rest : A -> result R) (soup : maybe_tag) : result R :=
  match lookup soup with
  | Ok a => rest a
  | Raise e => if is_AttributeError e then Ok r else Raise e
  end.

(** The cache of the extractor holds a page fetched for the mapping [p] no
    longer than the update interval ago. *)
Definition cache_fresh (p : params) (st : pystate) : Prop :=
  exists t, last_updated (self st) = Some t
            /\ last_request (self st) = Some p
            /\ (now (env st) - t <= update_interval (self st))%Q.


(** A result row whose time has no split times attached. *)
Definition plain_result_row : node :=
  Tag "tr" [("class", "meetResult0")]
    [Tag "td" [("class", "name")]
       [Tag "a" [("href", "?page=athleteDetail&athleteId=1")]
          [NavigableString "DOE, John"]];
     Tag "td" [("class", "name")]
       [Tag "a" [("href", "?page=rankingDetail&clubId=3")] [NavigableString "Club"]];
     Tag "td" [("class", "swimtime")]
       [Tag "a" [("href", "?page=resultDetail&id=2")] [NavigableString "28.44"]]].

(** [out] holds exactly the records made of the options of [menu] whose
    value is not one of [skip]. *)
Definition menu_entries {R} (menu : node) (skip : list string)
    (make : string -> node -> R) (out : list R) : Prop :=
  forall y,
    In y out <->
    exists item v,
      In item (Soup.find_all "option" Soup.any_attrs menu)
      /\ Soup.getitem item "value" = Ok v
      /\ Soup.mem v skip = false
      /\ y = make v item.

(** The two menu cells of a meet, and the navigation table with them. *)
Definition men_cell : node :=
  Tag "td" [("class", "navigation")]
    [NavigableString "Men's events: ";
     Tag "select" []
       [Tag "option" [("value", "0")] [NavigableString "Select"];
        Tag "option" [("value", "1")] [NavigableString "50m Freestyle"]]].

Definition women_cell : node :=
  Tag "td" [("class", "navigation")]
    [NavigableString "Women's events: ";
     Tag "select" []
       [Tag "option" [("value", "0")] [NavigableString "Select"];
        Tag "option" [("value", "2")] [NavigableString "100m Freestyle"]]].

Definition navigation_table : node :=
  Tag "table" [("class", "navigation")] [Tag "tr" [] [men_cell; women_cell]].

(** The same table with a cell without class in front of the menus. *)
Definition navigation_table_with_plain_cell : node :=
  Tag "table" [("class", "navigation")]
    [Tag "tr" [] [Tag "td" [] [NavigableString "Events"]];
     Tag "tr" []
       [Tag "td" [("class", "navigation")] [NavigableString "Men's events: "];
        Tag "td" [("class", "navigation")] [NavigableString "Women's events: "]]].

(** A row of personal bests, its time being [time_text], and the table
    with this one row. *)
Definition personal_best_row (time_text : string) : node :=
  Tag "tr" [("class", "athleteBest0")]
    [Tag "td" [("class", "event")] [Tag "a" [] [NavigableString "50m Freestyle"]];
     Tag "td" [("class", "course")] [NavigableString "25m"];
     Tag "td" [("class", "time")]
       [Tag "a" [("href", "?page=resultDetail&id=7")] [NavigableString time_text]];
     Tag "td" [("class", "code")] [NavigableString "512"]].

Definition personal_best_table (time_text : string) : node :=
  Tag "table" [("class", "athleteBest")] [personal_best_row time_text].

(** The state a method of one extractor of the scraper runs in. *)
Definition scraper_state (sc : scraper) (obj : ScraperMixin) : pystate :=
  {| env := sc_env sc; sessionManager := sc_sessionManager sc; self := obj |}.

(** What holds of a scraper with [n] extractors at any time: the network
    takes no negative time, and the request window invariant of the shared
    session manager. *)
Definition scraper_ok (n : nat) (sc : scraper) : Prop :=
  length (sc_objects sc) = n
  /\ Forall (fun e => (0 <= fst e)%Q) (network (sc_env sc))
  /\ exists log,
       window_invariant 15 30 false (scraper_state sc (ScraperMixin_init 60)) log.

(** Three extractors asking for pages in turn, the server answering. *)
Definition busy_uses : list use :=
  [Fetch 0 athlete_params; Fetch 1 other_params; Pause 1; Fetch 2 athlete_params;
   Fetch 0 athlete_params].

Definition busy_network : list (Q * reply) :=
  [(1 # 2, Response 200 (page [])); (1 # 2, Response 500 empty_page);
   (1 # 2, Response 200 (page []))].

(** A scraper whose only extractor holds the page of [athlete_params],
    fetched at time 0; the time is 10. *)
Definition holding_scraper : scraper :=
  {| sc_env := {| now := 10; network := [(0, Response 200 (page []))];
                  requests_sent := [athlete_params] |};
     sc_sessionManager := with_history SwimrankingsScraper_init [0];
     sc_objects := [{| last_request := Some athlete_params;
                       page_content := Some (page []);
                       update_interval := 60;
                       last_updated := Some 0 |}] |}.

(** The page of a result: its time in the large cell. *)
Definition result_page : node :=
  page [Tag "table" []
          [Tag "tr" []
             [Tag "td" [("class", "swimtimeLarge")] [NavigableString "28.44"]]]].

(** * Verified properties *)

(** ** DurationParser *)

Section StrptimeFacts.
Import Strptime.

Lemma digit_colon c d : digit c = Some d -> Ascii.eqb ":" c = false.
Proof.
  destruct c as [[] [] [] [] [] [] [] []]; vm_compute; congruence.
Qed.

Lemma digit_not_M c d : digit c = Some d -> Ascii.eqb c "M" = false.
Proof.
  destruct c as [[] [] [] [] [] [] [] []]; vm_compute; congruence.
Qed.

Lemma digit_bound c d : digit c = Some d -> (d <= 9)%nat.
Proof.
  unfold digit. destruct (_ && _) eqn:E; [|discriminate].
  intros [= <-]. apply andb_true_iff in E as [_ E%Nat.leb_le]. lia.
Qed.

Lemma digit_colon_None : digit ":" = None.
Proof. reflexivity. Qed.

Lemma digit_dot_None : digit "." = None.
Proof. reflexivity. Qed.

Lemma numeral_length txt ds : numeral txt ds -> length txt = length ds.
Proof. apply Forall2_length. Qed.

Lemma count_colon_app s t : count_colon (s ++ t) = (count_colon s + count_colon t)%nat.
Proof. unfold count_colon. now rewrite List.filter_app, length_app. Qed.

Lemma numeral_count_colon txt ds : numeral txt ds -> count_colon txt = 0%nat.
Proof.
  induction 1 as [|c d txt ds Hc _ IH]; [reflexivity|].
  unfold count_colon in *. cbn [List.filter].
  now rewrite (digit_colon _ _ Hc).
Qed.

Lemma field_numeral bound txt v : field bound txt v -> exists ds, numeral txt ds.
Proof. intros (ds & H & _). eauto. Qed.

Lemma field_count_colon bound txt v : field bound txt v -> count_colon txt = 0%nat.
Proof. intros (ds & H & _). eapply numeral_count_colon; eauto. Qed.

(** A field is one digit, or two digits within the bound. *)
Lemma field_inv bound txt v :
  field bound txt v ->
  (exists c, txt = [c] /\ digit c = Some v /\ (v <= bound)%nat)
  \/ (exists c1 c2 a b, txt = [c1; c2] /\ digit c1 = Some a /\ digit c2 = Some b
                        /\ v = (10 * a + b)%nat /\ (v <= bound)%nat).
Proof.
  intros (ds & Hn & Hlen & -> & Hb).
  destruct Hn as [|c1 a txt ds H1 Hn]; [cbn in Hlen; lia|].
  destruct Hn as [|c2 b txt ds H2 Hn].
  - left. exists c1. cbn in *. replace (a + 0)%nat with a in * by lia.
    replace (0 + a)%nat with a in * by lia. auto.
  - destruct Hn; [|cbn in Hlen; lia].
    right. exists c1, c2, a, b. cbn in *. repeat split; auto; lia.
Qed.

Lemma field_one c v bound :
  digit c = Some v -> (v <= bound)%nat -> field bound [c] v.
Proof.
  intros H Hb. exists [v].
  split; [repeat constructor; assumption|].
  split; [left; reflexivity|].
  split; [cbn; lia|assumption].
Qed.

Lemma field_two c1 c2 a b bound :
  digit c1 = Some a -> digit c2 = Some b -> (10 * a + b <= bound)%nat ->
  field bound [c1; c2] (10 * a + b).
Proof.
  intros H1 H2 Hb. exists [a; b].
  split; [repeat constructor; assumption|].
  split; [right; reflexivity|].
  split; [cbn; lia|assumption].
Qed.

Lemma field_weaken b1 b2 txt v :
  field b1 txt v -> (v <= b2)%nat -> field b2 txt v.
Proof. intros (ds & ? & ? & ? & _) ?. exists ds. auto. Qed.

Lemma two_digits_short p c r : no_digit_ahead r -> two_digits p (c :: r) = [].
Proof.
  destruct r as [|c' r]; cbn; [reflexivity|].
  intros ->. now destruct (digit c).
Qed.

Lemma rx_H_hit hh h r :
  field 23 hh h -> no_digit_ahead r -> exists tl, rx_H (hh ++ r) = (h, r) :: tl.
Proof.
  intros [(c & -> & Hc & _)|(c1 & c2 & a & b & -> & H1 & H2 & -> & Hb)]%field_inv Hr.
  - unfold rx_H. cbn [app]. rewrite !two_digits_short by assumption.
    cbn. rewrite Hc. eauto.
  - pose proof (digit_bound _ _ H2).
    unfold rx_H, two_digits. cbn [app]. rewrite H1, H2.
    destruct (Nat.eqb_spec a 2) as [->|Hne]; cbn [andb].
    + destruct (Nat.leb_spec b 3); [|lia]. cbn. eauto.
    + destruct (Nat.leb_spec a 1); [|lia]. cbn. eauto.
Qed.

Lemma rx_M_hit mm m r :
  field 59 mm m -> no_digit_ahead r -> exists tl, rx_M (mm ++ r) = (m, r) :: tl.
Proof.
  intros [(c & -> & Hc & _)|(c1 & c2 & a & b & -> & H1 & H2 & -> & Hb)]%field_inv Hr.
  - unfold rx_M. cbn [app]. rewrite !two_digits_short by assumption.
    cbn. rewrite Hc. eauto.
  - unfold rx_M, two_digits. cbn [app]. rewrite H1, H2.
    destruct (Nat.leb_spec a 5); [|lia]. cbn. eauto.
Qed.

Lemma rx_S_hit ss s r :
  field 59 ss s -> no_digit_ahead r -> exists tl, rx_S (ss ++ r) = (s, r) :: tl.
Proof.
  intros [(c & -> & Hc & _)|(c1 & c2 & a & b & -> & H1 & H2 & -> & Hb)]%field_inv Hr.
  - unfold rx_S. cbn [app]. rewrite !two_digits_short by assumption.
    cbn. rewrite Hc. eauto.
  - unfold rx_S, two_digits. cbn [app]. rewrite H1, H2.
    destruct (Nat.eqb_spec a 6) as [->|Hne]; [lia|]. cbn [andb].
    destruct (Nat.leb_spec a 5); [|lia]. cbn. eauto.
Qed.

Lemma digits_n_exact txt ds r :
  numeral txt ds -> digits_n (length ds) (txt ++ r) = Some (ds, r).
Proof.
  induction 1 as [|c d txt ds Hc _ IH]; [reflexivity|].
  cbn. now rewrite Hc, IH.
Qed.

Lemma digits_n_short txt ds k :
  numeral txt ds -> (length ds < k)%nat -> digits_n k txt = None.
Proof.
  intros H. revert k. induction H as [|c d txt ds Hc _ IH]; intros k Hk.
  - destruct k; [cbn in Hk; lia|reflexivity].
  - destruct k; [lia|]. cbn in *. rewrite Hc, IH by lia. reflexivity.
Qed.

Lemma rx_f_unfold s :
  rx_f s = opt_cand (digits_n 6 s) ++ opt_cand (digits_n 5 s)
           ++ opt_cand (digits_n 4 s) ++ opt_cand (digits_n 3 s)
           ++ opt_cand (digits_n 2 s) ++ opt_cand (digits_n 1 s) ++ [].
Proof. reflexivity. Qed.

Lemma rx_f_hit ff f :
  frac_field ff f -> exists tl, rx_f ff = (f, []) :: tl.
Proof.
  intros [Hn Hlen]. rewrite rx_f_unfold.
  pose proof (digits_n_exact ff f [] Hn) as Hex. rewrite app_nil_r in Hex.
  assert (Hs : forall k, (length f < k)%nat -> opt_cand (digits_n k ff) = [])
    by (intros k Hk; now rewrite (digits_n_short ff f k Hn Hk)).
  assert (length f = 1 \/ length f = 2 \/ length f = 3 \/ length f = 4
          \/ length f = 5 \/ length f = 6)%nat as Hc by lia.
  destruct Hc as [E|[E|[E|[E|[E|E]]]]]; rewrite E in Hex, Hs;
    rewrite ?Hs by lia; rewrite Hex; cbn; eauto.
Qed.

Lemma seq_cons {A B} a r (tl : cands A) (k : A -> list ascii -> cands B) :
  seq ((a, r) :: tl) k = k a r ++ seq tl k.
Proof. reflexivity. Qed.

Lemma lit_hit c r : lit c (c :: r) = [(tt, r)].
Proof. cbn. now rewrite Ascii.eqb_refl. Qed.

Lemma rx_Sf_hit h m ss ff s f :
  field 59 ss s -> frac_field ff f ->
  exists tl, rx_Sf_from h m (ss ++ "."%char :: ff) = ((h, m, s, f), []) :: tl.
Proof.
  intros Hs Hf. unfold rx_Sf_from.
  destruct (rx_S_hit ss s ("."%char :: ff) Hs digit_dot_None) as [t1 ->].
  destruct (rx_f_hit ff f Hf) as [t2 E2].
  rewrite seq_cons, lit_hit, seq_cons, E2, seq_cons. cbn. eauto.
Qed.

Lemma rx_MSf_hit h mm ss ff m s f :
  field 59 mm m -> field 59 ss s -> frac_field ff f ->
  exists tl, rx_MSf_from h (mm ++ ":"%char :: ss ++ "."%char :: ff)
             = ((h, m, s, f), []) :: tl.
Proof.
  intros Hm Hs Hf. unfold rx_MSf_from.
  destruct (rx_M_hit mm m (":"%char :: ss ++ "."%char :: ff) Hm digit_colon_None) as [t1 ->].
  destruct (rx_S_hit ss s ("."%char :: ff) Hs digit_dot_None) as [t2 E2].
  destruct (rx_f_hit ff f Hf) as [t3 E3].
  rewrite seq_cons, lit_hit, seq_cons, E2, seq_cons, lit_hit, seq_cons, E3, seq_cons.
  cbn. eauto.
Qed.

Lemma frac_count_colon ff f : frac_field ff f -> count_colon ff = 0%nat.
Proof. intros [H _]. eapply numeral_count_colon; eauto. Qed.

Lemma count_colon_cons_colon s : count_colon (":"%char :: s) = S (count_colon s).
Proof. reflexivity. Qed.

Lemma count_colon_cons_dot s : count_colon ("."%char :: s) = count_colon s.
Proof. reflexivity. Qed.

(** A string of one of the three shapes is parsed, by the format chosen from
    its colons, into the components of the shape. *)
Lemma strptime_shape s h m sec f :
  duration_shape s h m sec f ->
  strptime s (format_of s) = Ok (mk_time h m sec (fraction f)).
Proof.
  intros H. destruct H as [hh mm ss ff h m s f Hh Hm Hs Hf
                          |mm ss ff m s f Hm Hs Hf
                          |ss ff s f Hs Hf].
  - assert (Hfmt : format_of (hh ++ ":"%char :: mm ++ ":"%char :: ss ++ "."%char :: ff)
                   = fmt_HMSf).
    { unfold format_of.
      rewrite count_colon_app, count_colon_cons_colon, count_colon_app,
        count_colon_cons_colon, count_colon_app, count_colon_cons_dot,
        (field_count_colon _ _ _ Hh), (field_count_colon _ _ _ Hm),
        (field_count_colon _ _ _ Hs), (frac_count_colon _ _ Hf).
      reflexivity. }
    rewrite Hfmt. unfold strptime, regex.
    destruct (rx_H_hit hh h (":"%char :: mm ++ ":"%char :: ss ++ "."%char :: ff)
                Hh digit_colon_None) as [t1 ->].
    destruct (rx_MSf_hit h mm ss ff m s f Hm Hs Hf) as [t2 E2].
    rewrite seq_cons, lit_hit, seq_cons, E2. cbn [app hd_error].
    destruct Hs as (ds & _ & _ & _ & Hb).
    destruct (Nat.ltb_spec 59 s); [lia|reflexivity].
  - assert (Hfmt : format_of (mm ++ ":"%char :: ss ++ "."%char :: ff) = fmt_MSf).
    { unfold format_of.
      rewrite count_colon_app, count_colon_cons_colon, count_colon_app,
        count_colon_cons_dot,
        (field_count_colon _ _ _ Hm),
        (field_count_colon _ _ _ Hs), (frac_count_colon _ _ Hf).
      reflexivity. }
    rewrite Hfmt. unfold strptime, regex.
    destruct (rx_MSf_hit 0 mm ss ff m s f Hm Hs Hf) as [t2 ->].
    cbn [hd_error].
    destruct Hs as (ds & _ & _ & _ & Hb).
    destruct (Nat.ltb_spec 59 s); [lia|reflexivity].
  - assert (Hfmt : format_of (ss ++ "."%char :: ff) = fmt_Sf).
    { unfold format_of.
      rewrite count_colon_app, count_colon_cons_dot,
        (field_count_colon _ _ _ Hs), (frac_count_colon _ _ Hf).
      reflexivity. }
    rewrite Hfmt. unfold strptime, regex.
    destruct (rx_Sf_hit 0 0 ss ff s f Hs Hf) as [t2 ->].
    cbn [hd_error].
    destruct Hs as (ds & _ & _ & _ & Hb).
    destruct (Nat.ltb_spec 59 s); [lia|reflexivity].
Qed.

Lemma two_digits_In p s v r :
  In (v, r) (two_digits p s) ->
  exists c1 c2 a b, s = c1 :: c2 :: r /\ digit c1 = Some a /\ digit c2 = Some b
                    /\ p a b = true /\ v = (10 * a + b)%nat.
Proof.
  destruct s as [|c1 [|c2 s]]; cbn; try tauto.
  destruct (digit c1) as [a|] eqn:H1; [|cbn; tauto].
  destruct (digit c2) as [b|] eqn:H2; [|cbn; tauto].
  destruct (p a b) eqn:Hp; cbn; [|tauto].
  intros [[= <- <-]|[]]. exists c1, c2, a, b. auto.
Qed.

Lemma one_digit_In s v r :
  In (v, r) (one_digit s) -> exists c, s = c :: r /\ digit c = Some v.
Proof.
  destruct s as [|c s]; cbn; try tauto.
  destruct (digit c) as [a|] eqn:H1; cbn; [|tauto].
  intros [[= <- <-]|[]]. eauto.
Qed.

Lemma two_digits_field bound p s v r :
  In (v, r) (two_digits p s) -> (v <= bound)%nat ->
  exists txt, s = txt ++ r /\ field bound txt v.
Proof.
  intros (c1 & c2 & a & b & -> & H1 & H2 & _ & ->)%two_digits_In Hb.
  exists [c1; c2]. split; [reflexivity|]. now apply field_two.
Qed.

Lemma one_digit_field bound s v r :
  In (v, r) (one_digit s) -> (v <= bound)%nat ->
  exists txt, s = txt ++ r /\ field bound txt v.
Proof.
  intros (c & -> & H1)%one_digit_In Hb.
  exists [c]. split; [reflexivity|]. now apply field_one.
Qed.

Lemma two_digits_bound p s v r bound :
  In (v, r) (two_digits p s) ->
  (forall a b, p a b = true -> (b <= 9)%nat -> (10 * a + b <= bound)%nat) ->
  (v <= bound)%nat.
Proof.
  intros (c1 & c2 & a & b & -> & H1 & H2 & Hp & ->)%two_digits_In Hall.
  apply Hall; [assumption|]. eapply digit_bound; eauto.
Qed.

Lemma one_digit_bound s v r : In (v, r) (one_digit s) -> (v <= 9)%nat.
Proof. intros (c & -> & H1)%one_digit_In. eapply digit_bound; eauto. Qed.

Lemma rx_H_In s v r :
  In (v, r) (rx_H s) -> exists txt, s = txt ++ r /\ field 23 txt v.
Proof.
  unfold rx_H. rewrite !in_app_iff. intros [H|[H|H]].
  - eapply two_digits_field; [eassumption|].
    eapply two_digits_bound; [eassumption|]. cbn. intros a b Hp _.
    apply andb_true_iff in Hp as [->%Nat.eqb_eq Hb%Nat.leb_le]. lia.
  - eapply two_digits_field; [eassumption|].
    eapply two_digits_bound; [eassumption|]. cbn. intros a b Hp%Nat.leb_le ?. lia.
  - eapply one_digit_field; [eassumption|].
    apply one_digit_bound in H. lia.
Qed.

Lemma rx_M_In s v r :
  In (v, r) (rx_M s) -> exists txt, s = txt ++ r /\ field 59 txt v.
Proof.
  unfold rx_M. rewrite !in_app_iff. intros [H|H].
  - eapply two_digits_field; [eassumption|].
    eapply two_digits_bound; [eassumption|]. cbn. intros a b Hp%Nat.leb_le ?. lia.
  - eapply one_digit_field; [eassumption|].
    apply one_digit_bound in H. lia.
Qed.

(** The seconds group also matches 60 and 61. *)
Lemma rx_S_In s v r :
  In (v, r) (rx_S s) -> exists txt, s = txt ++ r /\ field 61 txt v.
Proof.
  unfold rx_S. rewrite !in_app_iff. intros [H|[H|H]].
  - eapply two_digits_field; [eassumption|].
    eapply two_digits_bound; [eassumption|]. cbn. intros a b Hp _.
    apply andb_true_iff in Hp as [->%Nat.eqb_eq Hb%Nat.leb_le]. lia.
  - eapply two_digits_field; [eassumption|].
    eapply two_digits_bound; [eassumption|]. cbn. intros a b Hp%Nat.leb_le ?. lia.
  - eapply one_digit_field; [eassumption|].
    apply one_digit_bound in H. lia.
Qed.

Lemma digits_n_Some n s ds r :
  digits_n n s = Some (ds, r) ->
  exists txt, s = txt ++ r /\ numeral txt ds /\ length ds = n.
Proof.
  revert s ds r. induction n as [|n IH]; intros s ds r; cbn.
  - intros [= <- <-]. exists []. repeat split. constructor.
  - destruct s as [|c s]; [discriminate|].
    destruct (digit c) as [a|] eqn:Hc; [|discriminate].
    destruct (digits_n n s) as [[ds' r']|] eqn:E; [|discriminate].
    intros [= <- <-]. destruct (IH _ _ _ E) as (txt & -> & Hn & Hl).
    exists (c :: txt). repeat split.
    + now constructor.
    + cbn. now rewrite Hl.
Qed.

Lemma rx_f_In s f r :
  In (f, r) (rx_f s) -> exists txt, s = txt ++ r /\ frac_field txt f.
Proof.
  unfold rx_f. rewrite in_flat_map. intros (n & Hn & Hin).
  destruct (digits_n n s) as [[ds r']|] eqn:E; cbn in Hin; [|tauto].
  destruct Hin as [[= -> ->]|[]].
  destruct (digits_n_Some _ _ _ _ E) as (txt & -> & Hnum & Hl).
  exists txt. split; [reflexivity|]. split; [assumption|].
  cbn in Hn. lia.
Qed.

Lemma lit_In c s u r : In (u, r) (lit c s) -> s = c :: r.
Proof.
  destruct s as [|c' s]; cbn; [tauto|].
  destruct (Ascii.eqb_spec c c') as [->|]; cbn; [|tauto].
  intros [H|[]]. now inversion H.
Qed.

Lemma seq_In {A B} (m : cands A) (k : A -> list ascii -> cands B) x :
  In x (seq m k) -> exists a r, In (a, r) m /\ In x (k a r).
Proof.
  unfold seq. rewrite in_flat_map. intros ([a r] & ? & ?). eauto.
Qed.

Lemma rx_Sf_In h0 m0 s h m sec f r :
  In ((h, m, sec, f), r) (rx_Sf_from h0 m0 s) ->
  h = h0 /\ m = m0 /\
  exists ss ff, s = ss ++ "."%char :: ff ++ r /\ field 61 ss sec /\ frac_field ff f.
Proof.
  unfold rx_Sf_from.
  intros (v1 & r1 & (ss & -> & Hs)%rx_S_In & H)%seq_In.
  apply seq_In in H as (u & r2 & ->%lit_In & H).
  apply seq_In in H as (v3 & r3 & (ff & -> & Hf)%rx_f_In & H).
  destruct H as [[= <- <- <- <- <-]|[]]. eauto 10.
Qed.

Lemma rx_MSf_In h0 s h m sec f r :
  In ((h, m, sec, f), r) (rx_MSf_from h0 s) ->
  h = h0 /\
  exists mm ss ff, s = mm ++ ":"%char :: ss ++ "."%char :: ff ++ r
                   /\ field 59 mm m /\ field 61 ss sec /\ frac_field ff f.
Proof.
  unfold rx_MSf_from.
  intros (v0 & r0 & (mm & -> & Hm)%rx_M_In & H)%seq_In.
  apply seq_In in H as (u0 & r0' & ->%lit_In & H).
  apply seq_In in H as (v1 & r1 & (ss & -> & Hs)%rx_S_In & H).
  apply seq_In in H as (u & r2 & ->%lit_In & H).
  apply seq_In in H as (v3 & r3 & (ff & -> & Hf)%rx_f_In & H).
  destruct H as [[= <- <- <- <- <-]|[]]. eauto 10.
Qed.

(** Whatever the regular expression of a format matches up to the end of the
    string has one of the three shapes (seconds up to 61). *)
Lemma regex_In fmt s h m sec f :
  In ((h, m, sec, f), []) (regex fmt s) -> (sec <= 59)%nat ->
  duration_shape s h m sec f.
Proof.
  intros H Hsec. destruct fmt; cbn [regex] in H.
  - apply seq_In in H as (v0 & r0 & (hh & -> & Hh)%rx_H_In & H).
    apply seq_In in H as (u0 & r0' & ->%lit_In & H).
    apply rx_MSf_In in H as (-> & mm & ss & ff & -> & Hm & Hs & Hf).
    rewrite app_nil_r. constructor; auto. eapply field_weaken; eauto.
  - apply rx_MSf_In in H as (-> & mm & ss & ff & -> & Hm & Hs & Hf).
    rewrite app_nil_r. constructor; auto. eapply field_weaken; eauto.
  - apply rx_Sf_In in H as (-> & -> & ss & ff & -> & Hs & Hf).
    rewrite app_nil_r. constructor; auto. eapply field_weaken; eauto.
Qed.

Lemma hd_error_In {A} (l : list A) x : hd_error l = Some x -> In x l.
Proof. destruct l; cbn; [discriminate|]. intros [= ->]. now left. Qed.

(** [strptime] raises nothing but [ValueError]. *)
Lemma strptime_raises s fmt e : strptime s fmt = Raise e -> e = ValueError.
Proof.
  unfold strptime.
  destruct (hd_error _) as [[[[[h m] sec] f] [|? ?]]|]; try congruence.
  destruct (_ <? _)%nat; congruence.
Qed.

(** [strptime] returns a time only for a string of one of the shapes. *)
Lemma strptime_Ok s fmt t :
  strptime s fmt = Ok t ->
  exists h m sec f, duration_shape s h m sec f /\ t = mk_time h m sec (fraction f).
Proof.
  unfold strptime.
  destruct (hd_error _) as [[[[[h m] sec] f] [|? ?]]|] eqn:E; try discriminate.
  destruct (Nat.ltb_spec 59 sec); [discriminate|]. intros [= <-].
  exists h, m, sec, f. split; [|reflexivity].
  eapply regex_In; [eapply hd_error_In; eassumption|lia].
Qed.

End StrptimeFacts.

Lemma py_index_last {A} (l : list A) x : py_index (l ++ [x]) (-1) = Ok x.
Proof.
  unfold py_index. rewrite length_app. cbn [length].
  replace ((-1 <? 0)%Z) with true by reflexivity.
  destruct (Z.ltb_spec (-1 + Z.of_nat (length l + 1)) 0); [lia|].
  destruct (Z.leb_spec (Z.of_nat (length l + 1)) (-1 + Z.of_nat (length l + 1))); [lia|].
  cbn [orb].
  replace (Z.to_nat (-1 + Z.of_nat (length l + 1))) with (length l) by lia.
  rewrite nth_error_app2 by lia. now rewrite Nat.sub_diag.
Qed.

Lemma py_index_empty {A} (i : Z) : py_index (@nil A) i = Raise IndexError.
Proof.
  unfold py_index. cbn [length].
  destruct (i <? 0)%Z eqn:E.
  - rewrite Z.add_0_r, E. reflexivity.
  - replace (Z.of_nat 0 <=? i)%Z with true; [now rewrite orb_true_r|].
    symmetry. apply Z.leb_le. apply Z.ltb_ge in E. lia.
Qed.

Lemma strip_marker_last l x :
  strip_marker (l ++ [x]) = if Ascii.eqb x "M" then l else l ++ [x].
Proof.
  unfold strip_marker. rewrite rev_app_distr. cbn [rev app].
  now rewrite rev_involutive.
Qed.

(** On a non-empty string [convert_time] is [strptime] on the string without
    its marker, in the format chosen from the colons left. *)
Lemma convert_time_chars_nonempty l x :
  convert_time_chars (l ++ [x]) =
  let body := strip_marker (l ++ [x]) in
  Res.bind (Strptime.strptime body (format_of body))
    (fun time =>
       Ok (Float.add
             (Float.of_int (Z.of_nat (Strptime.second time)
                            + Z.of_nat (Strptime.minute time) * 60
                            + Z.of_nat (Strptime.hour time) * 3600))
             (Float.int_truediv (Z.of_nat (Strptime.microsecond time)) 1000000))).
Proof.
  unfold convert_time_chars. rewrite py_index_last. cbn [Res.bind].
  rewrite strip_marker_last. unfold drop_last. rewrite removelast_last.
  destruct (Ascii.eqb x "M"); reflexivity.
Qed.

Lemma nonempty_last {A} (l : list A) : l <> [] -> exists l' x, l = l' ++ [x].
Proof.
  intros H. destruct (exists_last H) as (l' & x & ->). eauto.
Qed.

(** A string of one of the shapes ends in a digit. *)
Lemma duration_shape_last s h m sec f :
  duration_shape s h m sec f ->
  exists l x d, s = l ++ [x] /\ Strptime.digit x = Some d.
Proof.
  assert (Hff : forall ff f, frac_field ff f ->
                exists l x d, ff = l ++ [x] /\ Strptime.digit x = Some d).
  { intros ff f0 [Hn Hl].
    assert (ff <> []) as Hne.
    { intros ->. inversion Hn; subst. cbn in Hl. lia. }
    destruct (nonempty_last _ Hne) as (l & x & ->).
    apply Forall2_app_inv_l in Hn as (f1 & f2 & _ & Hx & _).
    inversion Hx; subst. eauto. }
  intros H. destruct H as [hh mm ss ff h m s f _ _ _ Hf
                          |mm ss ff m s f _ _ Hf
                          |ss ff s f _ Hf];
    destruct (Hff _ _ Hf) as (l & x & d & -> & Hd).
  - exists (hh ++ ":"%char :: mm ++ ":"%char :: ss ++ "."%char :: l), x, d.
    split; [|assumption]. repeat (rewrite <- app_assoc; cbn [app]). reflexivity.
  - exists (mm ++ ":"%char :: ss ++ "."%char :: l), x, d.
    split; [|assumption]. repeat (rewrite <- app_assoc; cbn [app]). reflexivity.
  - exists (ss ++ "."%char :: l), x, d.
    split; [|assumption]. repeat (rewrite <- app_assoc; cbn [app]). reflexivity.
Qed.

Lemma fold_digits_zeros k acc :
  fold_left (fun a d => (10 * a + d)%nat) (repeat 0%nat k) acc = (acc * 10 ^ k)%nat.
Proof.
  revert acc. induction k as [|k IH]; intros acc; cbn [repeat fold_left].
  - cbn. lia.
  - rewrite IH. rewrite Nat.pow_succ_r'. lia.
Qed.

Lemma fraction_pad f :
  Strptime.fraction f = (Strptime.int_of_digits f * 10 ^ (6 - length f))%nat.
Proof.
  unfold Strptime.fraction, Strptime.int_of_digits.
  now rewrite fold_left_app, fold_digits_zeros.
Qed.

(** Padding the digits to microseconds keeps the value of the fraction. *)
Lemma fraction_value f :
  (1 <= length f <= 6)%nat ->
  (Qnat (Strptime.fraction f) / 1000000 == frac_value f)%Q.
Proof.
  intros Hl. rewrite fraction_pad. unfold frac_value, Qnat.
  rewrite Nat2Z.inj_mul, inject_Z_mult.
  assert (length f = 1 \/ length f = 2 \/ length f = 3 \/ length f = 4
          \/ length f = 5 \/ length f = 6)%nat as Hc by lia.
  destruct Hc as [E|[E|[E|[E|[E|E]]]]]; rewrite E; cbn [Nat.sub];
    generalize (inject_Z (Z.of_nat (Strptime.int_of_digits f))); intros a;
    vm_compute (inject_Z (Z.of_nat (10 ^ _))); vm_compute (inject_Z (10 ^ _));
    field.
Qed.

Lemma int_of_digits_bound_from (ds : list nat) :
  Forall (fun d => (d <= 9)%nat) ds ->
  forall acc,
    (fold_left (fun a d => (10 * a + d)%nat) ds acc < (acc + 1) * 10 ^ length ds)%nat.
Proof.
  induction 1 as [|d ds Hd _ IH]; intros acc; cbn [fold_left length].
  - cbn. lia.
  - specialize (IH (10 * acc + d)%nat). rewrite Nat.pow_succ_r'. nia.
Qed.

Lemma numeral_digits txt ds :
  numeral txt ds -> Forall (fun d => (d <= 9)%nat) ds.
Proof.
  induction 1 as [|c d txt ds Hc _ IH]; constructor; [|assumption].
  eapply digit_bound; eassumption.
Qed.

(** The microseconds read from one to six digits are below a million. *)
Lemma fraction_bound ff f :
  frac_field ff f -> (Z.of_nat (Strptime.fraction f) < 1000000)%Z.
Proof.
  intros [Hn Hl]. unfold Strptime.fraction, Strptime.int_of_digits.
  pose proof (numeral_digits _ _ Hn) as Hd.
  assert (Hall : Forall (fun d => (d <= 9)%nat) (f ++ repeat 0%nat (6 - length f))).
  { apply Forall_app. split; [assumption|]. apply Forall_forall.
    intros x Hx. apply repeat_spec in Hx. lia. }
  pose proof (int_of_digits_bound_from _ Hall 0%nat) as Hb.
  rewrite length_app, repeat_length in Hb.
  replace (length f + (6 - length f))%nat with 6%nat in Hb by lia.
  apply Nat2Z.inj_lt in Hb. rewrite Nat2Z.inj_mul, Nat2Z.inj_pow in Hb.
  change (Z.of_nat (0 + 1) * Z.of_nat 10 ^ Z.of_nat 6)%Z with 1000000%Z in Hb.
  exact Hb.
Qed.

Lemma duration_shape_bounds s h m sec f :
  duration_shape s h m sec f ->
  (h <= 23)%nat /\ (m <= 59)%nat /\ (sec <= 59)%nat
  /\ (Z.of_nat (Strptime.fraction f) < 1000000)%Z.
Proof.
  intros H.
  destruct H as [hh mm ss ff h m s f (? & _ & _ & _ & ?) (? & _ & _ & _ & ?)
                   (? & _ & _ & _ & ?) Hf
                |mm ss ff m s f (? & _ & _ & _ & ?) (? & _ & _ & _ & ?) Hf
                |ss ff s f (? & _ & _ & _ & ?) Hf];
    pose proof (fraction_bound _ _ Hf); repeat split; try assumption; lia.
Qed.

Lemma Qnat_le n k : (n <= k)%nat -> (Qnat n <= Qnat k)%Q.
Proof. intros H. unfold Qnat. rewrite <- Zle_Qle. lia. Qed.

Lemma Qnat_nonneg n : (0 <= Qnat n)%Q.
Proof. apply (Qnat_le 0 n). lia. Qed.


(** ** The binary64 arithmetic used by [convert_time]

    [Float.of_int], [Float.int_truediv] and [Float.add] are the conversion,
    division and addition of [SpecFloat]; the lemmas below bound their
    rounding on the numbers [convert_time] meets: whole seconds below 86400
    and microseconds below a million. *)

Section Binary64.
Local Open Scope Z_scope.


Ltac pow_atoms :=
  repeat match goal with
         | |- context [2 ^ ?x] => let a := fresh "a" in set (a := 2 ^ x) in *; clearbody a
         | H : context [2 ^ ?x] |- _ =>
             let a := fresh "a" in set (a := 2 ^ x) in *; clearbody a
         end.

Lemma digits2_pos_bounds m :
  2 ^ (Zpos (digits2_pos m) - 1) <= Zpos m < 2 ^ Zpos (digits2_pos m).
Proof.
  induction m as [m IH|m IH|]; cbn [digits2_pos].
  - rewrite Pos2Z.inj_succ, (Pos2Z.inj_xI m).
    replace (Z.succ (Zpos (digits2_pos m)) - 1) with (Z.succ (Zpos (digits2_pos m) - 1)) by lia.
    rewrite !Z.pow_succ_r by lia. pow_atoms. lia.
  - rewrite Pos2Z.inj_succ, (Pos2Z.inj_xO m).
    replace (Z.succ (Zpos (digits2_pos m)) - 1) with (Z.succ (Zpos (digits2_pos m) - 1)) by lia.
    rewrite !Z.pow_succ_r by lia. pow_atoms. lia.
  - cbn. lia.
Qed.

Lemma digits2_pos_unique m k :
  2 ^ (k - 1) <= Zpos m < 2 ^ k -> Zpos (digits2_pos m) = k.
Proof.
  intros [Hl Hu]. pose proof (digits2_pos_bounds m) as [Hl' Hu'].
  assert (0 < k).
  { destruct (Z.ltb_spec 0 k); [assumption|]. exfalso.
    destruct (Z.eqb_spec k 0) as [->|]; [cbn in Hu; lia|].
    rewrite (Z.pow_neg_r 2 k) in Hu by lia. lia. }
  assert (k - 1 < Zpos (digits2_pos m)).
  { apply (Z.pow_lt_mono_r_iff 2); lia. }
  assert (Zpos (digits2_pos m) - 1 < k).
  { apply (Z.pow_lt_mono_r_iff 2); lia. }
  lia.
Qed.

Lemma iter_xO m k : Zpos (Pos.iter xO m k) = Zpos m * 2 ^ Zpos k.
Proof.
  induction k as [|k IH] using Pos.peano_ind.
  - cbn. lia.
  - rewrite Pos.iter_succ, Pos2Z.inj_xO, IH, Pos2Z.inj_succ, Z.pow_succ_r by lia. lia.
Qed.



Lemma rec_ok_init m R D :
  0 <= R < D -> rec_ok D R (shr_record_of_loc m (loc_of R D)).
Proof.
  intros H. unfold loc_of, rec_ok.
  destruct (Z.eqb_spec R 0) as [->|Hne].
  - cbn. split; [lia|]. split; split; try discriminate; lia.
  - pose proof (Z.compare_spec (2 * R) D) as C.
    destruct (2 * R ?= D); cbn [shr_record_of_loc shr_r shr_s]; inversion C.
    all: (split; [lia|]); split; split.
    all: first [discriminate | lia | (intros; reflexivity) | (intros; exfalso; lia)
               | (intros _; lia)].
Qed.

Lemma shr_m_init m l : shr_m (shr_record_of_loc m l) = m.
Proof. now destruct l as [|[]]. Qed.

Lemma shr_1_step D R rec :
  0 <= shr_m rec -> rec_ok D R rec ->
  exists b, (b = 0 \/ b = 1)
            /\ shr_m rec = 2 * shr_m (shr_1 rec) + b
            /\ rec_ok (2 * D) (b * D + R) (shr_1 rec).
Proof.
  destruct rec as [m r s]. cbn [shr_m]. intros Hm (HR & Hr & Hs). cbn [shr_r shr_s] in *.
  assert (Hrs : orb r s = true <-> R <> 0).
  { rewrite orb_true_iff. split.
    - intros [H|H]; [apply Hr in H|apply Hs in H]; lia.
    - intros Hne. destruct (Z.le_gt_cases D (2 * R)); [left; now apply Hr|right; apply Hs; lia]. }
  destruct m as [|[p|p|]|p]; [| | | |lia]; cbn [shr_1 shr_m].
  - exists 0. split; [now left|]. split; [lia|].
    unfold rec_ok; cbn [shr_r shr_s]. rewrite Hrs. split; [lia|]. split; [split; [discriminate|lia]|].
    split; lia.
  - exists 1. split; [now right|]. split; [lia|].
    unfold rec_ok; cbn [shr_r shr_s]. rewrite Hrs. split; [lia|]. split; [split; [lia|reflexivity]|].
    split; lia.
  - exists 0. split; [now left|]. split; [lia|].
    unfold rec_ok; cbn [shr_r shr_s]. rewrite Hrs. split; [lia|]. split; [split; [discriminate|lia]|].
    split; lia.
  - exists 1. split; [now right|]. split; [lia|].
    unfold rec_ok; cbn [shr_r shr_s]. rewrite Hrs. split; [lia|]. split; [split; [lia|reflexivity]|].
    split; lia.
Qed.

Lemma shr_1_nonneg rec : 0 <= shr_m rec -> 0 <= shr_m (shr_1 rec).
Proof. destruct rec as [[|[p|p|]|p] r s]; cbn; lia. Qed.

Lemma shr_iter p :
  forall D R rec,
    0 <= shr_m rec -> rec_ok D R rec ->
    0 <= shr_m (iter_pos shr_1 p rec)
    /\ exists R', rec_ok (2 ^ Zpos p * D) R' (iter_pos shr_1 p rec)
                  /\ shr_m (iter_pos shr_1 p rec) * (2 ^ Zpos p * D) + R'
                     = shr_m rec * D + R.
Proof.
  induction p as [p IH|p IH|]; intros D R rec Hm Hok; cbn [iter_pos].
  - destruct (shr_1_step D R rec Hm Hok) as (b & Hb & E1 & Hok1).
    pose proof (shr_1_nonneg rec Hm) as Hm1.
    destruct (IH _ _ _ Hm1 Hok1) as (Hm2 & R2 & Hok2 & E2).
    destruct (IH _ _ _ Hm2 Hok2) as (Hm3 & R3 & Hok3 & E3).
    split; [assumption|]. exists R3.
    replace (2 ^ Zpos p~1 * D) with (2 ^ Zpos p * (2 ^ Zpos p * (2 * D))).
    + split; [assumption|]. rewrite E3, E2, E1. ring.
    + rewrite (Pos2Z.inj_xI p).
      replace (2 * Zpos p + 1) with (Zpos p + Zpos p + 1) by lia.
      rewrite !Z.pow_add_r by lia. change (2 ^ 1) with 2. ring.
  - destruct (IH _ _ _ Hm Hok) as (Hm2 & R2 & Hok2 & E2).
    destruct (IH _ _ _ Hm2 Hok2) as (Hm3 & R3 & Hok3 & E3).
    split; [assumption|]. exists R3.
    replace (2 ^ Zpos p~0 * D) with (2 ^ Zpos p * (2 ^ Zpos p * D)).
    + split; [assumption|]. rewrite E3, E2. ring.
    + rewrite (Pos2Z.inj_xO p). replace (2 * Zpos p) with (Zpos p + Zpos p) by lia.
      rewrite Z.pow_add_r by lia. ring.
  - destruct (shr_1_step D R rec Hm Hok) as (b & Hb & E1 & Hok1).
    split; [now apply shr_1_nonneg|]. exists (b * D + R).
    change (2 ^ 1) with 2. split; [assumption|]. rewrite E1. ring.
Qed.

Lemma round_nearest_even_ok D R rec :
  rec_ok D R rec ->
  shr_m rec <= round_nearest_even (shr_m rec) (loc_of_shr_record rec) <= shr_m rec + 1
  /\ 2 * Z.abs (round_nearest_even (shr_m rec) (loc_of_shr_record rec) * D
                - (shr_m rec * D + R)) <= D.
Proof.
  destruct rec as [m r s]. intros (HR & Hr & Hs). cbn [shr_m shr_r shr_s] in *.
  destruct r.
  - assert (D <= 2 * R) by now apply Hr.
    destruct s; cbn [loc_of_shr_record round_nearest_even].
    + split; [lia|]. nia.
    + assert (2 * R = D).
      { destruct (Z.eq_dec (2 * R) D); [assumption|].
        assert (false = true) by (apply Hs; lia). discriminate. }
      destruct (Z.even m); split; try lia; nia.
  - assert (~ D <= 2 * R) by (intros X; apply Hr in X; discriminate).
    destruct s; cbn [loc_of_shr_record round_nearest_even]; split; try lia; nia.
Qed.

Lemma shr_fexp_normal m e D R n :
  0 <= R < D ->
  Zpos (digits2_pos m) = 53 + n -> 0 <= n -> -1074 <= e + n ->
  exists rec R',
    shr_fexp 53 1024 (Zpos m) e (loc_of R D) = (rec, e + n)
    /\ 0 <= shr_m rec
    /\ rec_ok (2 ^ n * D) R' rec
    /\ shr_m rec * (2 ^ n * D) + R' = Zpos m * D + R.
Proof.
  intros HR Hd Hn Hlo. unfold shr_fexp, fexp, emin. cbn [Zdigits2]. rewrite Hd.
  replace (Z.max (53 + n + e - 53) (3 - 1024 - 53) - e) with n by lia.
  destruct n as [|p|p]; [| |lia]; cbn [shr].
  - exists (shr_record_of_loc (Zpos m) (loc_of R D)), R.
    rewrite Z.add_0_r, shr_m_init. change (2 ^ 0) with 1. rewrite Z.mul_1_l.
    split; [reflexivity|]. split; [lia|]. split; [now apply rec_ok_init|reflexivity].
  - destruct (shr_iter p D R (shr_record_of_loc (Zpos m) (loc_of R D)))
      as (Hm & R' & Hok & E); [rewrite shr_m_init; lia|now apply rec_ok_init|].
    rewrite shr_m_init in E. eauto 6.
Qed.

Lemma binary_round_aux_normal m e D R n :
  0 <= R < D ->
  Zpos (digits2_pos m) = 53 + n -> 0 <= n -> -1074 <= e + n -> e + n + 1 <= 971 ->
  exists mz ez,
    binary_round_aux 53 1024 false (Zpos m) e (loc_of R D) = S754_finite false mz ez
    /\ Zpos (digits2_pos mz) = 53
    /\ e + n <= ez <= e + n + 1
    /\ 2 * Z.abs (Zpos mz * 2 ^ (ez - e) * D - (Zpos m * D + R)) <= 2 ^ n * D.
Proof.
  intros HR Hd Hn Hlo Hhi. unfold binary_round_aux.
  destruct (shr_fexp_normal m e D R n HR Hd Hn Hlo) as (rec & R' & -> & Hm & Hok & E).
  destruct (round_nearest_even_ok _ _ _ Hok) as (Hm1 & Hb).
  set (m1 := round_nearest_even (shr_m rec) (loc_of_shr_record rec)) in *.
  pose proof (digits2_pos_bounds m) as Hdig. rewrite Hd in Hdig.
  replace (53 + n - 1) with (52 + n) in Hdig by lia.
  rewrite !Z.pow_add_r in Hdig by lia.
  change (2 ^ 52) with 4503599627370496 in Hdig.
  change (2 ^ 53) with 9007199254740992 in Hdig.
  assert (HP : 0 < 2 ^ n) by (apply Z.pow_pos_nonneg; lia).
  set (P := 2 ^ n) in *.
  destruct Hok as (HR' & _).
  assert (Hq : 4503599627370496 <= shr_m rec < 9007199254740992).
  { set (q := shr_m rec) in *. split.
    - destruct (Z.le_gt_cases 4503599627370496 q); [assumption|exfalso].
      assert ((q + 1) * (P * D) <= 4503599627370496 * (P * D)) by nia.
      assert (4503599627370496 * P * D <= Zpos m * D) by nia.
      lia.
    - destruct (Z.lt_ge_cases q 9007199254740992); [assumption|exfalso].
      assert (9007199254740992 * (P * D) <= q * (P * D)) by nia.
      assert ((Zpos m + 1) * D <= 9007199254740992 * P * D) by nia.
      lia. }
  destruct (Z.eq_dec m1 9007199254740992) as [Ec|Hnc].
  - rewrite Ec. unfold shr_fexp, fexp, emin. cbn [Zdigits2].
    change (digits2_pos 9007199254740992) with 54%positive.
    replace (Z.max (54 + (e + n) - 53) (3 - 1024 - 53) - (e + n)) with 1 by lia.
    cbn [shr iter_pos shr_record_of_loc shr_1 shr_m].
    destruct (Z.leb_spec (e + n + 1) (1024 - 53)); [|lia].
    exists 4503599627370496%positive, (e + n + 1).
    split; [reflexivity|]. split; [reflexivity|]. split; [lia|].
    replace (e + n + 1 - e) with (n + 1) by lia. rewrite Z.pow_add_r by lia.
    fold P. change (2 ^ 1) with 2.
    replace (4503599627370496 * (P * 2) * D) with (m1 * (P * D)) by (rewrite Ec; ring).
    rewrite <- E. lia.
  - destruct m1 as [|q|q] eqn:Em1; [lia| |lia].
    assert (Hdq : Zpos (digits2_pos q) = 53).
    { apply digits2_pos_unique. change (2 ^ (53 - 1)) with 4503599627370496.
      change (2 ^ 53) with 9007199254740992. lia. }
    unfold shr_fexp, fexp, emin. cbn [Zdigits2]. rewrite Hdq.
    replace (Z.max (53 + (e + n) - 53) (3 - 1024 - 53) - (e + n)) with 0 by lia.
    cbn [shr shr_record_of_loc shr_m].
    destruct (Z.leb_spec (e + n) (1024 - 53)); [|lia].
    exists q, (e + n). split; [reflexivity|]. split; [assumption|]. split; [lia|].
    replace (e + n - e) with n by lia. fold P.
    replace (Zpos q * P * D) with (Zpos q * (P * D)) by ring.
    rewrite <- E. lia.
Qed.

Lemma shl_align_spec m e e' :
  e' <= e ->
  exists m', shl_align m e e' = (m', e') /\ Zpos m' = Zpos m * 2 ^ (e - e').
Proof.
  intros Hle. unfold shl_align. destruct (e' - e) as [|p|p] eqn:Ed; [|lia|].
  - assert (e = e') as -> by lia. exists m. rewrite Z.sub_diag. split; [reflexivity|].
    cbn. lia.
  - exists (Pos.iter xO m p). split; [reflexivity|].
    rewrite iter_xO. replace (e - e') with (Zpos p) by lia. reflexivity.
Qed.


Lemma normal_bounds m e :
  normal m e -> 4503599627370496 <= Zpos m < 9007199254740992.
Proof.
  intros [Hd _]. pose proof (digits2_pos_bounds m) as H. rewrite Hd in H. exact H.
Qed.

(** [float(n)] is exact below 2^53. *)
Lemma of_int_spec z :
  0 < z < 2 ^ 53 ->
  exists m e, Float.of_int z = S754_finite false m e
              /\ normal m e /\ -52 <= e /\ Zpos m = z * 2 ^ (- e).
Proof.
  intros [Hz Hlt]. destruct z as [|p|p]; [lia| |lia].
  unfold Float.of_int, binary_normalize, binary_round, Float.prec, Float.emax.
  pose proof (digits2_pos_bounds p) as Hd.
  set (d := Zpos (digits2_pos p)) in *.
  assert (Hd53 : 1 <= d <= 53).
  { split; [unfold d; lia|].
    assert (d - 1 < 53) by (apply (Z.pow_lt_mono_r_iff 2); lia). lia. }
  unfold fexp, emin. replace (Z.max (d + 0 - 53) (3 - 1024 - 53)) with (d - 53) by lia.
  destruct (shl_align_spec p 0 (d - 53)) as (m0 & -> & Em0); [lia|].
  replace (0 - (d - 53)) with (53 - d) in Em0 by lia.
  assert (H0 : Zpos (digits2_pos m0) = 53 + 0).
  { apply digits2_pos_unique. rewrite Em0.
    replace (2 ^ (53 + 0 - 1)) with (2 ^ (d - 1) * 2 ^ (53 - d))
      by (rewrite <- Z.pow_add_r by lia; f_equal; lia).
    replace (2 ^ (53 + 0)) with (2 ^ d * 2 ^ (53 - d))
      by (rewrite <- Z.pow_add_r by lia; f_equal; lia).
    assert (0 < 2 ^ (53 - d)) by (apply Z.pow_pos_nonneg; lia). nia. }
  change loc_Exact with (loc_of 0 1).
  destruct (binary_round_aux_normal m0 (d - 53) 1 0 0 ltac:(lia) H0 ltac:(lia) ltac:(lia)
              ltac:(lia)) as (mz & ez & -> & Hdz & Hez & Hb).
  pose proof (digits2_pos_bounds mz) as Hbz. rewrite Hdz in Hbz.
  pose proof (digits2_pos_bounds m0) as Hb0. rewrite H0 in Hb0.
  change (2 ^ (53 + 0 - 1)) with 4503599627370496 in Hb0.
  change (2 ^ (53 + 0)) with 9007199254740992 in Hb0.
  change (2 ^ (53 - 1)) with 4503599627370496 in Hbz.
  change (2 ^ 53) with 9007199254740992 in Hbz.
  change (2 ^ 0) with 1 in Hb.
  assert (ez = d - 53) as ->.
  { destruct (Z.eq_dec ez (d - 53)); [assumption|exfalso].
    replace (ez - (d - 53)) with 1 in Hb by lia. change (2 ^ 1) with 2 in Hb. lia. }
  rewrite Z.sub_diag in Hb. change (2 ^ 0) with 1 in Hb.
  assert (mz = m0) as -> by lia.
  exists m0, (d - 53). split; [reflexivity|]. split; [split; lia|]. split; [lia|].
  rewrite Em0. f_equal. f_equal. lia.
Qed.

Lemma new_location_loc_of D R :
  0 < D -> 0 <= R < D -> new_location D R = loc_of R D.
Proof.
  intros HD HR. unfold new_location, new_location_even, new_location_odd, loc_of.
  destruct (Z.even D) eqn:Ev; [reflexivity|].
  destruct (R =? 0); [reflexivity|]. f_equal.
  assert (Z.odd D = true) as Ho by (rewrite <- Z.negb_even, Ev; reflexivity).
  apply Z.odd_spec in Ho as [k ->].
  pose proof (Z.compare_spec (2 * R + 1) (2 * k + 1)) as C1.
  pose proof (Z.compare_spec (2 * R) (2 * k + 1)) as C2.
  destruct (2 * R + 1 ?= 2 * k + 1); destruct (2 * R ?= 2 * k + 1);
    inversion C1; inversion C2; try reflexivity; lia.
Qed.

(** Division of two positive floats with full mantissas: the quotient is
    within half a unit of the last place kept. *)
Lemma SFdiv_spec m1 e1 m2 e2 :
  normal m1 e1 -> normal m2 e2 ->
  exists mz ez n,
    SFdiv 53 1024 (S754_finite false m1 e1) (S754_finite false m2 e2)
    = S754_finite false mz ez
    /\ Zpos (digits2_pos mz) = 53
    /\ 0 <= n <= 1
    /\ e1 - e2 - 53 + n <= ez <= e1 - e2 - 53 + n + 1
    /\ 2 * Z.abs (Zpos mz * 2 ^ (ez - (e1 - e2 - 53)) * Zpos m2 - Zpos m1 * 2 ^ 53)
       <= 2 ^ n * Zpos m2.
Proof.
  intros N1 N2. pose proof (normal_bounds _ _ N1) as B1.
  pose proof (normal_bounds _ _ N2) as B2. destruct N1 as [D1 R1], N2 as [D2 R2].
  unfold SFdiv, SFdiv_core_binary. cbn [xorb Zdigits2]. rewrite D1, D2.
  unfold fexp, emin.
  replace (Z.min (Z.max (53 + e1 - (53 + e2) - 53) (3 - 1024 - 53)) (e1 - e2))
    with (e1 - e2 - 53) by lia.
  replace (e1 - e2 - (e1 - e2 - 53)) with 53 by lia.
  rewrite Z.shiftl_mul_pow2 by lia.
  pose proof (Z_div_mod (Zpos m1 * 2 ^ 53) (Zpos m2) ltac:(lia)) as Hdm.
  destruct (Z.div_eucl (Zpos m1 * 2 ^ 53) (Zpos m2)) as [q r]. destruct Hdm as [Eq Hr].
  change (2 ^ 53) with 9007199254740992 in *.
  assert (Hq : 4503599627370496 <= q < 18014398509481984) by nia.
  destruct q as [|qp|qp]; [lia| |lia].
  assert (exists n, 0 <= n <= 1 /\ Zpos (digits2_pos qp) = 53 + n) as (n & Hn & Hdq).
  { destruct (Z.lt_ge_cases (Zpos qp) 9007199254740992).
    - exists 0. split; [lia|]. apply digits2_pos_unique.
      change (2 ^ (53 + 0 - 1)) with 4503599627370496.
      change (2 ^ (53 + 0)) with 9007199254740992. lia.
    - exists 1. split; [lia|]. apply digits2_pos_unique.
      change (2 ^ (53 + 1 - 1)) with 9007199254740992.
      change (2 ^ (53 + 1)) with 18014398509481984. lia. }
  rewrite new_location_loc_of by lia.
  destruct (binary_round_aux_normal qp (e1 - e2 - 53) (Zpos m2) r n Hr Hdq ltac:(lia)
              ltac:(lia) ltac:(lia)) as (mz & ez & -> & Hdz & Hez & Hb).
  exists mz, ez, n. split; [reflexivity|]. split; [assumption|]. split; [assumption|].
  split; [lia|]. rewrite Eq. replace (Zpos m2 * Zpos qp + r) with (Zpos qp * Zpos m2 + r) by ring.
  exact Hb.
Qed.

(** Addition of two positive floats with full mantissas. *)
Lemma SFadd_spec mx ex my ey :
  normal mx ex -> normal my ey ->
  exists mz ez n,
    SFadd 53 1024 (S754_finite false mx ex) (S754_finite false my ey)
    = S754_finite false mz ez
    /\ Zpos (digits2_pos mz) = 53
    /\ 0 <= n
    /\ Z.min ex ey + n <= ez <= Z.min ex ey + n + 1
    /\ ez <= 2
    /\ 2 * Z.abs (Zpos mz * 2 ^ (ez - Z.min ex ey)
                  - (Zpos mx * 2 ^ (ex - Z.min ex ey) + Zpos my * 2 ^ (ey - Z.min ex ey)))
       <= 2 ^ n.
Proof.
  intros N1 N2. pose proof (normal_bounds _ _ N1) as B1.
  pose proof (normal_bounds _ _ N2) as B2. destruct N1 as [D1 R1], N2 as [D2 R2].
  unfold SFadd. cbn [cond_Zopp]. set (e0 := Z.min ex ey).
  destruct (shl_align_spec mx ex e0) as (mx' & -> & Ex); [lia|].
  destruct (shl_align_spec my ey e0) as (my' & -> & Ey); [lia|].
  cbn [fst]. rewrite <- Ex, <- Ey.
  change (Zpos mx' + Zpos my') with (Zpos (mx' + my')).
  cbn [binary_normalize]. unfold binary_round.
  set (M := (mx' + my')%positive).
  assert (HM : Zpos M = Zpos mx' + Zpos my') by reflexivity.
  assert (Px : 0 < 2 ^ (ex - e0)) by (apply Z.pow_pos_nonneg; lia).
  assert (Py : 0 < 2 ^ (ey - e0)) by (apply Z.pow_pos_nonneg; lia).
  assert (Hone : 2 ^ (ex - e0) = 1 \/ 2 ^ (ey - e0) = 1).
  { destruct (Z.le_ge_cases ex ey); [left|right];
      (replace (_ - e0) with 0 by lia); reflexivity. }
  pose proof (digits2_pos_bounds M) as HdM.
  set (dM := Zpos (digits2_pos M)) in *.
  assert (Hlow : 53 <= dM).
  { assert (52 < dM); [|lia]. apply (Z.pow_lt_mono_r_iff 2); [lia|unfold dM; lia|].
    change (2 ^ 52) with 4503599627370496. nia. }
  assert (Hup : dM <= 54 + Z.max ex ey - e0).
  { assert (dM - 1 < 54 + Z.max ex ey - e0); [|lia].
    apply (Z.pow_lt_mono_r_iff 2); [lia|lia|].
    replace (54 + Z.max ex ey - e0) with (54 + (Z.max ex ey - e0)) by lia.
    rewrite Z.pow_add_r by lia. change (2 ^ 54) with 18014398509481984.
    assert (2 ^ (ex - e0) <= 2 ^ (Z.max ex ey - e0)) by (apply Z.pow_le_mono_r; lia).
    assert (2 ^ (ey - e0) <= 2 ^ (Z.max ex ey - e0)) by (apply Z.pow_le_mono_r; lia).
    nia. }
  unfold fexp, emin. fold dM.
  assert (shl_align M e0 (Z.max (dM + e0 - 53) (3 - 1024 - 53)) = (M, e0)) as ->.
  { unfold shl_align. destruct (Z.max (dM + e0 - 53) (3 - 1024 - 53) - e0) eqn:E;
      [reflexivity|reflexivity|lia]. }
  change loc_Exact with (loc_of 0 1).
  destruct (binary_round_aux_normal M e0 1 0 (dM - 53) ltac:(lia) ltac:(unfold dM; lia)
              ltac:(lia) ltac:(lia) ltac:(lia)) as (mz & ez & -> & Hdz & Hez & Hb).
  exists mz, ez, (dM - 53). split; [reflexivity|]. split; [assumption|].
  split; [lia|]. split; [lia|]. split; [lia|].
  rewrite !Z.mul_1_r, Z.add_0_r in Hb. exact Hb.
Qed.

Local Open Scope Q_scope.


Lemma Qpow2_pos e : 0 < 2 ^ e.
Proof. apply Qpower_0_lt. reflexivity. Qed.

Lemma Qpow2_add a b : 2 ^ (a + b) == 2 ^ a * 2 ^ b.
Proof. apply Qpower_plus. discriminate. Qed.

Lemma Qpow2_le a b : (a <= b)%Z -> 2 ^ a <= 2 ^ b.
Proof. intros H. apply Qpower_le_compat_l; [assumption|discriminate]. Qed.

Lemma Qpow2_Z k : (0 <= k)%Z -> inject_Z (2 ^ k) == 2 ^ k.
Proof. intros H. now apply Zpower_Qpower. Qed.

Lemma Qabs_bound_Z (E D P : Z) :
  (0 < D)%Z -> (2 * Z.abs E <= P * D)%Z ->
  Qabs (inject_Z E / inject_Z D) <= inject_Z P / 2.
Proof.
  intros HD H.
  assert (HDq : 0 < inject_Z D) by (change 0 with (inject_Z 0); now rewrite <- Zlt_Qlt).
  apply Qabs_Qle_condition. split.
  - apply Qle_shift_div_l; [assumption|].
    setoid_replace (- (inject_Z P / 2) * inject_Z D) with (inject_Z (- (P * D)) / 2) using relation Qeq
      by (rewrite inject_Z_opp, inject_Z_mult; field).
    apply Qle_shift_div_r; [reflexivity|].
    change 2 with (inject_Z 2). rewrite <- inject_Z_mult, <- Zle_Qle. lia.
  - apply Qle_shift_div_r; [assumption|].
    setoid_replace (inject_Z P / 2 * inject_Z D) with (inject_Z (P * D) / 2) using relation Qeq
      by (rewrite inject_Z_mult; field).
    apply Qle_shift_div_l; [reflexivity|].
    change 2 with (inject_Z 2). rewrite <- inject_Z_mult, <- Zle_Qle. lia.
Qed.

Lemma scaled_bound (A B D k n e : Z) :
  (0 < D)%Z -> (0 <= k)%Z -> (0 <= n)%Z ->
  (2 * Z.abs (A * 2 ^ k * D - B) <= 2 ^ n * D)%Z ->
  Qabs (inject_Z A * 2 ^ (e + k) - inject_Z B / inject_Z D * 2 ^ e) <= 2 ^ (e + n - 1).
Proof.
  intros HD Hk Hn H.
  assert (HDq : ~ inject_Z D == 0).
  { intros E. unfold Qeq in E. cbn in E. lia. }
  setoid_replace (inject_Z A * 2 ^ (e + k) - inject_Z B / inject_Z D * 2 ^ e)
    with (inject_Z (A * 2 ^ k * D - B) / inject_Z D * 2 ^ e) using relation Qeq.
  2:{ rewrite Qpow2_add, <- (Qpow2_Z k Hk).
      unfold Zminus. rewrite inject_Z_plus, inject_Z_opp, !inject_Z_mult. now field. }
  setoid_replace (2 ^ (e + n - 1)) with (inject_Z (2 ^ n) / 2 * 2 ^ e) using relation Qeq.
  2:{ replace (e + n - 1)%Z with (e + (n + -1))%Z by lia.
      rewrite !Qpow2_add, <- (Qpow2_Z n Hn). change (2 ^ (-1)) with (1 # 2). field. }
  rewrite Qabs_Qmult, (Qabs_pos (2 ^ e)) by (apply Qlt_le_weak, Qpow2_pos).
  apply Qmult_le_compat_r; [|apply Qlt_le_weak, Qpow2_pos].
  now apply Qabs_bound_Z.
Qed.

Lemma to_Q_finite m e :
  Float.to_Q (S754_finite false m e) = inject_Z (Zpos m) * 2 ^ e.
Proof. reflexivity. Qed.

Lemma to_Q_bounds m e :
  Zpos (digits2_pos m) = 53%Z ->
  4503599627370496 * 2 ^ e <= Float.to_Q (S754_finite false m e)
  /\ Float.to_Q (S754_finite false m e) < 9007199254740992 * 2 ^ e.
Proof.
  intros Hd. pose proof (digits2_pos_bounds m) as H. rewrite Hd in H.
  change (2 ^ (53 - 1))%Z with 4503599627370496%Z in H.
  change (2 ^ 53)%Z with 9007199254740992%Z in H. destruct H as [Hl Hu].
  rewrite to_Q_finite. pose proof (Qpow2_pos e) as Hp.
  rewrite Zle_Qle in Hl. rewrite Zlt_Qlt in Hu. split.
  - apply Qmult_le_compat_r; [exact Hl|now apply Qlt_le_weak].
  - apply Qmult_lt_compat_r; [exact Hp|exact Hu].
Qed.

Lemma of_int_Q z :
  (0 < z < 2 ^ 53)%Z ->
  exists m e, Float.of_int z = S754_finite false m e /\ normal m e /\ (-52 <= e)%Z
              /\ Float.to_Q (S754_finite false m e) == inject_Z z.
Proof.
  intros Hz. destruct (of_int_spec z Hz) as (m & e & E & Hn & He & Em).
  exists m, e. split; [assumption|]. split; [assumption|]. split; [assumption|].
  rewrite to_Q_finite, Em, inject_Z_mult, Qpow2_Z by (destruct Hn; lia).
  rewrite <- Qmult_assoc, <- Qpow2_add. replace (- e + e)%Z with 0%Z by lia.
  change (2 ^ 0) with 1. ring.
Qed.

Lemma SFdiv_Q m1 e1 m2 e2 :
  normal m1 e1 -> normal m2 e2 ->
  exists mz ez,
    SFdiv 53 1024 (S754_finite false m1 e1) (S754_finite false m2 e2)
    = S754_finite false mz ez
    /\ Zpos (digits2_pos mz) = 53%Z
    /\ (e1 - e2 - 53 <= ez <= e1 - e2 - 51)%Z
    /\ Qabs (Float.to_Q (S754_finite false mz ez)
             - Float.to_Q (S754_finite false m1 e1) / Float.to_Q (S754_finite false m2 e2))
       <= 2 ^ (ez - 1).
Proof.
  intros N1 N2. destruct (SFdiv_spec m1 e1 m2 e2 N1 N2) as (mz & ez & n & E & Hd & Hn & He & Hb).
  exists mz, ez. split; [assumption|]. split; [assumption|]. split; [lia|].
  pose proof (scaled_bound (Zpos mz) (Zpos m1 * 2 ^ 53) (Zpos m2) (ez - (e1 - e2 - 53)) n
                (e1 - e2 - 53) ltac:(lia) ltac:(lia) ltac:(lia) Hb) as H.
  replace (e1 - e2 - 53 + (ez - (e1 - e2 - 53)))%Z with ez in H by lia.
  rewrite !to_Q_finite.
  assert (Hm2 : ~ inject_Z (Zpos m2) == 0) by discriminate.
  assert (Hp2 : ~ 2 ^ e2 == 0).
  { pose proof (Qpow2_pos e2). intros X. rewrite X in H0. discriminate. }
  setoid_replace (inject_Z (Zpos m1) * 2 ^ e1 / (inject_Z (Zpos m2) * 2 ^ e2))
    with (inject_Z (Zpos m1 * 2 ^ 53) / inject_Z (Zpos m2) * 2 ^ (e1 - e2 - 53)) using relation Qeq.
  2:{ replace e1 with (e1 - e2 - 53 + (53 + e2))%Z at 1 by lia.
      rewrite !Qpow2_add, inject_Z_mult, Qpow2_Z by lia. now field. }
  eapply Qle_trans; [exact H|]. apply Qpow2_le. lia.
Qed.

Lemma SFadd_Q mx ex my ey :
  normal mx ex -> normal my ey ->
  exists mz ez,
    SFadd 53 1024 (S754_finite false mx ex) (S754_finite false my ey)
    = S754_finite false mz ez
    /\ Zpos (digits2_pos mz) = 53%Z
    /\ (Z.min ex ey <= ez <= 2)%Z
    /\ Qabs (Float.to_Q (S754_finite false mz ez)
             - (Float.to_Q (S754_finite false mx ex) + Float.to_Q (S754_finite false my ey)))
       <= 2 ^ (ez - 1).
Proof.
  intros N1 N2.
  destruct (SFadd_spec mx ex my ey N1 N2) as (mz & ez & n & E & Hd & Hn & He & He2 & Hb).
  exists mz, ez. split; [assumption|]. split; [assumption|]. split; [lia|].
  set (e0 := Z.min ex ey) in *.
  set (B := (Zpos mx * 2 ^ (ex - e0) + Zpos my * 2 ^ (ey - e0))%Z) in *.
  rewrite <- (Z.mul_1_r (2 ^ n)) in Hb.
  replace (Zpos mz * 2 ^ (ez - e0) - B)%Z with (Zpos mz * 2 ^ (ez - e0) * 1 - B)%Z in Hb
    by lia.
  pose proof (scaled_bound (Zpos mz) B 1 (ez - e0) n e0 ltac:(lia) ltac:(lia) ltac:(lia) Hb)
    as H.
  replace (e0 + (ez - e0))%Z with ez in H by lia.
  rewrite !to_Q_finite.
  setoid_replace (inject_Z (Zpos mx) * 2 ^ ex + inject_Z (Zpos my) * 2 ^ ey)
    with (inject_Z B / inject_Z 1 * 2 ^ e0) using relation Qeq.
  2:{ unfold B. rewrite inject_Z_plus, !inject_Z_mult, !Qpow2_Z by lia.
      replace ex with (ex - e0 + e0)%Z at 1 by lia.
      replace ey with (ey - e0 + e0)%Z at 1 by lia.
      rewrite !Qpow2_add. change (inject_Z 1) with 1. field. }
  eapply Qle_trans; [exact H|]. apply Qpow2_le. lia.
Qed.

Lemma of_int_million :
  Float.of_int 1000000 = S754_finite false 8589934592000000 (-33).
Proof. reflexivity. Qed.

Lemma Qabs_le_inv x b : Qabs x <= b -> - b <= x /\ x <= b.
Proof. apply Qabs_Qle_condition. Qed.

(** The quotient [us / 1000000] of the microseconds, as binary64. *)
Lemma int_truediv_million us :
  (0 < us <= 999999)%Z ->
  exists m e,
    Float.int_truediv us 1000000 = S754_finite false m e
    /\ normal m e
    /\ (e <= -53)%Z
    /\ Qabs (Float.to_Q (S754_finite false m e) - inject_Z us / 1000000)
       <= 1 # 18014398509481984.
Proof.
  intros Hus. unfold Float.int_truediv. rewrite of_int_million.
  destruct (of_int_Q us) as (mu & eu & -> & Nu & Heu & Eu).
  { change (2 ^ 53)%Z with 9007199254740992%Z. lia. }
  assert (Nc : normal 8589934592000000 (-33)) by (split; [reflexivity|lia]).
  destruct (SFdiv_Q mu eu 8589934592000000 (-33) Nu Nc) as (md & ed & E & Hd & He & Hb).
  unfold Float.prec, Float.emax. rewrite E. exists md, ed.
  assert (Hc : Float.to_Q (S754_finite false 8589934592000000 (-33)) == 1000000)
    by reflexivity.
  rewrite Eu, Hc in Hb.
  assert (Hq : 0 < inject_Z us / 1000000 /\ inject_Z us / 1000000 <= (999999 # 1000000)).
  { destruct Hus as [H0 H1]. rewrite Zlt_Qlt in H0. rewrite Zle_Qle in H1.
    change (inject_Z 0) with 0 in H0. change (inject_Z 999999) with 999999 in H1.
    set (u := inject_Z us) in *. clearbody u. split.
    - apply Qlt_shift_div_l; [reflexivity|]. lra.
    - apply Qle_shift_div_r; [reflexivity|]. lra. }
  set (q := inject_Z us / 1000000) in *.
  destruct (to_Q_bounds md ed Hd) as [Hlo _].
  set (D := Float.to_Q (S754_finite false md ed)) in *.
  apply Qabs_le_inv in Hb as Hb'.
  assert (Hp : 2 ^ ed == 2 * 2 ^ (ed - 1)).
  { replace ed with (1 + (ed - 1))%Z at 1 by lia. now rewrite Qpow2_add. }
  assert (Hed : (ed <= -53)%Z).
  { destruct (Z.le_gt_cases ed (-53)); [assumption|exfalso].
    assert (Ht : 2 ^ (-53) <= 2 ^ (ed - 1)) by (apply Qpow2_le; lia).
    change (2 ^ (-53)) with (1 # 9007199254740992) in Ht.
    rewrite Hp in Hlo. set (t := 2 ^ (ed - 1)) in *. lra. }
  split; [reflexivity|]. split; [split; [assumption|destruct Nu; lia]|].
  split; [assumption|].
  eapply Qle_trans; [exact Hb|].
  change (1 # 18014398509481984) with (2 ^ (-54)). apply Qpow2_le. lia.
Qed.

Lemma Qpow2_half e : 2 ^ e == 2 * 2 ^ (e - 1).
Proof. replace e with (1 + (e - 1))%Z at 1 by lia. now rewrite Qpow2_add. Qed.

(** Whole seconds plus the quotient, both positive. *)
Lemma add_whole_fraction W us :
  (0 < W <= 86399)%Z -> (0 < us <= 999999)%Z ->
  exists m e,
    Float.add (Float.of_int W) (Float.int_truediv us 1000000) = S754_finite false m e
    /\ 0 < Float.to_Q (S754_finite false m e) < 86400
    /\ Qabs (Float.to_Q (S754_finite false m e) - (inject_Z W + inject_Z us / 1000000))
       <= rounding_tolerance.
Proof.
  intros HW Hus. unfold rounding_tolerance.
  destruct (int_truediv_million us Hus) as (md & ed & -> & Nd & Hed & Hbd).
  destruct (of_int_Q W) as (mw & ew & -> & Nw & Hew & Ew).
  { change (2 ^ 53)%Z with 9007199254740992%Z. lia. }
  destruct (SFadd_Q mw ew md ed Nw Nd) as (mz & ez & E & Hdz & Hez & Hbz).
  unfold Float.add, Float.prec, Float.emax. rewrite E. exists mz, ez.
  split; [reflexivity|].
  rewrite Ew in Hbz.
  assert (HWq : 0 < inject_Z W <= 86399).
  { destruct HW as [H0 H1]. rewrite Zlt_Qlt in H0. rewrite Zle_Qle in H1.
    split; assumption. }
  assert (Hq : 0 < inject_Z us / 1000000 <= (999999 # 1000000)).
  { destruct Hus as [H0 H1]. rewrite Zlt_Qlt in H0. rewrite Zle_Qle in H1.
    change (inject_Z 0) with 0 in H0. change (inject_Z 999999) with 999999 in H1.
    set (u := inject_Z us) in *. clearbody u. split.
    - apply Qlt_shift_div_l; [reflexivity|]. lra.
    - apply Qle_shift_div_r; [reflexivity|]. lra. }
  set (q := inject_Z us / 1000000) in *. clearbody q.
  set (w := inject_Z W) in *. clearbody w.
  destruct (to_Q_bounds mz ez Hdz) as [Hloz _].
  pose proof (Qpow2_pos ez) as Hpz.
  set (D := Float.to_Q (S754_finite false md ed)) in *. clearbody D.
  set (V := Float.to_Q (S754_finite false mz ez)) in *. clearbody V.
  apply Qabs_le_inv in Hbz. apply Qabs_le_inv in Hbd.
  rewrite (Qpow2_half ez) in Hloz, Hpz.
  assert (Hez' : (ez <= -36)%Z).
  { destruct (Z.le_gt_cases ez (-36)); [assumption|exfalso].
    assert (Ht : 2 ^ (-36) <= 2 ^ (ez - 1)) by (apply Qpow2_le; lia).
    change (2 ^ (-36)) with (1 # 68719476736) in Ht.
    set (t := 2 ^ (ez - 1)) in *. clearbody t. lra. }
  assert (Ht : 2 ^ (ez - 1) <= 2 ^ (-37)) by (apply Qpow2_le; lia).
  change (2 ^ (-37)) with (1 # 137438953472) in Ht.
  set (t := 2 ^ (ez - 1)) in *. clearbody t.
  split; [split; lra|]. apply Qabs_Qle_condition. split; lra.
Qed.

(** The value computed by [convert_time] from the fields of the time: the
    whole seconds [W] and the microseconds [us]. *)
Lemma total_second_spec (W us : Z) :
  (0 <= W <= 86399)%Z -> (0 <= us <= 999999)%Z ->
  Float.is_finite (Float.add (Float.of_int W) (Float.int_truediv us 1000000)) = true
  /\ 0 <= Float.to_Q (Float.add (Float.of_int W) (Float.int_truediv us 1000000)) < 86400
  /\ Qabs (Float.to_Q (Float.add (Float.of_int W) (Float.int_truediv us 1000000))
           - (inject_Z W + inject_Z us / 1000000)) <= rounding_tolerance
  /\ (us = 0%Z ->
      Float.to_Q (Float.add (Float.of_int W) (Float.int_truediv us 1000000)) == inject_Z W).
Proof.
  intros HW Hus. unfold rounding_tolerance.
  assert (HWq : 0 <= inject_Z W <= 86399).
  { destruct HW as [H0 H1]. rewrite Zle_Qle in H0, H1. split; assumption. }
  assert (Hz0 : inject_Z 0 / 1000000 == 0) by reflexivity.
  destruct (Z.eq_dec us 0) as [->|Hne]; [|destruct (Z.eq_dec W 0) as [->|HW0]].
  - change (Float.int_truediv 0 1000000) with (S754_zero false). rewrite Hz0.
    destruct (Z.eq_dec W 0) as [->|HW0].
    + change (Float.add (Float.of_int 0) (S754_zero false)) with (S754_zero false).
      cbn [Float.is_finite Float.to_Q]. change (inject_Z 0) with 0.
      split; [reflexivity|]. split; [split; lra|].
      split; [|reflexivity]. apply Qabs_Qle_condition. split; lra.
    + destruct (of_int_Q W) as (mw & ew & -> & Nw & Hew & Ew).
      { change (2 ^ 53)%Z with 9007199254740992%Z. lia. }
      change (Float.add (S754_finite false mw ew) (S754_zero false))
        with (S754_finite false mw ew).
      cbn [Float.is_finite]. rewrite Ew. set (w := inject_Z W) in *. clearbody w.
      split; [reflexivity|]. split; [lra|].
      split; [|reflexivity]. apply Qabs_Qle_condition. split; lra.
  - destruct (int_truediv_million us ltac:(lia)) as (md & ed & -> & [Hdd Hrd] & Hed & Hbd).
    change (Float.add (Float.of_int 0) (S754_finite false md ed))
      with (S754_finite false md ed).
    cbn [Float.is_finite]. change (inject_Z 0) with 0.
    destruct (to_Q_bounds md ed Hdd) as [Hlod _]. pose proof (Qpow2_pos ed) as Hpd.
    assert (Hq : inject_Z us / 1000000 <= (999999 # 1000000)).
    { destruct Hus as [_ H1]. rewrite Zle_Qle in H1.
      change (inject_Z 999999) with 999999 in H1.
      set (u := inject_Z us) in *. clearbody u.
      apply Qle_shift_div_r; [reflexivity|]. lra. }
    set (q := inject_Z us / 1000000) in *. clearbody q.
    set (D := Float.to_Q (S754_finite false md ed)) in *. clearbody D.
    set (p := 2 ^ ed) in *. clearbody p.
    pose proof (Qabs_le_inv _ _ Hbd).
    split; [reflexivity|]. split; [split; lra|].
    split; [|intros; lia]. apply Qabs_Qle_condition. split; lra.
  - destruct (add_whole_fraction W us ltac:(lia) ltac:(lia)) as (m & e & -> & Hr & Hb).
    cbn [Float.is_finite]. split; [reflexivity|]. split; [split; [|apply Hr]|].
    + apply Qlt_le_weak, Hr.
    + split; [assumption|intros; lia].
Qed.

End Binary64.
(** The sum of the whole seconds, in the order of the source. *)
Lemma total_second_fields (h m s us : nat) :
  Float.add
    (Float.of_int (Z.of_nat s + Z.of_nat m * 60 + Z.of_nat h * 3600))
    (Float.int_truediv (Z.of_nat us) 1000000)
  = Float.add (Float.of_int (whole_seconds h m s)) (Float.int_truediv (Z.of_nat us) 1000000).
Proof. unfold whole_seconds. do 2 f_equal. lia. Qed.

(** The float computed from the fields of a duration: finite, in the range
    of a day, within the tolerance of the exact value, and equal to it when
    the fraction is zero. *)
Lemma duration_float body h m s f :
  duration_shape body h m s f ->
  Float.is_finite (Float.add (Float.of_int (whole_seconds h m s))
                     (Float.int_truediv (Z.of_nat (Strptime.fraction f)) 1000000)) = true
  /\ (0 <= Float.to_Q (Float.add (Float.of_int (whole_seconds h m s))
                         (Float.int_truediv (Z.of_nat (Strptime.fraction f)) 1000000))
       < 86400)%Q
  /\ (Qabs (Float.to_Q (Float.add (Float.of_int (whole_seconds h m s))
                          (Float.int_truediv (Z.of_nat (Strptime.fraction f)) 1000000))
            - seconds_value h m s f) <= rounding_tolerance)%Q
  /\ (Strptime.fraction f = 0%nat ->
       (Float.to_Q (Float.add (Float.of_int (whole_seconds h m s))
                      (Float.int_truediv (Z.of_nat (Strptime.fraction f)) 1000000))
        == seconds_value h m s f)%Q).
Proof.
  intros Hshape.
  assert (Hlen : (1 <= length f <= 6)%nat)
    by (destruct Hshape as [? ? ? ? ? ? ? ? _ _ _ [_ ?]|? ? ? ? ? ? _ _ [_ ?]|? ? ? ? _ [_ ?]];
        assumption).
  destruct (duration_shape_bounds _ _ _ _ _ Hshape) as (Hh & Hm & Hs & Hf).
  assert (Hexact : (inject_Z (whole_seconds h m s)
                    + inject_Z (Z.of_nat (Strptime.fraction f)) / 1000000
                    == seconds_value h m s f)%Q).
  { unfold seconds_value, whole_seconds. rewrite <- (fraction_value f Hlen). unfold Qnat.
    rewrite !Nat2Z.inj_add, !Nat2Z.inj_mul, !inject_Z_plus, !inject_Z_mult.
    change (inject_Z (Z.of_nat 3600)) with 3600%Q.
    change (inject_Z (Z.of_nat 60)) with 60%Q. reflexivity. }
  destruct (total_second_spec (whole_seconds h m s) (Z.of_nat (Strptime.fraction f)))
    as (Hfin & Hrange & Herr & Hzero); [unfold whole_seconds; lia|lia|].
  split; [assumption|]. split; [assumption|]. split.
  - now rewrite <- Hexact.
  - intros H0. eapply Qeq_trans; [apply Hzero; now rewrite H0|].
    eapply Qeq_trans; [|exact Hexact]. rewrite H0.
    change (inject_Z (Z.of_nat 0) / 1000000)%Q with (0 # 1000000)%Q. ring.
Qed.

(** C8, counterexample: ["1.14"] is a duration of the shape [ss.ff], and the
    float returned is not 1.14: its value is not the rational 57/50, and it
    is not the float nearest to it either (114/100 correctly rounded, the
    float [1.14]) but the next one up, 1.1400000000000001. *)
Lemma convert_time_inexact :
  duration_shape (list_ascii_of_string "1.14") 0 0 1 [1; 4]%nat
  /\ convert_time "1.14" = Ok (S754_finite false 5134103575202366 (-52))
  /\ Float.int_truediv 114 100 = S754_finite false 5134103575202365 (-52)
  /\ ~ (Float.to_Q (S754_finite false 5134103575202366 (-52))
        == seconds_value 0 0 1 [1; 4]%nat)%Q.
Proof.
  split; [|split; [|split]].
  - apply (shape_s ["1"] ["1"; "4"])%char.
    + apply (field_one "1" 1); [reflexivity|lia].
    + split; [repeat constructor|cbn; lia].
  - vm_compute. reflexivity.
  - vm_compute. reflexivity.
  - vm_compute. discriminate.
Qed.

(** C8, as amended: for every duration string of one of the shapes
    h:mm:ss.ffffff, mm:ss.ffffff and ss.ffffff (hours up to 23, minutes and
    seconds up to 59, one to six fractional digits), with or without the
    marker suffix [M], [convert_time] returns the binary64 sum of the whole
    seconds hours*3600 + minutes*60 + seconds and the binary64 quotient
    microseconds/1000000.  This float is finite, lies within 2^-36 of the
    exact value, and is the exact value when the fraction is zero. *)
Theorem convert_time_valid_duration :
  forall body h m s f (marker : bool),
    duration_shape body h m s f ->
    exists x,
      convert_time (with_marker marker body) = Ok x
      /\ x = Float.add (Float.of_int (whole_seconds h m s))
                (Float.int_truediv (Z.of_nat (Strptime.fraction f)) 1000000)
      /\ Float.is_finite x = true
      /\ (Qabs (Float.to_Q x - seconds_value h m s f) <= rounding_tolerance)%Q
      /\ (Strptime.fraction f = 0%nat -> (Float.to_Q x == seconds_value h m s f)%Q).
Proof.
  intros body h m s f marker Hshape.
  assert (Hbody : exists l x, list_ascii_of_string (with_marker marker body) = l ++ [x]
                              /\ strip_marker (l ++ [x]) = body).
  { unfold with_marker. rewrite list_ascii_of_string_of_list_ascii.
    destruct marker.
    - exists body, "M"%char. split; [reflexivity|]. now rewrite strip_marker_last.
    - destruct (duration_shape_last _ _ _ _ _ Hshape) as (l & x & d & -> & Hd).
      exists l, x. rewrite app_nil_r. split; [reflexivity|].
      rewrite strip_marker_last. now rewrite (digit_not_M _ _ Hd). }
  destruct Hbody as (l & x & El & Es).
  unfold convert_time. rewrite El, convert_time_chars_nonempty. cbn zeta.
  rewrite Es, (strptime_shape _ _ _ _ _ Hshape). cbn [Res.bind].
  cbn [Strptime.second Strptime.minute Strptime.hour Strptime.microsecond].
  rewrite total_second_fields.
  destruct (duration_float _ _ _ _ _ Hshape) as (Hfin & _ & Herr & Hzero).
  eexists. split; [reflexivity|]. split; [reflexivity|]. auto.
Qed.

(** The two durations quoted by the specification: the floats returned are
    the floats [3723.45] and [28.44] (372345/100 and 2844/100 correctly
    rounded). *)
Lemma convert_time_valid_duration_witness :
  (exists x,
      convert_time "1:02:03.45" = Ok x
      /\ x = Float.add (Float.of_int (whole_seconds 1 2 3))
                (Float.int_truediv (Z.of_nat (Strptime.fraction [4; 5]%nat)) 1000000)
      /\ Float.is_finite x = true
      /\ (Qabs (Float.to_Q x - seconds_value 1 2 3 [4; 5]%nat) <= rounding_tolerance)%Q
      /\ (Strptime.fraction [4; 5]%nat = 0%nat ->
          (Float.to_Q x == seconds_value 1 2 3 [4; 5]%nat)%Q))
  /\ (exists x,
         convert_time "28.44M" = Ok x
         /\ x = Float.add (Float.of_int (whole_seconds 0 0 28))
                   (Float.int_truediv (Z.of_nat (Strptime.fraction [4; 4]%nat)) 1000000)
         /\ Float.is_finite x = true
         /\ (Qabs (Float.to_Q x - seconds_value 0 0 28 [4; 4]%nat) <= rounding_tolerance)%Q
         /\ (Strptime.fraction [4; 4]%nat = 0%nat ->
             (Float.to_Q x == seconds_value 0 0 28 [4; 4]%nat)%Q))
  /\ convert_time "1:02:03.45" = Ok (Float.int_truediv 372345 100)
  /\ convert_time "28.44M" = Ok (Float.int_truediv 2844 100).
Proof.
  split; [|split; [|split]].
  - apply (convert_time_valid_duration
             (list_ascii_of_string "1:02:03.45") 1 2 3 [4; 5]%nat false).
    apply (shape_hms ["1"] ["0"; "2"] ["0"; "3"] ["4"; "5"])%char.
    + apply (field_one "1" 1); [reflexivity|lia].
    + apply (field_two "0" "2" 0 2); [reflexivity|reflexivity|cbn; lia].
    + apply (field_two "0" "3" 0 3); [reflexivity|reflexivity|cbn; lia].
    + split; [repeat constructor|cbn; lia].
  - apply (convert_time_valid_duration
             (list_ascii_of_string "28.44") 0 0 28 [4; 4]%nat true).
    apply (shape_s ["2"; "8"] ["4"; "4"])%char.
    + apply (field_two "2" "8" 2 8); [reflexivity|reflexivity|cbn; lia].
    + split; [repeat constructor|cbn; lia].
  - vm_compute. reflexivity.
  - vm_compute. reflexivity.
Defined.

(** C9, counterexample: on the empty string the failure is an [IndexError],
    raised by [time_str[-1]] before any parsing. *)
Lemma convert_time_empty_string : convert_time "" = Raise IndexError.
Proof. reflexivity. Qed.

(** C9, as amended: on a non-empty string [convert_time] fails exactly when
    the string, without its marker suffix, has none of the three shapes
    (seconds-only, minutes:seconds, hours:minutes:seconds, each with
    fractional seconds and numeric components in range), and every failure
    is a [ValueError]. *)
Theorem convert_time_failure :
  forall time_str : string,
    time_str <> "" ->
    (forall e, convert_time time_str = Raise e -> e = ValueError)
    /\ (convert_time time_str = Raise ValueError <->
        ~ exists h m s f,
            duration_shape (strip_marker (list_ascii_of_string time_str)) h m s f).
Proof.
  intros time_str Hne.
  assert (list_ascii_of_string time_str <> []) as Hne'.
  { intros E. apply Hne. rewrite <- (string_of_list_ascii_of_string time_str), E.
    reflexivity. }
  destruct (nonempty_last _ Hne') as (l & x & El).
  unfold convert_time. rewrite El, convert_time_chars_nonempty. cbn zeta.
  set (body := strip_marker (l ++ [x])).
  destruct (Strptime.strptime body (format_of body)) as [t|e] eqn:E; cbn [Res.bind].
  - split; [discriminate|]. split; [discriminate|].
    intros Hno. exfalso. apply Hno.
    destruct (strptime_Ok _ _ _ E) as (h & m & s & f & Hs & _). eauto.
  - pose proof (strptime_raises _ _ _ E) as ->.
    split; [now intros e [= <-]|]. split; [|reflexivity].
    intros _ (h & m & s & f & Hs).
    rewrite (strptime_shape _ _ _ _ _ Hs) in E. discriminate.
Qed.

Lemma convert_time_failure_witness :
  (forall e, convert_time "12.5x" = Raise e -> e = ValueError)
  /\ (convert_time "12.5x" = Raise ValueError <->
      ~ exists h m s f,
          duration_shape (strip_marker (list_ascii_of_string "12.5x")) h m s f).
Proof.
  apply (convert_time_failure "12.5x"). discriminate.
Defined.

(** ** RateGovernor *)

Lemma Qltb_lt x y : Qltb x y = true <-> (x < y)%Q.
Proof.
  unfold Qltb. rewrite negb_true_iff. split.
  - intros H. apply Qnot_le_lt. intros Hle%Qle_bool_iff. congruence.
  - intros H. destruct (Qle_bool y x) eqn:E; [|reflexivity].
    apply Qle_bool_iff in E. exfalso. eapply Qlt_not_le; eassumption.
Qed.

Lemma Qltb_ge x y : Qltb x y = false <-> (y <= x)%Q.
Proof.
  unfold Qltb. rewrite negb_false_iff. apply Qle_bool_iff.
Qed.

Lemma Qltb_ext x x' y : (x == x')%Q -> Qltb x y = Qltb x' y.
Proof. intros E. unfold Qltb. now rewrite E. Qed.

Lemma filter_filter_weaker {A} (p q : A -> bool) (l : list A) :
  (forall x, p x = true -> q x = true) ->
  List.filter p (List.filter q l) = List.filter p l.
Proof.
  intros H. induction l as [|x l IH]; [reflexivity|]. cbn.
  destruct (q x) eqn:Eq; cbn.
  - now rewrite IH.
  - destruct (p x) eqn:Ep; [|assumption].
    apply H in Ep. congruence.
Qed.

Lemma filter_length_le {A} (p : A -> bool) (l : list A) :
  (length (List.filter p l) <= length l)%nat.
Proof.
  induction l as [|x l IH]; cbn; [lia|]. destruct (p x); cbn; lia.
Qed.

Lemma filter_length_mono {A} (p q : A -> bool) (l : list A) :
  (forall x, p x = true -> q x = true) ->
  (length (List.filter p l) <= length (List.filter q l))%nat.
Proof.
  intros H. rewrite <- (filter_filter_weaker p q l H). apply filter_length_le.
Qed.

Lemma py_index_head {A} (x : A) (l : list A) : py_index (x :: l) 0 = Ok x.
Proof. reflexivity. Qed.

(** [check_request_rate_limit] as a function of the state it starts in. *)
Lemma check_request_rate_limit_eq st :
  check_request_rate_limit st =
  let sm := sessionManager st in
  let t := now (env st) in
  let valid := valid_requests_at sm t in
  if (Z.of_nat (length valid) >=? max_requests_per_second sm)%Z then
    match valid with
    | [] => (Raise IndexError, st)
    | first_valid :: _ =>
        let wait := (first_valid + max_per sm - t)%Q in
        if Qle_bool 0 wait then
          (Ok tt,
           {| env := advance wait (env st);
              sessionManager :=
                with_history sm
                  (List.filter (fun r => Qltb (t - max_per sm + wait) r)
                     (request_history sm));
              self := self st |})
        else (Raise ValueError, st)
    end
  else (Ok tt, st).
Proof.
  unfold check_request_rate_limit, valid_requests_at, St.bind, time_time, St.get.
  cbn zeta.
  destruct (Z.of_nat _ >=? _)%Z; [|reflexivity].
  destruct (List.filter _ _) as [|v0 rest]; [reflexivity|].
  rewrite py_index_head. unfold St.lift, time_sleep.
  destruct (Qle_bool 0 _); reflexivity.
Qed.

Lemma valid_request_in_window sm t r :
  In r (valid_requests_at sm t) -> (t - max_per sm < r)%Q.
Proof.
  unfold valid_requests_at. rewrite filter_In. intros [_ H]. now apply Qltb_lt.
Qed.

Lemma filter_chronological p l :
  chronological l -> chronological (List.filter p l).
Proof.
  unfold chronological. induction 1 as [|x l Hs IH Hx]; cbn; [constructor|].
  destruct (p x); [|assumption]. constructor; [assumption|].
  rewrite Forall_forall in *. intros y [Hy _]%filter_In. auto.
Qed.

(** Below the maximum the call returns at once and changes nothing. *)
Lemma check_below_maximum st :
  (Z.of_nat (length (valid_requests_at (sessionManager st) (now (env st))))
   < max_requests_per_second (sessionManager st))%Z ->
  check_request_rate_limit st = (Ok tt, st).
Proof.
  intros Hlt. rewrite check_request_rate_limit_eq. cbn zeta.
  destruct (Z.geb_spec (Z.of_nat (length (valid_requests_at (sessionManager st)
                                            (now (env st)))))
              (max_requests_per_second (sessionManager st))); [lia|reflexivity].
Qed.

(** At the maximum the call sleeps until the first valid timestamp leaves the
    window, and prunes. *)
Lemma check_at_maximum st :
  let sm := sessionManager st in
  let t := now (env st) in
  (max_requests_per_second sm <= Z.of_nat (length (valid_requests_at sm t)))%Z ->
  (1 <= max_requests_per_second sm)%Z ->
  exists oldest rest st',
    valid_requests_at sm t = oldest :: rest
    /\ (chronological (request_history sm) ->
        Forall (fun r => (oldest <= r)%Q) (valid_requests_at sm t))
    /\ (0 < oldest + max_per sm - t)%Q
    /\ check_request_rate_limit st = (Ok tt, st')
    /\ now (env st') = (t + (oldest + max_per sm - t))%Q
    /\ request_history (sessionManager st')
       = List.filter (fun r => Qltb (now (env st') - max_per sm) r) (request_history sm)
    /\ max_requests_per_second (sessionManager st') = max_requests_per_second sm
    /\ max_per (sessionManager st') = max_per sm
    /\ self st' = self st.
Proof.
  cbn zeta. rewrite check_request_rate_limit_eq. cbn zeta.
  set (sm := sessionManager st). set (t := now (env st)).
  set (valid := valid_requests_at sm t).
  intros Hge Hmax.
  destruct (Z.geb_spec (Z.of_nat (length valid)) (max_requests_per_second sm)); [|lia].
  destruct valid as [|oldest rest] eqn:Ev; [cbn in Hge; lia|].
  assert (Hin : (t - max_per sm < oldest)%Q).
  { apply valid_request_in_window. fold valid. rewrite Ev. now left. }
  assert (Hpos : (0 < oldest + max_per sm - t)%Q) by lra.
  assert (Hle : Qle_bool 0 (oldest + max_per sm - t) = true)
    by (apply Qle_bool_iff; lra).
  rewrite Hle. eexists oldest, rest, _. split; [reflexivity|].
  split.
  { intros Hs. apply (filter_chronological
                        (fun r => Qltb (t - max_per sm) r)) in Hs.
    fold (valid_requests_at sm t) in Hs. fold valid in Hs. rewrite Ev in Hs.
    inversion Hs as [|? ? _ Hall]; subst. constructor; [lra|assumption]. }
  split; [assumption|]. split; [reflexivity|]. split; [reflexivity|].
  split; [|repeat split].
  cbn. apply filter_ext. intros r. apply Qltb_ext. fold t. lra.
Qed.

(** C5: [check_request_rate_limit] counts the recorded timestamps strictly
    newer than now - max_per.  Below the maximum it returns at once, leaving
    clock and history as they are.  Otherwise (for a maximum of at least one)
    it sleeps for exactly oldest-in-window + max_per - now, a positive time,
    and keeps the timestamps that are inside the window at the time it wakes
    up.  Configured (2, 1) with two requests in the current window, it
    returns no earlier than one second after the first of them. *)
Theorem check_request_rate_limit_spec :
  forall st : pystate,
    let sm := sessionManager st in
    let t := now (env st) in
    let valid := valid_requests_at sm t in
    ((Z.of_nat (length valid) < max_requests_per_second sm)%Z ->
     check_request_rate_limit st = (Ok tt, st))
    /\ ((max_requests_per_second sm <= Z.of_nat (length valid))%Z ->
        (1 <= max_requests_per_second sm)%Z ->
        exists oldest rest st',
          valid = oldest :: rest
          /\ (chronological (request_history sm) ->
              Forall (fun r => (oldest <= r)%Q) valid)
          /\ (0 < oldest + max_per sm - t)%Q
          /\ check_request_rate_limit st = (Ok tt, st')
          /\ now (env st') = (t + (oldest + max_per sm - t))%Q
          /\ request_history (sessionManager st')
             = List.filter (fun r => Qltb (now (env st') - max_per sm) r)
                 (request_history sm)
          /\ max_requests_per_second (sessionManager st') = max_requests_per_second sm
          /\ max_per (sessionManager st') = max_per sm
          /\ self st' = self st)
    /\ (max_requests_per_second sm = 2%Z -> (max_per sm == 1)%Q ->
        forall t1 t2, request_history sm = [t1; t2] ->
          (t - 1 < t1)%Q -> (t - 1 < t2)%Q ->
          exists st', check_request_rate_limit st = (Ok tt, st')
                      /\ (now (env st') == t1 + 1)%Q).
Proof.
  intros st. cbn zeta. split; [|split].
  - apply check_below_maximum.
  - apply check_at_maximum.
  - intros Hmax Hw t1 t2 Hh H1 H2.
    assert (Ev : valid_requests_at (sessionManager st) (now (env st)) = [t1; t2]).
    { unfold valid_requests_at. rewrite Hh. cbn.
      assert (E1 : Qltb (now (env st) - max_per (sessionManager st)) t1 = true)
        by (apply Qltb_lt; lra).
      assert (E2 : Qltb (now (env st) - max_per (sessionManager st)) t2 = true)
        by (apply Qltb_lt; lra).
      now rewrite E1, E2. }
    destruct (check_at_maximum st) as (oldest & rest & st' & Ev' & _ & _ & Hrun & Hnow & _).
    + cbn zeta. rewrite Ev, Hmax. cbn. lia.
    + lia.
    + exists st'. split; [assumption|].
      rewrite Ev in Ev'. injection Ev' as <- <-. rewrite Hnow. lra.
Qed.

Lemma check_request_rate_limit_spec_witness :
  exists st',
    check_request_rate_limit (governor_state 2 1 [0; 1 # 4] (1 # 2)) = (Ok tt, st')
    /\ (now (env st') == 0 + 1)%Q.
Proof.
  apply (proj2 (proj2 (check_request_rate_limit_spec
                         (governor_state 2 1 [0; 1 # 4] (1 # 2))))
           eq_refl (Qeq_refl 1) 0 (1 # 4) eq_refl); reflexivity.
Defined.

(** *** The request window invariant *)

Lemma elapse_eq d st :
  elapse d st = (Ok tt, {| env := advance d (env st);
                           sessionManager := sessionManager st;
                           self := self st |}).
Proof. reflexivity. Qed.

Lemma add_request_eq st :
  add_request st =
  (Ok tt, {| env := env st;
             sessionManager :=
               with_history (sessionManager st)
                 (request_history (sessionManager st) ++ [now (env st)]);
             self := self st |}).
Proof. reflexivity. Qed.

Lemma window_count_app w T l1 l2 :
  window_count w T (l1 ++ l2) = (window_count w T l1 + window_count w T l2)%nat.
Proof. unfold window_count. now rewrite List.filter_app, length_app. Qed.

Lemma in_window_live w T t now :
  (now <= T)%Q -> in_window w T t = true -> Qltb (now - w) t = true.
Proof.
  unfold in_window. intros HT [H1%Qltb_lt _]%andb_true_iff.
  apply Qltb_lt. lra.
Qed.

(** Time passing keeps the invariant. *)
Lemma window_invariant_elapse max w admitted st log d :
  (0 <= d)%Q ->
  window_invariant max w admitted st log ->
  window_invariant max w admitted (snd (elapse d st)) log.
Proof.
  intros Hd (Hmax & Hw & Hlive & Hlog & Hcnt & Hadm).
  rewrite elapse_eq. unfold window_invariant. cbn.
  set (live := fun r => Qltb (now (env st) - w) r) in *.
  set (live' := fun r => Qltb (now (env st) + d - w) r).
  assert (Himp : forall r, live' r = true -> live r = true).
  { intros r Hr%Qltb_lt. apply Qltb_lt. lra. }
  assert (Hle : (length (List.filter live' (request_history (sessionManager st)))
                 <= length (List.filter live (request_history (sessionManager st))))%nat)
    by now apply filter_length_mono.
  repeat split; try assumption.
  - rewrite <- (filter_filter_weaker live' live log Himp), Hlive.
    now apply filter_filter_weaker.
  - lia.
  - intros Ha. specialize (Hadm Ha). lia.
Qed.

(** Admission keeps the invariant and leaves room for one request. *)
Lemma window_invariant_admit max w admitted st log :
  (1 <= max)%Z ->
  window_invariant max w admitted st log ->
  exists st', check_request_rate_limit st = (Ok tt, st')
              /\ window_invariant max w true st' log.
Proof.
  intros Hpos (Hmax & Hw & Hlive & Hlog & Hcnt & Hadm).
  pose proof (check_below_maximum st) as Hbelow.
  pose proof (check_at_maximum st) as Hfull.
  cbn zeta in Hbelow, Hfull. unfold valid_requests_at in Hbelow, Hfull.
  rewrite Hw, Hmax in Hbelow, Hfull.
  set (live := fun r => Qltb (now (env st) - w) r) in *.
  destruct (Z.lt_ge_cases
              (Z.of_nat (length (List.filter live (request_history (sessionManager st)))))
              max) as [Hlt|Hge].
  - exists st. split; [now apply Hbelow|].
    unfold window_invariant. fold live. repeat split; auto.
  - destruct (Hfull Hge Hpos)
      as (oldest & rest & st' & Ev & _ & Hwait & Hrun & Hnow & Hhist & Hmax' & Hw' & _).
    exists st'. split; [assumption|].
    unfold window_invariant. rewrite Hmax', Hw', Hhist, Hnow.
    set (live' := fun r => Qltb (now (env st) + (oldest + w - now (env st)) - w) r).
    assert (Himp : forall r, live' r = true -> live r = true).
    { intros r Hr%Qltb_lt. apply Qltb_lt. lra. }
    assert (Hold : live' oldest = false) by (apply Qltb_ge; lra).
    assert (Hshrink : (length (List.filter live' (request_history (sessionManager st)))
                       <= length rest)%nat).
    { rewrite <- (filter_filter_weaker live' live _ Himp), Ev. cbn [List.filter].
      rewrite Hold. apply filter_length_le. }
    assert (Hlen : Z.of_nat (length (List.filter live (request_history (sessionManager st))))
                   = (Z.of_nat (length rest) + 1)%Z).
    { rewrite Ev. cbn [length]. lia. }
    assert (Hidem : List.filter live' (List.filter live' (request_history (sessionManager st)))
                    = List.filter live' (request_history (sessionManager st)))
      by now apply filter_filter_weaker.
    repeat split; try assumption.
    + rewrite Hidem, <- (filter_filter_weaker live' live log Himp), Hlive.
      now apply filter_filter_weaker.
    + rewrite Hidem. lia.
    + intros _. rewrite Hidem. lia.
Qed.

(** Recording an admitted request keeps the invariant. *)
Lemma window_invariant_record max w st log :
  window_invariant max w true st log ->
  window_invariant max w false (snd (add_request st)) (log ++ [now (env st)]).
Proof.
  intros (Hmax & Hw & Hlive & Hlog & Hcnt & Hadm).
  specialize (Hadm eq_refl).
  rewrite add_request_eq. unfold window_invariant. cbn.
  set (live := fun r => Qltb (now (env st) - w) r) in *.
  rewrite !List.filter_app, Hlive, length_app.
  assert (Hone : (length (List.filter live [now (env st)]) <= 1)%nat)
    by apply (filter_length_le live [now (env st)]).
  repeat split; try assumption; try lia; try discriminate.
  intros T. rewrite window_count_app.
  destruct (in_window w T (now (env st))) eqn:Ein.
  - assert (HT : (now (env st) <= T)%Q).
    { apply andb_true_iff in Ein as [_ H]. now apply Qle_bool_iff. }
    assert (Hsub : (window_count w T log
                    <= length (List.filter live (request_history (sessionManager st))))%nat).
    { rewrite <- Hlive. apply filter_length_mono.
      intros r Hr. eapply in_window_live; eassumption. }
    unfold window_count at 2. cbn [List.filter]. rewrite Ein. cbn [length]. lia.
  - unfold window_count at 2. cbn [List.filter]. rewrite Ein. cbn [length].
    specialize (Hlog T). lia.
Qed.

Lemma window_invariant_run max w trace :
  (1 <= max)%Z ->
  forall admitted st log,
    window_invariant max w admitted st log ->
    follows_protocol admitted trace = true ->
    exists st', run trace st = (Ok tt, st')
                /\ window_invariant max w (admitted_after admitted trace) st'
                     (log ++ recorded_during trace st).
Proof.
  intros Hpos. induction trace as [|a trace IH]; intros admitted st log Hinv Hp.
  - exists st. cbn. rewrite app_nil_r. auto.
  - destruct a as [d| |]; cbn [follows_protocol] in Hp;
      cbn [run perform admitted_after recorded_during]; unfold St.bind.
    + apply andb_true_iff in Hp as [Hd%Qle_bool_iff Hp].
      pose proof (window_invariant_elapse _ _ _ _ _ d Hd Hinv) as Hinv'.
      rewrite elapse_eq in *. cbn [snd app] in *. now apply IH.
    + destruct (window_invariant_admit _ _ _ _ _ Hpos Hinv) as (st' & Hrun & Hinv').
      rewrite Hrun. cbn [snd app]. now apply IH.
    + apply andb_true_iff in Hp as [-> Hp].
      pose proof (window_invariant_record _ _ _ _ Hinv) as Hinv'.
      rewrite add_request_eq in *. cbn [snd] in *.
      destruct (IH _ _ _ Hinv' Hp) as (st' & Hrun & Hfin).
      exists st'. split; [assumption|]. now rewrite <- app_assoc in Hfin.
Qed.

(** One request at a time is a way of being admitted before recorded. *)
Lemma follows_protocol_admitted_before_recorded trace :
  forall (admitted : bool) (pending : nat),
    (admitted = true -> (1 <= pending)%nat) ->
    follows_protocol admitted trace = true ->
    admitted_before_recorded pending trace = true.
Proof.
  induction trace as [|[d| |] trace IH]; intros admitted pending Hp H;
    cbn [follows_protocol admitted_before_recorded] in *.
  - reflexivity.
  - apply andb_true_iff in H as [-> H]. now apply (IH admitted).
  - apply (IH true); [lia|assumption].
  - apply andb_true_iff in H as [-> H]. destruct pending as [|k]; [specialize (Hp eq_refl); lia|].
    apply (IH false); [discriminate|assumption].
Qed.

(** C6, counterexample: with a limit of one request per second, three
    requests are admitted before any of them is recorded (each is admitted
    before it is recorded), and recorded at 0, 0.4 and 0.8 s.  The run does
    not raise, and at the instant the fourth request is admitted (at 1 s)
    the window of the last second holds two recorded timestamps. *)
Lemma interleaved_admissions_exceed_maximum :
  admitted_before_recorded 0 interleaved_trace = true
  /\ follows_protocol false interleaved_trace = false
  /\ fst (run interleaved_trace (governor_state 1 1 [] 0)) = Ok tt
  /\ admitted_after false interleaved_trace = true
  /\ (now (env (snd (run interleaved_trace (governor_state 1 1 [] 0)))) == 1)%Q
  /\ length (valid_requests_at
               (sessionManager (snd (run interleaved_trace (governor_state 1 1 [] 0))))
               (now (env (snd (run interleaved_trace (governor_state 1 1 [] 0))))))
     = 2%nat
  /\ window_count 1 1 (recorded_during interleaved_trace (governor_state 1 1 [] 0)) = 2%nat.
Proof. vm_compute. repeat split. Qed.

(** C6, as amended: whatever the caller does with a fresh session manager
    whose maximum is at least one, as long as requests go one at a time
    (every recording follows an admission of its own, with no other
    recording in between), the run never raises, no trailing interval of
    [max_per] seconds ever holds more than the maximum number of recorded
    timestamps, and right after an admission the current window holds fewer
    than the maximum, so that the admitted request fits. *)
Theorem request_window_invariant :
  forall (trace : list action) (st : pystate),
    request_history (sessionManager st) = [] ->
    (1 <= max_requests_per_second (sessionManager st))%Z ->
    follows_protocol false trace = true ->
    exists st',
      run trace st = (Ok tt, st')
      /\ (forall T,
            (Z.of_nat (window_count (max_per (sessionManager st)) T
                         (recorded_during trace st))
             <= max_requests_per_second (sessionManager st))%Z)
      /\ (admitted_after false trace = true ->
          (Z.of_nat (length (valid_requests_at (sessionManager st') (now (env st'))))
           < max_requests_per_second (sessionManager st))%Z).
Proof.
  intros trace st Hempty Hpos Hp.
  assert (Hinit : window_invariant (max_requests_per_second (sessionManager st))
                    (max_per (sessionManager st)) false st []).
  { unfold window_invariant. rewrite Hempty. cbn.
    repeat split; try lia; discriminate. }
  destruct (window_invariant_run _ _ trace Hpos _ _ _ Hinit Hp)
    as (st' & Hrun & Hmax & Hw & _ & Hlog & _ & Hadm).
  exists st'. split; [assumption|]. split; [exact Hlog|].
  intros Ha. unfold valid_requests_at. rewrite Hw. now apply Hadm.
Qed.

Lemma request_window_invariant_witness :
  exists st',
    run burst_trace (governor_state 2 1 [] 0) = (Ok tt, st')
    /\ (forall T,
          (Z.of_nat (window_count 1 T (recorded_during burst_trace (governor_state 2 1 [] 0)))
           <= 2)%Z)
    /\ (admitted_after false burst_trace = true ->
        (Z.of_nat (length (valid_requests_at (sessionManager st') (now (env st')))) < 2)%Z).
Proof.
  exact (request_window_invariant burst_trace (governor_state 2 1 [] 0)
           eq_refl ltac:(cbn; lia) eq_refl).
Defined.

(** A maximum of zero requests is no rate limit the code can enforce: on an
    empty window the first valid timestamp does not exist. *)
Lemma check_request_rate_limit_zero_maximum :
  fst (check_request_rate_limit (governor_state 0 30 [] 0)) = Raise IndexError.
Proof. reflexivity. Qed.

(** *** The history is chronological *)

Lemma chronological_snoc l x :
  chronological l -> Forall (fun r => (r <= x)%Q) l -> chronological (l ++ [x]).
Proof.
  unfold chronological. induction 1 as [|y l Hs IH Hy]; intros Hall; cbn.
  - repeat constructor.
  - inversion Hall as [|? ? Hyx Hall']; subst.
    constructor; [now apply IH|].
    apply Forall_app. split; [assumption|]. now constructor.
Qed.

(** X14: as long as time does not run backwards, the history of the session
    manager stays in the order of the clock and holds no timestamp of the
    future, whatever sequence of waits, admissions and recordings is run: the
    first valid timestamp is the oldest one of the window. *)
Lemma history_stays_chronological (trace : list action) :
  forall st,
    forallb (fun a => match a with Elapse d => Qle_bool 0 d | _ => true end) trace = true ->
    history_in_order st ->
    history_in_order (snd (run trace st)).
Proof.
  induction trace as [|a trace IH]; intros st Hfw [Hs Hb]; [now split|].
  cbn [forallb] in Hfw. apply andb_true_iff in Hfw as [Ha Hfw].
  cbn [run]. unfold St.bind.
  destruct a as [d| |]; cbn [perform].
  - rewrite elapse_eq. apply IH; [assumption|]. split; [exact Hs|]. cbn.
    apply Qle_bool_iff in Ha.
    eapply Forall_impl; [|exact Hb]. cbn. intros r Hr. lra.
  - rewrite check_request_rate_limit_eq. cbn zeta.
    destruct (_ >=? _)%Z; [|now apply IH].
    destruct (valid_requests_at _ _) as [|v0 rest]; [now split|].
    destruct (Qle_bool 0 _) eqn:Hw; [|now split].
    apply IH; [assumption|]. apply Qle_bool_iff in Hw. split; cbn.
    + now apply filter_chronological.
    + apply Forall_forall. intros r [Hr _]%filter_In.
      rewrite Forall_forall in Hb. specialize (Hb r Hr). cbn in Hb. lra.
  - rewrite add_request_eq. apply IH; [assumption|]. split; cbn.
    + now apply chronological_snoc.
    + apply Forall_app. split; [assumption|]. constructor; [lra|constructor].
Qed.

(** ** FetchCache *)

(** With a maximum of at least one request, admission never raises; it may
    sleep and prune, and touches nothing else. *)
Lemma check_request_rate_limit_total st :
  (1 <= max_requests_per_second (sessionManager st))%Z ->
  exists st0,
    check_request_rate_limit st = (Ok tt, st0)
    /\ self st0 = self st
    /\ network (env st0) = network (env st)
    /\ requests_sent (env st0) = requests_sent (env st)
    /\ max_requests_per_second (sessionManager st0)
       = max_requests_per_second (sessionManager st).
Proof.
  intros Hmax. rewrite check_request_rate_limit_eq. cbn zeta.
  destruct (Z.geb_spec (Z.of_nat (length (valid_requests_at (sessionManager st)
                                            (now (env st)))))
              (max_requests_per_second (sessionManager st))) as [Hge|Hlt].
  - destruct (valid_requests_at _ _) as [|v0 rest] eqn:Ev; [cbn in Hge; lia|].
    assert (Hin : (now (env st) - max_per (sessionManager st) < v0)%Q).
    { apply valid_request_in_window. rewrite Ev. now left. }
    assert (Hle : Qle_bool 0 (v0 + max_per (sessionManager st) - now (env st)) = true)
      by (apply Qle_bool_iff; lra).
    rewrite Hle. eexists. split; [reflexivity|]. cbn. auto.
  - exists st. auto.
Qed.

(** [_update_page_content] once the request has been admitted. *)
Lemma _update_page_content_admitted p st st0 :
  check_request_rate_limit st = (Ok tt, st0) ->
  _update_page_content p st =
  (Ok tt,
   match network (env st0) with
   | [] => after_silence p st0
   | (latency, NoConnection) :: rest => after_exchange p latency rest st0
   | (latency, Response code doc) :: rest =>
       if http_ok code then after_success p latency rest doc st0
       else after_exchange p latency rest st0
   end).
Proof.
  intros Hadmit.
  unfold _update_page_content, St.try_except, St.bind. rewrite Hadmit.
  unfold session_get, after_silence, after_exchange, after_success, http_ok.
  destruct st0 as [[t net sent] sm s]. cbn [env network now requests_sent].
  destruct net as [|[latency [|code doc]] rest]; cbn.
  - reflexivity.
  - reflexivity.
  - unfold raise_for_status.
    destruct ((400 <=? code)%Z && (code <? 600)%Z); cbn; [reflexivity|].
    unfold St.lift, py_find, call. cbn.
    destruct (Soup.find "body" Soup.any_attrs doc); reflexivity.
Qed.

Lemma _get_page_content_eq p st :
  _get_page_content p st =
  if needs_update p (self st) (now (env st)) then
    match _update_page_content p st with
    | (Ok _, st1) => (Ok (page_content (self st1)), remember p st1)
    | (Raise e, st1) => (Raise e, st1)
    end
  else (Ok (page_content (self st)), remember p st).
Proof.
  unfold _get_page_content, St.bind, St.get, time_time. cbn.
  destruct (needs_update _ _ _); [|reflexivity].
  destruct (_update_page_content p st) as [[[]|e] st1]; reflexivity.
Qed.

(** A hit: same mapping, within the interval since the last fetch. *)
Lemma _get_page_content_hit p st t :
  last_updated (self st) = Some t ->
  last_request (self st) = Some p ->
  (now (env st) - t <= update_interval (self st))%Q ->
  _get_page_content p st = (Ok (page_content (self st)), remember p st).
Proof.
  intros Ht Hp Hd. rewrite _get_page_content_eq. unfold needs_update.
  rewrite Ht, Hp, bool_decide_eq_true_2 by reflexivity. cbn [negb orb].
  apply Qltb_ge in Hd. now rewrite Hd.
Qed.

(** A miss sends exactly one request, whatever becomes of it. *)
Lemma _get_page_content_miss p st :
  needs_update p (self st) (now (env st)) = true ->
  (1 <= max_requests_per_second (sessionManager st))%Z ->
  exists st1 r,
    _get_page_content p st = (Ok r, st1)
    /\ fetches st1 = S (fetches st)
    /\ max_requests_per_second (sessionManager st1)
       = max_requests_per_second (sessionManager st).
Proof.
  intros Hneed Hmax. rewrite _get_page_content_eq, Hneed.
  destruct (check_request_rate_limit_total st Hmax)
    as (st0 & Hadmit & _ & _ & Hsent & Hmax0).
  rewrite (_update_page_content_admitted p st st0 Hadmit).
  eexists _, _. split; [reflexivity|].
  unfold fetches. rewrite <- Hsent, <- Hmax0.
  destruct (network (env st0)) as [|[latency [|code doc]] rest];
    [| |destruct (http_ok code)]; cbn; rewrite length_app; cbn; split; lia || reflexivity.
Qed.

(** The first call on a new cache, when the server answers with a good
    status. *)
Lemma _get_page_content_first p st latency code doc rest :
  last_updated (self st) = None ->
  (1 <= max_requests_per_second (sessionManager st))%Z ->
  network (env st) = (latency, Response code doc) :: rest ->
  http_ok code = true ->
  exists st0,
    check_request_rate_limit st = (Ok tt, st0)
    /\ self st0 = self st
    /\ requests_sent (env st0) = requests_sent (env st)
    /\ max_requests_per_second (sessionManager st0)
       = max_requests_per_second (sessionManager st)
    /\ _get_page_content p st
       = (Ok (Some doc), remember p (after_success p latency rest doc st0)).
Proof.
  intros Hnone Hmax Hnet Hok.
  destruct (check_request_rate_limit_total st Hmax)
    as (st0 & Hadmit & Hself & Hnet0 & Hsent & Hmax0).
  exists st0. repeat split; try assumption.
  rewrite _get_page_content_eq. unfold needs_update. rewrite Hnone.
  rewrite (_update_page_content_admitted p st st0 Hadmit), Hnet0, Hnet, Hok.
  reflexivity.
Qed.

(** C3, counterexample: when the first fetch fails on a new cache, a second
    call with the identical mapping, at the same instant, fetches again. *)
Lemma identical_calls_fetch_twice_after_failure :
  fetches (snd (get_twice athlete_params athlete_params 0 refused_then_served)) = 2%nat.
Proof. vm_compute. reflexivity. Qed.

(** C3, as amended: on a cache without a fetch so far, a call whose request
    is answered with a good status sends exactly one request; a second call
    with the identical mapping no later than [update_interval] after that
    fetch sends none and returns the same document; a second call with a
    mapping that differs, or later than [update_interval] after the fetch,
    sends a second request. *)
Theorem fetch_cache_hit_or_miss :
  forall (st : pystate) (p p' : params) (d latency : Q) (code : Z) (doc : node)
         (rest : list (Q * reply)),
    last_updated (self st) = None ->
    (1 <= max_requests_per_second (sessionManager st))%Z ->
    network (env st) = (latency, Response code doc) :: rest ->
    http_ok code = true ->
    fetches (snd (_get_page_content p st)) = S (fetches st)
    /\ (p' = p -> (d <= update_interval (self st))%Q ->
        fetches (snd (get_twice p p' d st)) = S (fetches st)
        /\ fst (get_twice p p' d st) = Ok (Some doc))
    /\ (p' <> p \/ (update_interval (self st) < d)%Q ->
        fetches (snd (get_twice p p' d st)) = S (S (fetches st))).
Proof.
  intros st p p' d latency code doc rest Hnone Hmax Hnet Hok.
  destruct (_get_page_content_first p st latency code doc rest Hnone Hmax Hnet Hok)
    as (st0 & _ & Hself & Hsent & Hmax0 & Hget).
  unfold get_twice, St.bind. rewrite Hget, elapse_eq. cbn [snd fst].
  set (st1 := remember p (after_success p latency rest doc st0)).
  set (st2 := {| env := advance d (env st1); sessionManager := sessionManager st1;
                 self := self st1 |}).
  assert (Hf1 : fetches st1 = S (fetches st)).
  { unfold fetches, st1. cbn. rewrite length_app, Hsent. cbn. lia. }
  split; [assumption|]. split.
  - intros -> Hd.
    rewrite (_get_page_content_hit p st2 (now (env st0) + latency)%Q);
      [cbn; auto|reflexivity|reflexivity|].
    cbn. rewrite Hself. lra.
  - intros Hmiss.
    destruct (_get_page_content_miss p' st2) as (st3 & r & -> & Hf3 & _).
    + unfold needs_update. cbn.
      destruct Hmiss as [Hne|Hlate].
      * rewrite bool_decide_eq_false_2; [reflexivity|]. now intros [= ->].
      * apply orb_true_iff. right. apply Qltb_lt. rewrite Hself. lra.
    + cbn. now rewrite Hmax0.
    + cbn [snd]. rewrite Hf3. unfold fetches in *. cbn in *. now rewrite Hf1.
Qed.

Lemma other_params_differ : other_params <> athlete_params.
Proof.
  apply (bool_decide_eq_false_1 (other_params = athlete_params)).
  vm_compute. reflexivity.
Qed.

Lemma fetch_cache_hit_or_miss_witness :
  fetches (snd (get_twice athlete_params athlete_params 30 served_twice)) = 1%nat
  /\ fst (get_twice athlete_params athlete_params 30 served_twice) = Ok (Some (page []))
  /\ fetches (snd (get_twice athlete_params other_params 30 served_twice)) = 2%nat
  /\ fetches (snd (get_twice athlete_params athlete_params 61 served_twice)) = 2%nat.
Proof.
  split; [|split; [|split]].
  - apply (proj1 (proj2 (fetch_cache_hit_or_miss served_twice athlete_params
                           athlete_params 30 0 200 (page [])
                           [(0, Response 200 (page []))]
                           eq_refl ltac:(cbn; lia) eq_refl eq_refl))
             eq_refl ltac:(cbn; lra)).
  - apply (proj1 (proj2 (fetch_cache_hit_or_miss served_twice athlete_params
                           athlete_params 30 0 200 (page [])
                           [(0, Response 200 (page []))]
                           eq_refl ltac:(cbn; lia) eq_refl eq_refl))
             eq_refl ltac:(cbn; lra)).
  - apply (proj2 (proj2 (fetch_cache_hit_or_miss served_twice athlete_params
                           other_params 30 0 200 (page [])
                           [(0, Response 200 (page []))]
                           eq_refl ltac:(cbn; lia) eq_refl eq_refl))).
    left. exact other_params_differ.
  - apply (proj2 (proj2 (fetch_cache_hit_or_miss served_twice athlete_params
                           athlete_params 61 0 200 (page [])
                           [(0, Response 200 (page []))]
                           eq_refl ltac:(cbn; lia) eq_refl eq_refl))).
    right. cbn. lra.
Defined.

(** A refresh that fails at the transport or by its status leaves the cached
    document as it was. *)
Lemma failed_refresh_keeps_document p st st0 :
  check_request_rate_limit st = (Ok tt, st0) ->
  self st0 = self st ->
  (forall latency code doc rest,
      network (env st0) = (latency, Response code doc) :: rest -> http_ok code = false) ->
  cached (snd (_update_page_content p st)) = cached st.
Proof.
  intros Hadmit Hself Hfail.
  rewrite (_update_page_content_admitted p st st0 Hadmit). unfold cached. cbn [snd].
  destruct (network (env st0)) as [|[latency [|code doc]] rest] eqn:Hnet;
    try (cbn; now rewrite Hself).
  rewrite (Hfail _ _ _ _ eq_refl). cbn. now rewrite Hself.
Qed.

(** C4: the code at the failing inputs.  After a fetch that succeeded, a
    refresh refused by the server (or never answered) leaves the earlier
    document in the cache, and the call returns it; a response without body
    is itself cached and returned. *)
Theorem stale_document_after_failed_refresh :
  fst (get_twice athlete_params other_params 1 served_then_refused) = Ok (Some (page []))
  /\ cached (snd (get_twice athlete_params other_params 1 served_then_refused))
     = Some (page [])
  /\ fst (get_twice athlete_params other_params 1 served_then_dropped) = Ok (Some (page []))
  /\ fst (_get_page_content athlete_params served_empty) = Ok (Some empty_page)
  /\ fst (get_twice athlete_params athlete_params 0 served_empty) = Ok (Some empty_page).
Proof. vm_compute. repeat split. Qed.

(** C7, counterexample: a response with a good status and no body is
    reported as a failed fetch, and its timestamp is in the history. *)
Lemma empty_response_consumes_quota :
  Soup.find "body" Soup.any_attrs empty_page = None
  /\ request_history (sessionManager (snd (_update_page_content athlete_params served_empty)))
     = [(0 + 0)%Q].
Proof. vm_compute. split; reflexivity. Qed.

(** C7, as amended: a refresh appends a timestamp to the request history if
    and only if the GET came back with a status that [raise_for_status]
    accepts; a transport failure or an error status leaves the history as
    admission left it. *)
Theorem quota_recorded_iff_status_ok :
  forall (p : params) (st st0 : pystate),
    check_request_rate_limit st = (Ok tt, st0) ->
    (forall latency code doc rest,
        network (env st0) = (latency, Response code doc) :: rest ->
        http_ok code = true ->
        request_history (sessionManager (snd (_update_page_content p st)))
        = request_history (sessionManager st0) ++ [(now (env st0) + latency)%Q])
    /\ ((~ exists latency code doc rest,
            network (env st0) = (latency, Response code doc) :: rest
            /\ http_ok code = true) ->
        request_history (sessionManager (snd (_update_page_content p st)))
        = request_history (sessionManager st0)).
Proof.
  intros p st st0 Hadmit.
  rewrite (_update_page_content_admitted p st st0 Hadmit). cbn [snd]. split.
  - intros latency code doc rest -> ->. reflexivity.
  - intros Hno.
    destruct (network (env st0)) as [|[latency [|code doc]] rest]; try reflexivity.
    destruct (http_ok code) eqn:Hok; [|reflexivity].
    exfalso. apply Hno. eauto 6.
Qed.

Lemma quota_recorded_iff_status_ok_witness :
  request_history (sessionManager (snd (_update_page_content athlete_params served_twice)))
  = [(0 + 0)%Q]
  /\ request_history (sessionManager (snd (_update_page_content athlete_params
                                             refused_then_served)))
     = [].
Proof.
  split.
  - apply (proj1 (quota_recorded_iff_status_ok athlete_params served_twice
                    served_twice eq_refl)
             0 200%Z (page []) [(0, Response 200 (page []))] eq_refl eq_refl).
  - apply (proj2 (quota_recorded_iff_status_ok athlete_params refused_then_served
                    refused_then_served eq_refl)).
    intros (latency & code & doc & rest & [= <- <- <- <-] & Hok). discriminate Hok.
Defined.

(** Mappings are compared by their keys and values, not by the order they
    were written in. *)
Lemma params_order_irrelevant (a b : pyval) :
  dict [("page", a); ("meetId", b)] = dict [("meetId", b); ("page", a)].
Proof.
  unfold dict. cbn [list_to_map foldr uncurry fst snd].
  apply insert_insert_ne. discriminate.
Qed.

(** *** A refresh keeps to the protocol of the rate governor *)

Lemma window_invariant_same_clock max w admitted st st' log :
  now (env st') = now (env st) ->
  sessionManager st' = sessionManager st ->
  window_invariant max w admitted st log ->
  window_invariant max w admitted st' log.
Proof. unfold window_invariant. now intros -> ->. Qed.

Lemma window_invariant_settled max w admitted st log :
  window_invariant max w admitted st log -> window_invariant max w false st log.
Proof.
  intros (? & ? & ? & ? & ? & _). unfold window_invariant.
  repeat split; try assumption. discriminate.
Qed.

(** Every refresh, whichever extractor asks for it, asks for admission
    first and records at most one request afterwards: the request window
    invariant holds after it, for a log that grew by at most one timestamp. *)
Lemma refresh_keeps_window_invariant max w p st log :
  (1 <= max)%Z ->
  Forall (fun e => (0 <= fst e)%Q) (network (env st)) ->
  window_invariant max w false st log ->
  exists log',
    fst (_update_page_content p st) = Ok tt
    /\ window_invariant max w false (snd (_update_page_content p st)) log'
    /\ (log' = log \/ exists t, log' = log ++ [t]).
Proof.
  intros Hpos Hnet Hinv.
  assert (Hmax : (1 <= max_requests_per_second (sessionManager st))%Z)
    by (destruct Hinv as (-> & _); assumption).
  destruct (window_invariant_admit _ _ _ _ _ Hpos Hinv) as (st0 & Hadmit & Hinv0).
  destruct (check_request_rate_limit_total st Hmax) as (st0' & Hadmit' & _ & Hnet0 & _).
  rewrite Hadmit in Hadmit'. injection Hadmit' as <-.
  rewrite (_update_page_content_admitted p st st0 Hadmit). cbn [fst snd].
  rewrite <- Hnet0 in Hnet.
  destruct (network (env st0)) as [|[latency r] rest] eqn:En.
  - exists log. split; [reflexivity|]. split; [|now left].
    apply (window_invariant_settled _ _ true).
    now apply (window_invariant_same_clock _ _ _ st0).
  - inversion Hnet as [|? ? Hlat _]; subst. cbn in Hlat.
    pose proof (window_invariant_elapse _ _ _ _ _ latency Hlat Hinv0) as Hwait.
    rewrite elapse_eq in Hwait. cbn [snd] in Hwait.
    assert (Hquiet : window_invariant max w false (after_exchange p latency rest st0) log).
    { apply (window_invariant_settled _ _ true).
      now apply (window_invariant_same_clock _ _ _ _ _ _ eq_refl eq_refl Hwait). }
    destruct r as [|code doc]; [exists log; auto|].
    destruct (http_ok code); [|exists log; auto].
    exists (log ++ [(now (env st0) + latency)%Q]). split; [reflexivity|].
    split; [|right; eauto].
    pose proof (window_invariant_record _ _ _ _ Hwait) as Hrec.
    rewrite add_request_eq in Hrec. cbn [snd] in Hrec.
    now apply (window_invariant_same_clock _ _ _ _ _ _ eq_refl eq_refl Hrec).
Qed.

(** ** Extractors *)

(** A loop that appends one record per item returns all of them or raises
    at the first item that fails. *)
Lemma mapM_Ok {A B} (f : A -> result B) (l : list A) :
  forall out, Res.mapM f l = Ok out <-> Forall2 (fun x y => f x = Ok y) l out.
Proof.
  induction l as [|a l IH]; intros out; cbn [Res.mapM].
  - split; [intros [= <-]; constructor|intros H; now inversion H].
  - destruct (f a) as [y|e] eqn:Ea; cbn [Res.bind].
    + destruct (Res.mapM f l) as [ys|e] eqn:El; cbn [Res.bind].
      * split.
        -- intros [= <-]. constructor; [assumption|]. now apply IH.
        -- intros H. inversion H as [|? ? ? ? Hy Hys]; subst.
           apply IH in Hys. congruence.
      * split; [discriminate|]. intros H. inversion H as [|? ? ? ? Hy Hys]; subst.
        apply IH in Hys. discriminate.
    + split; [discriminate|]. intros H. inversion H; congruence.
Qed.

Lemma mapM_Raise {A B} (f : A -> result B) (pre : list A) x post e :
  Forall (fun y => exists r, f y = Ok r) pre ->
  f x = Raise e ->
  Res.mapM f (pre ++ x :: post) = Raise e.
Proof.
  intros Hpre Hx. induction Hpre as [|a pre [r Ha] _ IH]; cbn [app Res.mapM].
  - now rewrite Hx.
  - now rewrite Ha, IH.
Qed.


Section ExtractorFacts.
Variable normalize_NFKD : string -> string.
Variable parse_qs_query : string -> list (string * list string).
Variable py_int : string -> result Z.
Variable findall_split1 : string -> list string.

(** The entry of every extractor: the fetch, then a lookup on what it
    returned, inside [try ... except AttributeError: return r]. *)
Lemma entry_without_document {A R} (p : params) (lookup : maybe_tag -> result A)
    (r : R) (rest : A -> M R) st st' :
  lookup None = Raise AttributeError ->
  _get_page_content p st = (Ok None, st') ->
  St.try_except_return is_AttributeError
    (St.bind (_get_page_content p) (fun soup => St.lift (lookup soup))) r rest st
  = (Ok r, st').
Proof.
  intros Hl Hget. unfold St.try_except_return, St.bind, St.lift.
  now rewrite Hget, Hl.
Qed.

Lemma entry_with_document {A R} (p : params) (lookup : maybe_tag -> result A)
    (r : R) (rest : A -> M R) st st' soup x :
  lookup (Some soup) = Ok x ->
  _get_page_content p st = (Ok (Some soup), st') ->
  St.try_except_return is_AttributeError
    (St.bind (_get_page_content p) (fun soup => St.lift (lookup soup))) r rest st
  = rest x st'.
Proof.
  intros Hl Hget. unfold St.try_except_return, St.bind, St.lift.
  now rewrite Hget, Hl.
Qed.

(** C2: whenever the fetch of an extractor method leaves it without a
    document ([_get_page_content] returns [None]), the method returns the
    empty list, [None] for [Result.get_time], and does not raise. *)
Theorem extractors_without_document :
  forall st st' : pystate,
    (forall athlete_id season,
        _get_page_content (personal_bests_params athlete_id season) st = (Ok None, st') ->
        Athlete_list_personal_bests parse_qs_query py_int athlete_id season st
        = (Ok [], st'))
    /\ (forall athlete_id,
           _get_page_content (athlete_meets_params athlete_id) st = (Ok None, st') ->
           Athlete_list_meets normalize_NFKD parse_qs_query py_int athlete_id st
           = (Ok [], st'))
    /\ (forall meet_id,
           _get_page_content (meet_params meet_id) st = (Ok None, st') ->
           Meet_list_clubs parse_qs_query meet_id st = (Ok [], st')
           /\ Meet_list_events meet_id st = (Ok [], st'))
    /\ (forall meet_id event_id gender,
           _get_page_content (meet_event_params meet_id gender event_id) st
           = (Ok None, st') ->
           Meet_list_races normalize_NFKD meet_id event_id gender st = (Ok [], st')
           /\ forall race_id,
               Meet_list_results parse_qs_query findall_split1 meet_id event_id gender
                 race_id st = (Ok [], st'))
    /\ (forall result_id,
           _get_page_content (result_params result_id) st = (Ok None, st') ->
           Result_get_time result_id st = (Ok None, st'))
    /\ (_get_page_content meets_index_params st = (Ok None, st') ->
        Meets_list_time_periods normalize_NFKD st = (Ok [], st')
        /\ Meets_list_nations normalize_NFKD st = (Ok [], st'))
    /\ (forall nation_id time_period_id,
           _get_page_content (meets_params nation_id time_period_id) st = (Ok None, st') ->
           Meets_list_meets normalize_NFKD parse_qs_query nation_id time_period_id st
           = (Ok [], st'))
    /\ (forall club_id gender athlete_gender,
           py_index ["CURRENT"; "ALL_MEN"; "All_WOMEN"] gender = Ok athlete_gender ->
           _get_page_content (club_params club_id athlete_gender) st = (Ok None, st') ->
           Club_list_athletes parse_qs_query club_id gender st = (Ok [], st')).
Proof.
  intros st st'.
  repeat match goal with |- _ /\ _ => split end; intros.
  - now apply entry_without_document.
  - now apply entry_without_document.
  - split; now apply entry_without_document.
  - split; [|intros race_id]; now apply entry_without_document.
  - now apply entry_without_document.
  - split; now apply entry_without_document.
  - now apply entry_without_document.
  - unfold Club_list_athletes, St.bind, St.lift.
    match goal with H : py_index _ _ = _ |- _ => rewrite H end.
    now apply entry_without_document.
Qed.

(** *** A document without the container an extractor looks for *)

(** The methods that look the container up with [find] and use it outside
    the [try]: the missing container is an [AttributeError] of the caller. *)
Lemma missing_container_AttributeError (st st' : pystate) (soup : node) :
  (forall athlete_id season,
      _get_page_content (personal_bests_params athlete_id season) st
      = (Ok (Some soup), st') ->
      Soup.find "table" (Soup.class_in ["athleteBest"]) soup = None ->
      Athlete_list_personal_bests parse_qs_query py_int athlete_id season st
      = (Raise AttributeError, st'))
  /\ (forall athlete_id,
         _get_page_content (athlete_meets_params athlete_id) st = (Ok (Some soup), st') ->
         Soup.find "table" (Soup.class_in ["athleteMeet"]) soup = None ->
         Athlete_list_meets normalize_NFKD parse_qs_query py_int athlete_id st
         = (Raise AttributeError, st'))
  /\ (forall meet_id,
         _get_page_content (meet_params meet_id) st = (Ok (Some soup), st') ->
         Soup.find "table" (Soup.class_in ["meetSearch"]) soup = None ->
         Meet_list_clubs parse_qs_query meet_id st = (Raise AttributeError, st'))
  /\ (forall meet_id,
         _get_page_content (meet_params meet_id) st = (Ok (Some soup), st') ->
         Soup.find "table" (Soup.class_in ["navigation"]) soup = None ->
         Meet_list_events meet_id st = (Raise AttributeError, st'))
  /\ (_get_page_content meets_index_params st = (Ok (Some soup), st') ->
      Soup.find "select" (Soup.attr_is "name" "selectPage") soup = None ->
      Meets_list_time_periods normalize_NFKD st = (Raise AttributeError, st'))
  /\ (_get_page_content meets_index_params st = (Ok (Some soup), st') ->
      Soup.find "select" (Soup.attr_is "name" "nationId") soup = None ->
      Meets_list_nations normalize_NFKD st = (Raise AttributeError, st')).
Proof.
  repeat match goal with |- _ /\ _ => split end; intros;
    unfold Athlete_list_personal_bests, Athlete_list_meets, Meet_list_clubs,
      Meet_list_events, Meets_list_time_periods, Meets_list_nations;
    match goal with
    | Hget : _get_page_content _ _ = _, Hfind : Soup.find ?nm ?f soup = None |- _ =>
        erewrite (entry_with_document _ (py_find nm f) _ _ st st' soup None);
        [reflexivity|cbn; now rewrite Hfind|exact Hget]
    end.
Qed.

(** [Meet.list_results] indexes the list of tables outside the [try]: with
    no result table on the page every race id is an [IndexError]. *)
Lemma missing_result_table_IndexError (st st' : pystate) (soup : node)
    (meet_id event_id gender : pyval) (race_id : Z) :
  _get_page_content (meet_event_params meet_id gender event_id) st
  = (Ok (Some soup), st') ->
  result_tables soup = [] ->
  Meet_list_results parse_qs_query findall_split1 meet_id event_id gender race_id st
  = (Raise IndexError, st').
Proof.
  intros Hget Hnone. unfold Meet_list_results.
  erewrite (entry_with_document _ (py_find_all "table" (Soup.class_in ["meetResult"]))
              _ _ st st' soup []);
    [|cbn; fold (result_tables soup); now rewrite Hnone|exact Hget].
  unfold St.lift. now rewrite py_index_empty.
Qed.

(** X15: on a fetched page without their container, the methods that
    collect with [find_all] ([Meet.list_races], [Meets.list_meets],
    [Club.list_athletes]) return the empty list, and [Result.get_time],
    whose lookup is inside the [try], returns [None]. *)
Lemma missing_container_empty (st st' : pystate) (soup : node) :
  (forall meet_id event_id gender,
      _get_page_content (meet_event_params meet_id gender event_id) st
      = (Ok (Some soup), st') ->
      result_tables soup = [] ->
      Meet_list_races normalize_NFKD meet_id event_id gender st = (Ok [], st'))
  /\ (forall result_id,
         _get_page_content (result_params result_id) st = (Ok (Some soup), st') ->
         Soup.find "td" (Soup.class_in ["swimtimeLarge"]) soup = None ->
         Result_get_time result_id st = (Ok None, st'))
  /\ (forall nation_id time_period_id,
         _get_page_content (meets_params nation_id time_period_id) st
         = (Ok (Some soup), st') ->
         Soup.find_all "table" (Soup.class_in ["meetSearch"]) soup = [] ->
         Meets_list_meets normalize_NFKD parse_qs_query nation_id time_period_id st
         = (Ok [], st'))
  /\ (forall club_id gender athlete_gender,
         py_index ["CURRENT"; "ALL_MEN"; "All_WOMEN"] gender = Ok athlete_gender ->
         _get_page_content (club_params club_id athlete_gender) st
         = (Ok (Some soup), st') ->
         Soup.find_all "table" (Soup.class_in ["athleteList"]) soup = [] ->
         Club_list_athletes parse_qs_query club_id gender st = (Ok [], st')).
Proof.
  repeat match goal with |- _ /\ _ => split end.
  - intros meet_id event_id gender Hget Hnone. unfold Meet_list_races.
    erewrite (entry_with_document _ (py_find_all "table" (Soup.class_in ["meetResult"]))
                _ _ st st' soup []);
      [reflexivity|cbn; fold (result_tables soup); now rewrite Hnone|exact Hget].
  - intros result_id Hget Hnone.
    unfold Result_get_time, St.try_except_return, St.bind, St.lift.
    rewrite Hget. cbn. now rewrite Hnone.
  - intros nation_id time_period_id Hget Hnone. unfold Meets_list_meets.
    erewrite (entry_with_document _ (py_find_all "table" (Soup.class_in ["meetSearch"]))
                _ _ st st' soup []);
      [reflexivity|cbn; now rewrite Hnone|exact Hget].
  - intros club_id gender athlete_gender Hg Hget Hnone.
    unfold Club_list_athletes. unfold St.bind at 1. unfold St.lift at 1. rewrite Hg.
    erewrite (entry_with_document _ (py_find_all "table" (Soup.class_in ["athleteList"]))
                _ _ st st' soup []);
      [reflexivity|cbn; now rewrite Hnone|exact Hget].
Qed.

(** C1: the code at the failing inputs.  The page is fetched and parsed, it
    has a body and none of the tables: [Meet.list_events] raises
    [AttributeError], [Meet.list_results] raises [IndexError] whatever the
    race asked for, and [Athlete.list_personal_bests] raises
    [AttributeError]. *)
Theorem missing_container_raises :
  fst (Meet_list_events (PyInt 642564) (served bare_page)) = Raise AttributeError
  /\ (forall race_id,
         fst (Meet_list_results parse_qs_query findall_split1 (PyInt 642564) (PyInt 1)
                (PyInt 1) race_id (served bare_page)) = Raise IndexError)
  /\ fst (Athlete_list_personal_bests parse_qs_query py_int (PyInt 4787911) ""
            (served bare_page)) = Raise AttributeError.
Proof.
  split; [|split].
  - vm_compute. reflexivity.
  - intros race_id.
    erewrite (missing_result_table_IndexError (served bare_page) _ bare_page);
      [reflexivity|vm_compute; reflexivity|reflexivity].
  - destruct (missing_container_AttributeError (served bare_page)
                (snd (_get_page_content (personal_bests_params (PyInt 4787911) "")
                        (served bare_page))) bare_page) as (H & _).
    rewrite H; [reflexivity|vm_compute; reflexivity|reflexivity].
Qed.

(** *** Races and the tables they come from *)

Lemma py_index_nth {A} (l : list A) (i : nat) (x : A) :
  nth_error l i = Some x -> py_index l (Z.of_nat i) = Ok x.
Proof.
  intros H. unfold py_index.
  assert (i < length l)%nat by (apply nth_error_Some; congruence).
  destruct (Z.ltb_spec (Z.of_nat i) 0); [lia|].
  destruct (Z.ltb_spec (Z.of_nat i) 0); [lia|].
  destruct (Z.leb_spec (Z.of_nat (length l)) (Z.of_nat i)); [lia|].
  cbn [orb]. now rewrite Nat2Z.id, H.
Qed.

(** The position only numbers the race; the name comes from the table. *)
Lemma race_of_table_id (id : nat) (table : node) :
  race_of_table normalize_NFKD id table =
  Res.bind (race_of_table normalize_NFKD 0 table)
    (fun r => Ok (mk_Race (Z.of_nat id + 1) (race_name r))).
Proof.
  unfold race_of_table.
  destruct (py_find "tr" _ (Some table)) as [head|e]; [|reflexivity]. cbn [Res.bind].
  destruct (py_find "th" _ head) as [name_cell|e]; [|reflexivity]. cbn [Res.bind].
  destruct (py_get_text name_cell) as [name_text|e]; reflexivity.
Qed.

Lemma races_from_order (tables : list node) :
  forall (k : nat) (races : list Race),
    races_from normalize_NFKD k tables = Ok races ->
    length races = length tables
    /\ forall i table,
        nth_error tables i = Some table ->
        exists race, nth_error races i = Some race
                     /\ race_id race = (Z.of_nat (k + i) + 1)%Z
                     /\ race_of_table normalize_NFKD (k + i) table = Ok race.
Proof.
  induction tables as [|t tables IH]; intros k races; cbn [races_from].
  - intros [= <-]. split; [reflexivity|]. intros [|i] table; discriminate.
  - destruct (race_of_table normalize_NFKD k t) as [race|e] eqn:Er; [|discriminate].
    cbn [Res.bind].
    destruct (races_from normalize_NFKD (S k) tables) as [rs|e] eqn:Ers; [|discriminate].
    cbn [Res.bind]. intros [= <-].
    destruct (IH _ _ Ers) as [Hlen Hnth]. split; [cbn; now rewrite Hlen|].
    intros [|i] table Hi; cbn in Hi.
    + injection Hi as <-. exists race. rewrite Nat.add_0_r.
      split; [reflexivity|]. split; [|assumption].
      rewrite race_of_table_id in Er.
      destruct (race_of_table normalize_NFKD 0 t); [|discriminate].
      cbn in Er. now injection Er as <-.
    + destruct (Hnth i table Hi) as (race' & H1 & H2 & H3).
      exists race'. replace (k + S i)%nat with (S k + i)%nat by lia. auto.
Qed.

Lemma races_from_total (tables : list node) :
  Forall (fun t => exists r, race_of_table normalize_NFKD 0 t = Ok r) tables ->
  forall k, exists races, races_from normalize_NFKD k tables = Ok races.
Proof.
  induction 1 as [|t tables [r Hr] _ IH]; intros k; cbn [races_from].
  - eauto.
  - rewrite race_of_table_id, Hr. cbn [Res.bind].
    destruct (IH (S k)) as [races ->]. cbn [Res.bind]. eauto.
Qed.

(** C10: on a fetched meet page [Meet.list_races] numbers the result tables
    of the page 1, 2, ... in document order (it returns one race per table
    whenever every table has its heading), and [Meet.list_results], asked for
    race i+1, extracts its rows from the table at position i of the same
    sequence: it returns one record per row of class [meetResult0] or
    [meetResult1] of that table, in the order of the rows, each read from
    its row, exactly when every row can be read, and otherwise raises what
    the first unreadable row raises. *)
Theorem race_ids_follow_document_order :
  forall (st st' : pystate) (soup : node) (meet_id event_id gender : pyval),
    _get_page_content (meet_event_params meet_id gender event_id) st
    = (Ok (Some soup), st') ->
    Meet_list_races normalize_NFKD meet_id event_id gender st
    = (races_from normalize_NFKD 0 (result_tables soup), st')
    /\ (Forall (fun t => exists r, race_of_table normalize_NFKD 0 t = Ok r)
          (result_tables soup) ->
        exists races, races_from normalize_NFKD 0 (result_tables soup) = Ok races)
    /\ (forall races,
           races_from normalize_NFKD 0 (result_tables soup) = Ok races ->
           length races = length (result_tables soup)
           /\ forall i table,
               nth_error (result_tables soup) i = Some table ->
               exists race, nth_error races i = Some race
                            /\ race_id race = (Z.of_nat i + 1)%Z
                            /\ race_of_table normalize_NFKD i table = Ok race)
    /\ (forall i table,
           nth_error (result_tables soup) i = Some table ->
           exists r,
             Meet_list_results parse_qs_query findall_split1 meet_id event_id gender
               (Z.of_nat i + 1) st = (r, st')
             /\ (forall out,
                    r = Ok out <->
                    Forall2 (fun row record =>
                               result_of_row parse_qs_query findall_split1 row = Ok record)
                      (result_rows table) out)
             /\ (forall pre row post e,
                    result_rows table = pre ++ row :: post ->
                    Forall (fun y => exists record,
                                result_of_row parse_qs_query findall_split1 y = Ok record)
                      pre ->
                    result_of_row parse_qs_query findall_split1 row = Raise e ->
                    r = Raise e)).
Proof.
  intros st st' soup meet_id event_id gender Hget.
  split; [|split; [|split]].
  - unfold Meet_list_races.
    now erewrite (entry_with_document _ (py_find_all "table" (Soup.class_in ["meetResult"]))
                    _ _ st st' soup (result_tables soup)) by (reflexivity || exact Hget).
  - intros Hall. now apply races_from_total.
  - intros races Hr. exact (races_from_order _ 0 races Hr).
  - intros i table Hi. unfold Meet_list_results.
    erewrite (entry_with_document _ (py_find_all "table" (Soup.class_in ["meetResult"]))
                _ _ st st' soup (result_tables soup)) by (reflexivity || exact Hget).
    unfold St.lift. replace (Z.of_nat i + 1 - 1)%Z with (Z.of_nat i) by lia.
    rewrite (py_index_nth _ _ _ Hi). cbn [Res.bind].
    exists (results_of_table parse_qs_query findall_split1 table).
    split; [reflexivity|]. unfold results_of_table. fold (result_rows table). split.
    + intros out. apply mapM_Ok.
    + intros pre row post e -> Hpre Hrow. now apply mapM_Raise.
Qed.

End ExtractorFacts.

Lemma extractors_without_document_witness :
  Athlete_list_personal_bests no_query no_int (PyStr "4292888") "" unreachable
  = (Ok [], snd (_get_page_content (personal_bests_params (PyStr "4292888") "") unreachable))
  /\ Result_get_time (PyInt 1234567) unreachable
     = (Ok None, snd (_get_page_content (result_params (PyInt 1234567)) unreachable))
  /\ Club_list_athletes no_query (PyInt 65929) 0 unreachable
     = (Ok [], snd (_get_page_content (club_params (PyInt 65929) "CURRENT") unreachable)).
Proof.
  split; [|split].
  - apply (proj1 (extractors_without_document same_text no_query no_int no_splits unreachable
                    (snd (_get_page_content (personal_bests_params (PyStr "4292888") "")
                            unreachable)))).
    vm_compute. reflexivity.
  - apply (proj1 (proj2 (proj2 (proj2 (proj2
             (extractors_without_document same_text no_query no_int no_splits unreachable
                (snd (_get_page_content (result_params (PyInt 1234567)) unreachable)))))))).
    vm_compute. reflexivity.
  - apply (proj2 (proj2 (proj2 (proj2 (proj2 (proj2 (proj2
             (extractors_without_document same_text no_query no_int no_splits unreachable
                (snd (_get_page_content (club_params (PyInt 65929) "CURRENT")
                        unreachable)))))))))
             (PyInt 65929) 0%Z "CURRENT").
    + reflexivity.
    + vm_compute. reflexivity.
Defined.


Lemma race_ids_follow_document_order_witness :
  fst (Meet_list_races same_text (PyInt 642564) (PyInt 1) (PyInt 1)
         (served heats_and_final_page))
  = Ok [mk_Race 1 "Heats"; mk_Race 2 "Final"]
  /\ fst (Meet_list_results example_query SplitTimes.findall (PyInt 642564) (PyInt 1)
            (PyInt 1) 1 (served heats_and_final_page))
     = Ok [mk_ResultRow "11" "101" "Alice" "Club A" "29.10" [];
           mk_ResultRow "12" "102" "Bob" "Club B" "28.44" ["13.70"]]
  /\ fst (Meet_list_results example_query SplitTimes.findall (PyInt 642564) (PyInt 1)
            (PyInt 1) 2 (served heats_and_final_page))
     = Ok [mk_ResultRow "21" "102" "Bob" "Club B" "27.90" []].
Proof.
  pose proof (race_ids_follow_document_order same_text example_query SplitTimes.findall
                (served heats_and_final_page)
                (snd (_get_page_content
                        (meet_event_params (PyInt 642564) (PyInt 1) (PyInt 1))
                        (served heats_and_final_page)))
                heats_and_final_page (PyInt 642564) (PyInt 1) (PyInt 1) eq_refl)
    as (Hraces & _ & _ & Hresults).
  split; [|split].
  - exact (f_equal fst Hraces).
  - destruct (Hresults 0%nat heats_table eq_refl) as (r & E & Hout & _).
    change (Z.of_nat 0 + 1)%Z with 1%Z in E. rewrite E. cbn [fst]. apply Hout.
    repeat (constructor; [vm_compute; reflexivity|]). constructor.
  - destruct (Hresults 1%nat final_table eq_refl) as (r & E & Hout & _).
    change (Z.of_nat 1 + 1)%Z with 2%Z in E. rewrite E. cbn [fst]. apply Hout.
    repeat (constructor; [vm_compute; reflexivity|]). constructor.
Defined.

(** * Further properties of the code *)

(** ** [convert_time]: range and marker *)

(** X1: whatever [convert_time] returns is a time of day in seconds: a
    finite float, at least 0 and less than 24 hours. *)
Theorem convert_time_range :
  forall (time_str : string) (x : Float.float),
    convert_time time_str = Ok x ->
    Float.is_finite x = true /\ (0 <= Float.to_Q x < 86400)%Q.
Proof.
  intros time_str x. unfold convert_time.
  destruct (list_ascii_of_string time_str) as [|c0 l0] eqn:El.
  - discriminate.
  - assert (Hne : c0 :: l0 <> []) by discriminate.
    destruct (nonempty_last _ Hne) as (l & y & ->).
    rewrite convert_time_chars_nonempty. cbn zeta.
    destruct (Strptime.strptime _ _) as [t|e] eqn:E; [|discriminate].
    cbn [Res.bind]. intros [= <-].
    destruct (strptime_Ok _ _ _ E) as (h & m & s & f & Hs & ->).
    cbn [Strptime.second Strptime.minute Strptime.hour Strptime.microsecond].
    rewrite total_second_fields.
    destruct (duration_float _ _ _ _ _ Hs) as (Hfin & Hrange & _). now split.
Qed.

Lemma convert_time_range_witness :
  exists x, convert_time "23:59:59.999999" = Ok x
            /\ Float.is_finite x = true /\ (0 <= Float.to_Q x < 86400)%Q.
Proof.
  eexists. split; [reflexivity|].
  exact (convert_time_range "23:59:59.999999" _ eq_refl).
Defined.

(** X2: the marker suffix does not change the value: for a non-empty string
    that does not itself end in the marker, [convert_time] gives the same
    result (value or exception) with and without an [M] appended. *)
Theorem convert_time_marker :
  forall (body : list ascii) (x : ascii),
    x <> "M"%char ->
    convert_time (string_of_list_ascii (body ++ [x; "M"%char]))
    = convert_time (string_of_list_ascii (body ++ [x])).
Proof.
  intros body x Hx. unfold convert_time.
  rewrite !list_ascii_of_string_of_list_ascii.
  replace (body ++ [x; "M"%char]) with ((body ++ [x]) ++ ["M"%char])
    by (now rewrite <- app_assoc).
  rewrite !convert_time_chars_nonempty. cbn zeta.
  rewrite !strip_marker_last. rewrite Ascii.eqb_refl.
  destruct (Ascii.eqb_spec x "M"); [contradiction|reflexivity].
Qed.

Lemma convert_time_marker_witness :
  convert_time "28.44M" = convert_time "28.44".
Proof.
  apply (convert_time_marker (list_ascii_of_string "28.4") "4"). discriminate.
Defined.

(** ** The fetch layer seen from its callers *)

(** A call that has to fetch sends its own mapping, once. *)
Lemma _get_page_content_sends p st :
  needs_update p (self st) (now (env st)) = true ->
  (1 <= max_requests_per_second (sessionManager st))%Z ->
  requests_sent (env (snd (_get_page_content p st))) = requests_sent (env st) ++ [p].
Proof.
  intros Hneed Hmax. rewrite _get_page_content_eq, Hneed.
  destruct (check_request_rate_limit_total st Hmax)
    as (st0 & Hadmit & _ & _ & Hsent & _).
  rewrite (_update_page_content_admitted p st st0 Hadmit). cbn [snd]. rewrite <- Hsent.
  destruct (network (env st0)) as [|[latency [|code doc]] rest];
    [| |destruct (http_ok code)]; reflexivity.
Qed.

(** X3: with a limit of at least one request, [_get_page_content] never
    raises, whatever the network does: it returns the document the cache
    holds afterwards, has noted the mapping as the last one requested, and
    has sent either nothing or exactly this request. *)
Theorem _get_page_content_never_raises :
  forall (p : params) (st : pystate),
    (1 <= max_requests_per_second (sessionManager st))%Z ->
    exists st',
      _get_page_content p st = (Ok (page_content (self st')), st')
      /\ last_request (self st') = Some p
      /\ (requests_sent (env st') = requests_sent (env st)
          \/ requests_sent (env st') = requests_sent (env st) ++ [p]).
Proof.
  intros p st Hmax.
  destruct (needs_update p (self st) (now (env st))) eqn:Hneed.
  - pose proof (_get_page_content_sends p st Hneed Hmax) as Hsent.
    rewrite _get_page_content_eq, Hneed in *.
    destruct (check_request_rate_limit_total st Hmax) as (st0 & Hadmit & _).
    rewrite (_update_page_content_admitted p st st0 Hadmit) in *.
    match goal with |- context [remember p ?X] => exists (remember p X) end.
    split; [reflexivity|]. split; [reflexivity|]. right. exact Hsent.
  - rewrite _get_page_content_eq, Hneed.
    exists (remember p st). split; [reflexivity|]. split; [reflexivity|]. now left.
Qed.

Lemma _get_page_content_never_raises_witness :
  exists st',
    _get_page_content athlete_params served_then_dropped
    = (Ok (page_content (self st')), st')
    /\ last_request (self st') = Some athlete_params
    /\ (requests_sent (env st') = requests_sent (env served_then_dropped)
        \/ requests_sent (env st') = requests_sent (env served_then_dropped)
                                     ++ [athlete_params]).
Proof.
  exact (_get_page_content_never_raises athlete_params served_then_dropped
           ltac:(cbn; lia)).
Defined.

(** ** Extractors and the cache *)

(** An extractor is its fetch followed by a computation on the page. *)
Lemma entry_eq {A R} (p : params) (lookup : maybe_tag -> result A) (r : R)
    (rest : A -> result R) st :
  St.try_except_return is_AttributeError
    (St.bind (_get_page_content p) (fun soup => St.lift (lookup soup))) r
    (fun a => St.lift (rest a)) st
  = match _get_page_content p st with
    | (Ok soup, st') => (entry_result lookup r rest soup, st')
    | (Raise e, st') => (if is_AttributeError e then Ok r else Raise e, st')
    end.
Proof.
  unfold St.try_except_return, St.bind, St.lift, entry_result.
  destruct (_get_page_content p st) as [[soup|e] st'];
    [|now destruct (is_AttributeError e)].
  destruct (lookup soup) as [a|e]; [reflexivity|].
  now destruct (is_AttributeError e).
Qed.

Lemma entry_state {A R} (p : params) (lookup : maybe_tag -> result A) (r : R)
    (rest : A -> result R) st :
  snd (St.try_except_return is_AttributeError
         (St.bind (_get_page_content p) (fun soup => St.lift (lookup soup))) r
         (fun a => St.lift (rest a)) st)
  = snd (_get_page_content p st).
Proof.
  rewrite entry_eq. now destruct (_get_page_content p st) as [[soup|e] st'].
Qed.

Lemma cache_fresh_hit p st :
  cache_fresh p st ->
  _get_page_content p st = (Ok (page_content (self st)), remember p st).
Proof.
  intros (t & Ht & Hp & Hd). now apply (_get_page_content_hit p st t).
Qed.


Lemma entry_fresh {A R} (p : params) (lookup : maybe_tag -> result A) (r : R)
    (rest : A -> result R) st :
  cache_fresh p st ->
  St.try_except_return is_AttributeError
    (St.bind (_get_page_content p) (fun soup => St.lift (lookup soup))) r
    (fun a => St.lift (rest a)) st
  = (entry_result lookup r rest (page_content (self st)), remember p st).
Proof. intros H. now rewrite entry_eq, (cache_fresh_hit p st H). Qed.


Section ExtractorCache.
Variable normalize_NFKD : string -> string.
Variable parse_qs_query : string -> list (string * list string).
Variable py_int : string -> result Z.
Variable findall_split1 : string -> list string.


(** X5: [Meet.list_results] works on the page [Meet.list_races] fetched:
    after [list_races] got its page, [list_results] for the same meet, event
    and gender within the update interval sends no second request and reads
    the table at position race_id - 1 of that page. *)
Theorem races_then_results_share_the_page :
  forall (st : pystate) (meet_id event_id gender : pyval) (race_id : Z)
         (d latency : Q) (code : Z) (doc : node) (rest : list (Q * reply)),
    last_updated (self st) = None ->
    (1 <= max_requests_per_second (sessionManager st))%Z ->
    network (env st) = (latency, Response code doc) :: rest ->
    http_ok code = true ->
    (d <= update_interval (self st))%Q ->
    let after_races :=
      snd (elapse d (snd (Meet_list_races normalize_NFKD meet_id event_id gender st))) in
    let results :=
      Meet_list_results parse_qs_query findall_split1 meet_id event_id gender race_id
        after_races in
    fetches after_races = S (fetches st)
    /\ fetches (snd results) = S (fetches st)
    /\ fst results
       = Res.bind (py_index (result_tables doc) (race_id - 1))
           (results_of_table parse_qs_query findall_split1).
Proof.
  intros st meet_id event_id gender race_id d latency code doc rest
    Hnone Hmax Hnet Hok Hd. cbn zeta.
  set (p := meet_event_params meet_id gender event_id).
  destruct (_get_page_content_first p st latency code doc rest Hnone Hmax Hnet Hok)
    as (st0 & _ & Hself & Hsent & _ & Hget).
  unfold Meet_list_races. fold p. rewrite entry_state, Hget, elapse_eq. cbn [snd].
  set (st2 := {| env := _; sessionManager := _; self := _ |}).
  assert (Hfresh : cache_fresh p st2).
  { exists (now (env st0) + latency)%Q. cbn. repeat split. rewrite Hself. lra. }
  assert (Hf : fetches st2 = S (fetches st)).
  { unfold fetches. cbn. rewrite length_app, Hsent. cbn. lia. }
  split; [assumption|].
  unfold Meet_list_results. fold p. rewrite (entry_fresh p _ _ _ st2 Hfresh).
  split; [exact Hf|reflexivity].
Qed.

(** X6: the race asked of [Meet.list_results] is a Python index into the
    tables of the page: a race beyond the number of tables (or below minus
    that number) is an [IndexError], and race 0 and the negative races down
    to 1 - n select from the end, race 0 being the last table. *)
Theorem list_results_race_bounds :
  forall (st st' : pystate) (soup : node) (meet_id event_id gender : pyval)
         (race_id : Z),
    _get_page_content (meet_event_params meet_id gender event_id) st
    = (Ok (Some soup), st') ->
    let n := Z.of_nat (length (result_tables soup)) in
    let results :=
      Meet_list_results parse_qs_query findall_split1 meet_id event_id gender race_id st in
    ((n < race_id \/ race_id <= - n)%Z -> results = (Raise IndexError, st'))
    /\ ((- n < race_id <= 0)%Z ->
        forall table,
          nth_error (result_tables soup) (Z.to_nat (n + race_id - 1)) = Some table ->
          results = (results_of_table parse_qs_query findall_split1 table, st')).
Proof.
  intros st st' soup meet_id event_id gender race_id Hget. cbn zeta.
  unfold Meet_list_results.
  erewrite (entry_with_document _ (py_find_all "table" (Soup.class_in ["meetResult"]))
              _ _ st st' soup (result_tables soup)) by (reflexivity || exact Hget).
  unfold St.lift, py_index. split.
  - intros Hout.
    destruct (Z.ltb_spec (race_id - 1) 0);
      [destruct (Z.ltb_spec (race_id - 1 + Z.of_nat (length (result_tables soup))) 0);
       [reflexivity|lia]|].
    destruct (Z.ltb_spec (race_id - 1) 0); [lia|].
    destruct (Z.leb_spec (Z.of_nat (length (result_tables soup))) (race_id - 1));
      [reflexivity|lia].
  - intros Hin table Hnth.
    destruct (Z.ltb_spec (race_id - 1) 0); [|lia].
    destruct (Z.ltb_spec (race_id - 1 + Z.of_nat (length (result_tables soup))) 0); [lia|].
    destruct (Z.leb_spec (Z.of_nat (length (result_tables soup)))
                (race_id - 1 + Z.of_nat (length (result_tables soup)))); [lia|].
    cbn [orb].
    replace (race_id - 1 + Z.of_nat (length (result_tables soup)))%Z
      with (Z.of_nat (length (result_tables soup)) + race_id - 1)%Z by lia.
    now rewrite Hnth.
Qed.

(** X7: [Club.list_athletes] turns the gender 0, 1, 2 into the query value
    CURRENT, ALL_MEN, All_WOMEN of the request it sends; a gender of 3 or
    more, or below -3, is an [IndexError] raised before anything is sent or
    changed. *)
Theorem list_athletes_gender :
  forall (st : pystate) (club_id : pyval),
    last_updated (self st) = None ->
    (1 <= max_requests_per_second (sessionManager st))%Z ->
    requests_sent (env (snd (Club_list_athletes parse_qs_query club_id 0 st)))
    = requests_sent (env st) ++ [club_params club_id "CURRENT"]
    /\ requests_sent (env (snd (Club_list_athletes parse_qs_query club_id 1 st)))
       = requests_sent (env st) ++ [club_params club_id "ALL_MEN"]
    /\ requests_sent (env (snd (Club_list_athletes parse_qs_query club_id 2 st)))
       = requests_sent (env st) ++ [club_params club_id "All_WOMEN"]
    /\ (forall gender, (3 <= gender \/ gender < -3)%Z ->
          Club_list_athletes parse_qs_query club_id gender st = (Raise IndexError, st)).
Proof.
  intros st club_id Hnone Hmax.
  assert (Hneed : forall p, needs_update p (self st) (now (env st)) = true)
    by (intros p; unfold needs_update; now rewrite Hnone).
  repeat split.
  - unfold Club_list_athletes. unfold St.bind at 1. unfold St.lift at 1.
    change (py_index ["CURRENT"; "ALL_MEN"; "All_WOMEN"] 0) with (@Ok string "CURRENT").
    cbv beta iota zeta. rewrite entry_state. now apply _get_page_content_sends.
  - unfold Club_list_athletes. unfold St.bind at 1. unfold St.lift at 1.
    change (py_index ["CURRENT"; "ALL_MEN"; "All_WOMEN"] 1) with (@Ok string "ALL_MEN").
    cbv beta iota zeta. rewrite entry_state. now apply _get_page_content_sends.
  - unfold Club_list_athletes. unfold St.bind at 1. unfold St.lift at 1.
    change (py_index ["CURRENT"; "ALL_MEN"; "All_WOMEN"] 2) with (@Ok string "All_WOMEN").
    cbv beta iota zeta. rewrite entry_state. now apply _get_page_content_sends.
  - intros gender Hout. unfold Club_list_athletes, St.bind, St.lift, py_index.
    cbn [length].
    destruct (Z.ltb_spec gender 0).
    + destruct (Z.ltb_spec (gender + Z.of_nat 3) 0); [reflexivity|lia].
    + destruct (Z.ltb_spec gender 0); [lia|].
      destruct (Z.leb_spec (Z.of_nat 3) gender); [reflexivity|lia].
Qed.

End ExtractorCache.


Lemma races_then_results_share_the_page_witness :
  fetches (snd (Meet_list_results no_query no_splits (PyInt 642564) (PyInt 1) (PyInt 1) 2
                  (snd (elapse 5 (snd (Meet_list_races same_text (PyInt 642564) (PyInt 1)
                                         (PyInt 1) (served two_race_page)))))))
  = 1%nat.
Proof.
  apply (races_then_results_share_the_page same_text no_query no_splits
           (served two_race_page) (PyInt 642564) (PyInt 1) (PyInt 1) 2 5 0 200
           two_race_page [] eq_refl ltac:(cbn; lia) eq_refl eq_refl ltac:(cbn; lra)).
Defined.

Lemma list_results_race_bounds_witness :
  Meet_list_results no_query no_splits (PyInt 642564) (PyInt 1) (PyInt 1) 3
    (served two_race_page)
  = (Raise IndexError,
     snd (_get_page_content (meet_event_params (PyInt 642564) (PyInt 1) (PyInt 1))
            (served two_race_page)))
  /\ Meet_list_results no_query no_splits (PyInt 642564) (PyInt 1) (PyInt 1) 0
       (served two_race_page)
     = (results_of_table no_query no_splits (result_table "Final"),
        snd (_get_page_content (meet_event_params (PyInt 642564) (PyInt 1) (PyInt 1))
               (served two_race_page))).
Proof.
  split.
  - apply (proj1 (list_results_race_bounds no_query no_splits (served two_race_page)
                    _ two_race_page (PyInt 642564) (PyInt 1) (PyInt 1) 3 eq_refl)).
    left. vm_compute. reflexivity.
  - apply (proj2 (list_results_race_bounds no_query no_splits (served two_race_page)
                    _ two_race_page (PyInt 642564) (PyInt 1) (PyInt 1) 0 eq_refl)).
    + vm_compute. split; [reflexivity|discriminate].
    + reflexivity.
Defined.

Lemma list_athletes_gender_witness :
  requests_sent (env (snd (Club_list_athletes no_query (PyInt 65929) 2 unreachable)))
  = [club_params (PyInt 65929) "All_WOMEN"]
  /\ Club_list_athletes no_query (PyInt 65929) 3 unreachable
     = (Raise IndexError, unreachable).
Proof.
  split.
  - apply (proj1 (proj2 (proj2 (list_athletes_gender no_query unreachable (PyInt 65929)
                                   eq_refl ltac:(cbn; lia))))).
  - apply (proj2 (proj2 (proj2 (list_athletes_gender no_query unreachable (PyInt 65929)
                                   eq_refl ltac:(cbn; lia))))).
    left. lia.
Defined.

(** ** Split times *)

Section SplitTimesFacts.
Import SplitTimes.

Lemma strip_prefix_app p s : strip_prefix p (p ++ s) = Some s.
Proof.
  induction p as [|c p IH]; [reflexivity|]. cbn. now rewrite Ascii.eqb_refl.
Qed.

Lemma strip_prefix_mismatch p s t :
  mismatch p s = true -> strip_prefix p (s ++ t) = None.
Proof.
  revert s. induction p as [|c p IH]; intros [|c' s]; cbn; try discriminate.
  destruct (Ascii.eqb c c'); [apply IH|reflexivity].
Qed.

Lemma lazy_group_eq s :
  lazy_group s =
  match strip_prefix cell_close s with
  | Some _ => Some []
  | None =>
      match s with
      | c :: s' =>
          if Ascii.eqb c newline then None
          else match lazy_group s' with
               | Some g => Some (c :: g)
               | None => None
               end
      | [] => None
      end
  end.
Proof. destruct s; reflexivity. Qed.

Lemma lazy_group_text text rest :
  cell_text text = true -> lazy_group (text ++ cell_close ++ rest) = Some text.
Proof.
  unfold cell_text. induction text as [|c text IH]; intros H.
  - cbn [app]. now rewrite lazy_group_eq, strip_prefix_app.
  - apply andb_true_iff in H as [Hc Hn]. cbn [clear_of forallb] in Hc, Hn.
    apply andb_true_iff in Hc as [Hm Hc]. apply andb_true_iff in Hn as [Hx Hn].
    rewrite lazy_group_eq.
    rewrite (strip_prefix_mismatch cell_close (c :: text) (cell_close ++ rest) Hm).
    cbn [app].
    apply negb_true_iff in Hx. rewrite Hx, IH; [reflexivity|].
    now rewrite Hc, Hn.
Qed.

Lemma match_at_cell text rest :
  cell_text text = true -> match_at (cell text ++ rest) = Some text.
Proof.
  intros H. unfold match_at, cell. rewrite <- app_assoc, strip_prefix_app.
  rewrite <- app_assoc. now apply lazy_group_text.
Qed.

Lemma findall_from_skip p s : findall_from (length p) (p ++ s) = findall_from 0 s.
Proof. induction p as [|c p IH]; [reflexivity|]. exact IH. Qed.

Lemma findall_from_cell text rest :
  cell_text text = true ->
  findall_from 0 (cell text ++ rest)
  = string_of_list_ascii text :: findall_from 0 rest.
Proof.
  intros H. pose proof (match_at_cell text rest H) as Hm.
  unfold cell in *. remember (text ++ cell_close) as body eqn:Eb.
  change cell_open with ("<"%char :: tl cell_open) in Hm |- *.
  cbn [app] in *. cbn [findall_from]. rewrite Hm. f_equal.
  replace (length cell_open + length text + length cell_close - 1)%nat
    with (length (tl cell_open ++ body)).
  - apply findall_from_skip.
  - subst body. rewrite !length_app.
    change (length cell_open) with (S (length (tl cell_open))). lia.
Qed.

Lemma findall_from_clear before s :
  clear_of cell_open before = true ->
  findall_from 0 (before ++ s) = findall_from 0 s.
Proof.
  induction before as [|c before IH]; [reflexivity|]. cbn [clear_of].
  intros [Hm Hc]%andb_true_iff. cbn [app findall_from]. unfold match_at.
  pose proof (strip_prefix_mismatch cell_open (c :: before) s Hm) as E.
  cbn [app] in E. rewrite E. now apply IH.
Qed.

(** X8: the split times found in a payload are exactly the texts of its
    [split1] cells, in order: whatever stands between the cells (other tags
    and cells included, as long as no [split1] cell opens there) is skipped,
    and a payload without such a cell gives the empty list. *)
Theorem findall_split_times :
  forall (cells : list (list ascii * list ascii)) (tail : list ascii),
    forallb well_formed_cell cells = true ->
    clear_of cell_open tail = true ->
    findall (string_of_list_ascii (payload cells tail))
    = map (fun c => string_of_list_ascii (snd c)) cells.
Proof.
  intros cells tail Hc Ht. unfold findall.
  rewrite list_ascii_of_string_of_list_ascii.
  induction cells as [|[before text] cells IH]; cbn [payload map snd].
  - rewrite <- (app_nil_r tail). now rewrite findall_from_clear.
  - cbn [forallb] in Hc. apply andb_true_iff in Hc as [Hw Hc].
    unfold well_formed_cell in Hw. cbn [fst snd] in Hw.
    apply andb_true_iff in Hw as [Hb Htx].
    rewrite findall_from_clear by assumption.
    rewrite findall_from_cell by assumption. f_equal. now apply IH.
Qed.

Lemma findall_split_times_witness :
  findall (string_of_list_ascii (payload two_splits (list_ascii_of_string "</tr>")))
  = ["28.91"; "1:00.12"].
Proof.
  exact (findall_split_times two_splits (list_ascii_of_string "</tr>") eq_refl eq_refl).
Defined.

End SplitTimesFacts.

(** ** Rows *)

Ltac bind_step H :=
  match type of H with
  | Res.bind ?x _ = Ok _ =>
      let E := fresh "E" in
      destruct x eqn:E; [cbn [Res.bind] in H|discriminate H]
  end.

(** X9: the split times of a result row are read from the [onmouseover]
    attribute of the link in its time cell; a link without that attribute
    gives a row with no split times, not a failure. *)
Theorem result_row_split_times :
  forall (parse_qs_query : string -> list (string * list string))
         (row time_cell link : node) (r : ResultRow),
    Soup.find "td" (Soup.class_in ["swimtime"]) row = Some time_cell ->
    Soup.find "a" Soup.any_attrs time_cell = Some link ->
    result_of_row parse_qs_query SplitTimes.findall row = Ok r ->
    rr_split_times r
    = match Soup.lookup "onmouseover" (Soup.attrs link) with
      | Some payload => SplitTimes.findall payload
      | None => []
      end.
Proof.
  intros pq row time_cell link r Hcell Hlink H. unfold result_of_row in H.
  repeat bind_step H. injection H as <-. cbn [rr_split_times].
  cbn in E7. rewrite Hcell in E7. injection E7 as <-.
  cbn in E8. rewrite Hlink in E8. injection E8 as <-.
  unfold split_times_rough, py_getitem, Soup.getitem in E10.
  destruct (Soup.lookup "onmouseover" (Soup.attrs link)) as [payload|];
    injection E10 as <-; reflexivity.
Qed.

Lemma result_row_split_times_witness :
  exists r,
    result_of_row (fun _ => [("athleteId", ["1"]); ("id", ["2"])]) SplitTimes.findall
      plain_result_row = Ok r
    /\ rr_split_times r = [].
Proof.
  eexists. split.
  - vm_compute. reflexivity.
  - exact (result_row_split_times (fun _ => [("athleteId", ["1"]); ("id", ["2"])])
             plain_result_row
             (Tag "td" [("class", "swimtime")]
                [Tag "a" [("href", "?page=resultDetail&id=2")] [NavigableString "28.44"]])
             (Tag "a" [("href", "?page=resultDetail&id=2")] [NavigableString "28.44"])
             _ eq_refl eq_refl eq_refl).
Defined.

Lemma filter_mapM_In {A B} (f : A -> result (option B)) (l : list A) :
  forall out,
    filter_mapM f l = Ok out ->
    forall y, In y out <-> exists x, In x l /\ f x = Ok (Some y).
Proof.
  induction l as [|a l IH]; intros out; cbn [filter_mapM].
  - intros [= <-] y. split; [intros []|intros (x & [] & _)].
  - destruct (f a) as [o|e] eqn:Ea; [|discriminate]. cbn [Res.bind].
    destruct (filter_mapM f l) as [ys|e] eqn:El; [|discriminate]. cbn [Res.bind].
    intros [= <-] y. specialize (IH ys eq_refl y).
    destruct o as [y0|]; cbn [In]; rewrite ?IH; split.
    + intros [<-|(x & Hx & Hf)]; [exists a; auto|exists x; auto].
    + intros (x & [<-|Hx] & Hf); [left; congruence|right; eauto].
    + intros (x & Hx & Hf). exists x; auto.
    + intros (x & [<-|Hx] & Hf); [congruence|eauto].
Qed.

Section RowFacts.
Variable normalize_NFKD : string -> string.
Variable parse_qs_query : string -> list (string * list string).
Variable py_int : string -> result Z.

Lemma event_of_option_Some gender item e :
  event_of_option gender item = Ok (Some e) <->
  exists v, Soup.getitem item "value" = Ok v /\ Soup.mem v ["0"] = false
            /\ e = mk_Event v gender (Soup.get_text_strip item).
Proof.
  unfold event_of_option.
  destruct (Soup.getitem item "value") as [v|err]; cbn [Res.bind].
  - destruct (String.eqb v "0") eqn:Ev; cbn [negb]; split.
    + discriminate.
    + intros (v' & [= <-] & Hv & _). cbn in Hv. rewrite Ev in Hv. discriminate.
    + intros [= <-]. exists v. cbn. rewrite Ev. auto.
    + intros (v' & [= <-] & _ & ->). reflexivity.
  - split; [discriminate|]. intros (v & ? & _). discriminate.
Qed.

Lemma period_of_option_Some item p :
  period_of_option normalize_NFKD item = Ok (Some p) <->
  exists v, Soup.getitem item "value" = Ok v /\ Soup.mem v ["RECENT"; "BYTYPE"] = false
            /\ p = mk_Period v (normalize_NFKD (Soup.get_text_strip item)).
Proof.
  unfold period_of_option.
  destruct (Soup.getitem item "value") as [v|err]; cbn [Res.bind].
  - destruct (String.eqb v "RECENT") eqn:E1; cbn [negb Res.bind].
    + split; [discriminate|].
      intros (v' & [= <-] & Hv & _). cbn in Hv. rewrite E1 in Hv. discriminate.
    + destruct (String.eqb v "BYTYPE") eqn:E2; cbn [negb]; split.
      * discriminate.
      * intros (v' & [= <-] & Hv & _). cbn in Hv. rewrite E1, E2 in Hv. discriminate.
      * intros [= <-]. exists v. cbn. rewrite E1, E2. auto.
      * intros (v' & [= <-] & _ & ->). reflexivity.
  - split; [discriminate|]. intros (v & ? & _). discriminate.
Qed.

Lemma nation_of_option_Some item n :
  nation_of_option normalize_NFKD item = Ok (Some n) <->
  exists v, Soup.getitem item "value" = Ok v /\ Soup.mem v ["$$$"] = false
            /\ n = mk_Nation v (normalize_NFKD (Soup.get_text_strip item)).
Proof.
  unfold nation_of_option.
  destruct (Soup.getitem item "value") as [v|err]; cbn [Res.bind].
  - destruct (String.eqb v "$$$") eqn:Ev; cbn [negb]; split.
    + discriminate.
    + intros (v' & [= <-] & Hv & _). cbn in Hv. rewrite Ev in Hv. discriminate.
    + intros [= <-]. exists v. cbn. rewrite Ev. auto.
    + intros (v' & [= <-] & _ & ->). reflexivity.
  - split; [discriminate|]. intros (v & ? & _). discriminate.
Qed.

(** X10: what the three menu readers return, when they return: the time
    periods are exactly the options of the period menu other than RECENT and
    BYTYPE, the nations exactly the options of the nation menu other than
    the placeholder, and the events exactly the options other than 0 of the
    men's menu (gender 1) followed by those of the women's menu (gender 2). *)
Theorem menus_without_placeholders :
  forall (st st' : pystate) (soup : node),
    (forall menu periods,
        _get_page_content meets_index_params st = (Ok (Some soup), st') ->
        Soup.find "select" (Soup.attr_is "name" "selectPage") soup = Some menu ->
        Meets_list_time_periods normalize_NFKD st = (Ok periods, st') ->
        menu_entries menu ["RECENT"; "BYTYPE"]
          (fun v item => mk_Period v (normalize_NFKD (Soup.get_text_strip item)))
          periods)
    /\ (forall menu nations,
           _get_page_content meets_index_params st = (Ok (Some soup), st') ->
           Soup.find "select" (Soup.attr_is "name" "nationId") soup = Some menu ->
           Meets_list_nations normalize_NFKD st = (Ok nations, st') ->
           menu_entries menu ["$$$"]
             (fun v item => mk_Nation v (normalize_NFKD (Soup.get_text_strip item)))
             nations)
    /\ (forall meet_id table men_menu women_menu events,
           _get_page_content (meet_params meet_id) st = (Ok (Some soup), st') ->
           Soup.find "table" (Soup.class_in ["navigation"]) soup = Some table ->
           Soup.find_fn (is_menu_cell "Men's events: ") table = Ok (Some men_menu) ->
           Soup.find_fn (is_menu_cell "Women's events: ") table = Ok (Some women_menu) ->
           Meet_list_events meet_id st = (Ok events, st') ->
           exists men women,
             events = men ++ women
             /\ menu_entries men_menu ["0"]
                  (fun v item => mk_Event v "1" (Soup.get_text_strip item)) men
             /\ menu_entries women_menu ["0"]
                  (fun v item => mk_Event v "2" (Soup.get_text_strip item)) women).
Proof.
  intros st st' soup. split; [|split].
  - intros menu periods Hget Hfind. unfold Meets_list_time_periods.
    erewrite (entry_with_document _ (py_find "select" (Soup.attr_is "name" "selectPage"))
                _ _ st st' soup (Some menu))
      by (exact Hget || (cbn; now rewrite Hfind)).
    unfold St.lift. cbn [py_find_all call Res.bind]. intros [= H] y.
    rewrite (filter_mapM_In _ _ _ H y). split.
    + intros (item & Hin & (v & ? & ? & ?)%period_of_option_Some). eauto 8.
    + intros (item & v & Hin & Hv & Hs & ->). exists item. split; [assumption|].
      apply period_of_option_Some. eauto.
  - intros menu nations Hget Hfind. unfold Meets_list_nations.
    erewrite (entry_with_document _ (py_find "select" (Soup.attr_is "name" "nationId"))
                _ _ st st' soup (Some menu))
      by (exact Hget || (cbn; now rewrite Hfind)).
    unfold St.lift. cbn [py_find_all call Res.bind]. intros [= H] y.
    rewrite (filter_mapM_In _ _ _ H y). split.
    + intros (item & Hin & (v & ? & ? & ?)%nation_of_option_Some). eauto 8.
    + intros (item & v & Hin & Hv & Hs & ->). exists item. split; [assumption|].
      apply nation_of_option_Some. eauto.
  - intros meet_id table men_menu women_menu events Hget Hfind Hmen Hwomen.
    unfold Meet_list_events.
    erewrite (entry_with_document _ (py_find "table" (Soup.class_in ["navigation"]))
                _ _ st st' soup (Some table))
      by (exact Hget || (cbn; now rewrite Hfind)).
    unfold St.lift, events_of_menu. cbn [call]. rewrite Hmen, Hwomen.
    cbn [Res.bind py_find_all call].
    destruct (filter_mapM (event_of_option "1") _) as [men|e] eqn:Em; [|discriminate].
    cbn [Res.bind].
    destruct (filter_mapM (event_of_option "2") _) as [women|e] eqn:Ew; [|discriminate].
    cbn [Res.bind]. intros [= <-]. exists men, women. split; [reflexivity|].
    split; intros y.
    + rewrite (filter_mapM_In _ _ _ Em y). split.
      * intros (item & Hin & (v & ? & ? & ?)%event_of_option_Some). eauto 8.
      * intros (item & v & Hin & Hv & Hs & ->). exists item. split; [assumption|].
        apply event_of_option_Some. eauto.
    + rewrite (filter_mapM_In _ _ _ Ew y). split.
      * intros (item & Hin & (v & ? & ? & ?)%event_of_option_Some). eauto 8.
      * intros (item & v & Hin & Hv & Hs & ->). exists item. split; [assumption|].
        apply event_of_option_Some. eauto.
Qed.

(** X11: [Athlete.list_personal_bests] is all or nothing: it returns one
    record for every row of the table, in order, when every row can be read,
    and otherwise raises what the first unreadable row raises; in
    particular a time that [convert_time] rejects is raised to the caller,
    the row is not skipped. *)
Theorem personal_bests_all_or_nothing :
  forall (st st' : pystate) (soup table : node) (athlete_id : pyval) (season : string),
    _get_page_content (personal_bests_params athlete_id season) st
    = (Ok (Some soup), st') ->
    Soup.find "table" (Soup.class_in ["athleteBest"]) soup = Some table ->
    let rows := Soup.find_all "tr" (Soup.class_in ["athleteBest0"; "athleteBest1"]) table in
    let E := Athlete_list_personal_bests parse_qs_query py_int athlete_id season in
    (forall out,
        E st = (Ok out, st') <->
        Forall2 (fun row pb => personal_best_of_row parse_qs_query py_int row = Ok pb)
          rows out)
    /\ (forall pre row post e,
           rows = pre ++ row :: post ->
           Forall (fun y => exists r, personal_best_of_row parse_qs_query py_int y = Ok r)
             pre ->
           personal_best_of_row parse_qs_query py_int row = Raise e ->
           E st = (Raise e, st'))
    /\ (forall row event_cell event_link course_cell time_cell e,
           Soup.find "td" (Soup.class_in ["event"]) row = Some event_cell ->
           Soup.find "a" Soup.any_attrs event_cell = Some event_link ->
           Soup.find "td" (Soup.class_in ["course"]) row = Some course_cell ->
           Soup.find "td" (Soup.class_in ["time"; "swimtimeImportant"]) row
           = Some time_cell ->
           convert_time (Soup.get_text_strip time_cell) = Raise e ->
           personal_best_of_row parse_qs_query py_int row = Raise e).
Proof.
  intros st st' soup table athlete_id season Hget Hfind. cbn zeta.
  unfold Athlete_list_personal_bests.
  erewrite (entry_with_document _ (py_find "table" (Soup.class_in ["athleteBest"]))
              _ _ st st' soup (Some table))
    by (exact Hget || (cbn; now rewrite Hfind)).
  unfold St.lift. cbn [py_find_all call Res.bind].
  split; [|split].
  - intros out. rewrite <- mapM_Ok. split; [now intros [= ->]|now intros ->].
  - intros pre row post e -> Hpre Hrow. now rewrite (mapM_Raise _ pre row post e).
  - intros row event_cell event_link course_cell time_cell e H1 H2 H3 H4 Hc.
    unfold personal_best_of_row. cbn [py_find py_get_text call Res.bind].
    rewrite H1. cbn [py_find py_get_text call Res.bind].
    rewrite H2. cbn [py_find py_get_text call Res.bind].
    rewrite H3. cbn [py_find py_get_text call Res.bind].
    rewrite H4. cbn [py_find py_get_text call Res.bind]. now rewrite Hc.
Qed.

End RowFacts.

Lemma first_such_raises p before x after e :
  Forall (fun n => p n = Ok false) before ->
  Soup.is_tag x = true ->
  p x = Raise e ->
  Soup.first_such p (before ++ x :: after) = Raise e.
Proof.
  intros Hb Hx He. induction Hb as [|n before Hn _ IH]; cbn [app Soup.first_such].
  - now rewrite Hx, He.
  - rewrite Hn, IH. now destruct (Soup.is_tag n).
Qed.

(** X12: the search for a menu cell reads the first class of every [td] it
    meets: a [td] without class attribute in the navigation table, ahead of
    the men's menu cell, makes [Meet.list_events] raise [KeyError]. *)
Theorem list_events_cell_without_class :
  forall (st st' : pystate) (soup table : node) (meet_id : pyval)
         (before after : list node) (attrs : list (string * string))
         (children : list node),
    _get_page_content (meet_params meet_id) st = (Ok (Some soup), st') ->
    Soup.find "table" (Soup.class_in ["navigation"]) soup = Some table ->
    Soup.descendants table = before ++ Tag "td" attrs children :: after ->
    Forall (fun n => String.eqb (Soup.name n) "td" = false) before ->
    Soup.lookup "class" attrs = None ->
    Meet_list_events meet_id st = (Raise KeyError, st').
Proof.
  intros st st' soup table meet_id before after attrs children Hget Hfind Hd Hb Hc.
  unfold Meet_list_events.
  erewrite (entry_with_document _ (py_find "table" (Soup.class_in ["navigation"]))
              _ _ st st' soup (Some table))
    by (exact Hget || (cbn; now rewrite Hfind)).
  unfold St.lift, events_of_menu. cbn [call]. unfold Soup.find_fn. rewrite Hd.
  rewrite (first_such_raises _ before _ after KeyError); [reflexivity| |reflexivity|].
  - eapply Forall_impl; [|exact Hb]. cbn beta. intros n Hn.
    unfold is_menu_cell. now rewrite Hn.
  - unfold is_menu_cell, Soup.getitem_class. cbn. now rewrite Hc.
Qed.

Lemma list_events_cell_without_class_witness :
  Meet_list_events (PyInt 642564) (served (page [navigation_table_with_plain_cell]))
  = (Raise KeyError,
     snd (_get_page_content (meet_params (PyInt 642564))
            (served (page [navigation_table_with_plain_cell])))).
Proof.
  exact (list_events_cell_without_class
           (served (page [navigation_table_with_plain_cell])) _
           (page [navigation_table_with_plain_cell]) navigation_table_with_plain_cell
           (PyInt 642564) [Tag "tr" [] [Tag "td" [] [NavigableString "Events"]]] _
           [] [NavigableString "Events"] eq_refl eq_refl eq_refl
           ltac:(repeat constructor) eq_refl).
Defined.

Lemma menus_without_placeholders_witness :
  exists men women,
    [mk_Event "1" "1" "50m Freestyle"; mk_Event "2" "2" "100m Freestyle"] = men ++ women
    /\ menu_entries men_cell ["0"]
         (fun v item => mk_Event v "1" (Soup.get_text_strip item)) men
    /\ menu_entries women_cell ["0"]
         (fun v item => mk_Event v "2" (Soup.get_text_strip item)) women.
Proof.
  exact (proj2 (proj2 (menus_without_placeholders same_text
                         (served (page [navigation_table]))
                         (snd (_get_page_content (meet_params (PyInt 642564))
                                 (served (page [navigation_table]))))
                         (page [navigation_table])))
           (PyInt 642564) navigation_table men_cell women_cell
           [mk_Event "1" "1" "50m Freestyle"; mk_Event "2" "2" "100m Freestyle"]
           eq_refl eq_refl eq_refl eq_refl eq_refl).
Defined.

Lemma personal_bests_all_or_nothing_witness :
  Athlete_list_personal_bests no_query no_int (PyInt 4787911) ""
    (served (page [personal_best_table "28,44"]))
  = (Raise ValueError,
     snd (_get_page_content (personal_bests_params (PyInt 4787911) "")
            (served (page [personal_best_table "28,44"])))).
Proof.
  apply (proj1 (proj2 (personal_bests_all_or_nothing no_query no_int
                         (served (page [personal_best_table "28,44"])) _
                         (page [personal_best_table "28,44"])
                         (personal_best_table "28,44") (PyInt 4787911) ""
                         eq_refl eq_refl))
           [] (personal_best_row "28,44") [] ValueError eq_refl (Forall_nil _)).
  apply (proj2 (proj2 (personal_bests_all_or_nothing no_query no_int
                         (served (page [personal_best_table "28,44"])) _
                         (page [personal_best_table "28,44"])
                         (personal_best_table "28,44") (PyInt 4787911) ""
                         eq_refl eq_refl))
           (personal_best_row "28,44")
           (Tag "td" [("class", "event")] [Tag "a" [] [NavigableString "50m Freestyle"]])
           (Tag "a" [] [NavigableString "50m Freestyle"])
           (Tag "td" [("class", "course")] [NavigableString "25m"])
           (Tag "td" [("class", "time")]
              [Tag "a" [("href", "?page=resultDetail&id=7")] [NavigableString "28,44"]])
           ValueError eq_refl eq_refl eq_refl eq_refl eq_refl).
Defined.

(** ** One session manager for all the extractors of a scraper *)

Lemma network_after_refresh p st :
  (1 <= max_requests_per_second (sessionManager st))%Z ->
  exists k, network (env (snd (_update_page_content p st))) = skipn k (network (env st)).
Proof.
  intros Hmax.
  destruct (check_request_rate_limit_total st Hmax) as (st0 & Hadmit & _ & Hnet & _).
  rewrite (_update_page_content_admitted p st st0 Hadmit). cbn [snd]. rewrite <- Hnet.
  destruct (network (env st0)) as [|[latency [|code doc]] rest].
  - now exists 0%nat.
  - now exists 1%nat.
  - exists 1%nat. now destruct (http_ok code).
Qed.

Lemma Forall_skipn {A} (P : A -> Prop) k (l : list A) :
  Forall P l -> Forall P (skipn k l).
Proof.
  revert l. induction k as [|k IH]; intros l H; [assumption|].
  destruct l as [|x l]; [constructor|]. inversion H; subst. now apply IH.
Qed.

(** A page request keeps the request window invariant, whatever extractor
    makes it. *)
Lemma get_keeps_window_invariant max w p st log :
  (1 <= max)%Z ->
  Forall (fun e => (0 <= fst e)%Q) (network (env st)) ->
  window_invariant max w false st log ->
  exists r log',
    _get_page_content p st = (Ok r, snd (_get_page_content p st))
    /\ window_invariant max w false (snd (_get_page_content p st)) log'
    /\ Forall (fun e => (0 <= fst e)%Q) (network (env (snd (_get_page_content p st)))).
Proof.
  intros Hpos Hnet Hinv. rewrite _get_page_content_eq.
  destruct (needs_update p (self st) (now (env st))).
  - assert (Hmax : (1 <= max_requests_per_second (sessionManager st))%Z)
      by (destruct Hinv as (-> & _); assumption).
    destruct (refresh_keeps_window_invariant max w p st log Hpos Hnet Hinv)
      as (log' & Hok & Hinv' & _).
    destruct (network_after_refresh p st Hmax) as (k & Hk).
    destruct (_update_page_content p st) as [[[]|e] st1]; [|discriminate].
    cbn [fst snd] in *. eexists _, log'. split; [reflexivity|]. split.
    + now apply (window_invariant_same_clock _ _ _ st1).
    + cbn. rewrite Hk. now apply Forall_skipn.
  - cbn [snd]. eexists _, log. split; [reflexivity|]. split.
    + now apply (window_invariant_same_clock _ _ _ st).
    + exact Hnet.
Qed.

Lemma replace_nth_length {A} i (x : A) l : length (replace_nth i x l) = length l.
Proof.
  revert i. induction l as [|y l IH]; intros [|i]; cbn; try reflexivity.
  now rewrite IH.
Qed.

Lemma scraper_ok_step n u sc :
  scraper_ok n sc -> sound_use n u = true ->
  fst (step_use u sc) = Ok tt /\ scraper_ok n (snd (step_use u sc)).
Proof.
  intros (Hlen & Hnet & log & Hinv) Hu. destruct u as [i p|d]; cbn [step_use sound_use] in *.
  - apply Nat.ltb_lt in Hu. unfold call_on.
    destruct (nth_error (sc_objects sc) i) as [obj|] eqn:Ei;
      [|apply nth_error_None in Ei; lia].
    assert (Hinv' : window_invariant 15 30 false (scraper_state sc obj) log)
      by now apply (window_invariant_same_clock _ _ _ _ _ _ eq_refl eq_refl Hinv).
    destruct (get_keeps_window_invariant 15 30 p (scraper_state sc obj) log
                ltac:(lia) Hnet Hinv') as (r & log' & Hget & Hinv'' & Hnet').
    unfold scraper_state in *. rewrite Hget. cbn [fst snd].
    split; [reflexivity|]. split; [|split].
    + cbn. now rewrite replace_nth_length.
    + exact Hnet'.
    + exists log'.
      now apply (window_invariant_same_clock _ _ _ _ _ _ eq_refl eq_refl Hinv'').
  - apply Qle_bool_iff in Hu. split; [reflexivity|]. split; [|split].
    + exact Hlen.
    + exact Hnet.
    + exists log.
      pose proof (window_invariant_elapse _ _ _ _ _ d Hu Hinv) as He.
      rewrite elapse_eq in He. exact He.
Qed.

Lemma scraper_ok_run n us :
  forall sc,
    scraper_ok n sc -> forallb (sound_use n) us = true ->
    fst (run_uses us sc) = Ok tt /\ scraper_ok n (snd (run_uses us sc)).
Proof.
  induction us as [|u us IH]; intros sc Hok Hs; [now split|].
  cbn [forallb] in Hs. apply andb_true_iff in Hs as [Hu Hs].
  destruct (scraper_ok_step n u sc Hok Hu) as [Hr Hok'].
  cbn [run_uses]. destruct (step_use u sc) as [[[]|e] sc']; [|discriminate].
  now apply IH.
Qed.

(** X13: however the extractors handed out by one scraper are used, in any
    order and with any pauses, no page request raises, and the history of
    the session manager they share never holds more than 15 requests of the
    30 seconds before now. *)
Theorem shared_rate_limit :
  forall (n : nat) (net : list (Q * reply)) (us : list use),
    Forall (fun e => (0 <= fst e)%Q) net ->
    forallb (sound_use n) us = true ->
    let sc := snd (run_uses us (new_scraper n net)) in
    fst (run_uses us (new_scraper n net)) = Ok tt
    /\ (Z.of_nat (length (valid_requests_at (sc_sessionManager sc) (now (sc_env sc))))
        <= 15)%Z
    /\ max_requests_per_second (sc_sessionManager sc) = 15%Z
    /\ length (sc_objects sc) = n.
Proof.
  intros n net us Hnet Hs. cbn zeta.
  assert (Hinit : scraper_ok n (new_scraper n net)).
  { split; [apply repeat_length|]. split; [exact Hnet|]. exists [].
    unfold window_invariant. cbn. repeat split; try lia; discriminate. }
  destruct (scraper_ok_run n us _ Hinit Hs) as (Hr & Hlen & _ & log & Hinv).
  split; [assumption|].
  destruct Hinv as (Hmax & Hw & _ & _ & Hcnt & _). cbn in Hmax, Hw, Hcnt.
  unfold valid_requests_at. rewrite Hw. auto.
Qed.

Lemma shared_rate_limit_witness :
  fst (run_uses busy_uses (new_scraper 3 busy_network)) = Ok tt
  /\ (Z.of_nat (length (valid_requests_at
                          (sc_sessionManager (snd (run_uses busy_uses
                                                     (new_scraper 3 busy_network))))
                          (now (sc_env (snd (run_uses busy_uses
                                               (new_scraper 3 busy_network)))))))
      <= 15)%Z
  /\ max_requests_per_second
       (sc_sessionManager (snd (run_uses busy_uses (new_scraper 3 busy_network))))
     = 15%Z
  /\ length (sc_objects (snd (run_uses busy_uses (new_scraper 3 busy_network)))) = 3%nat.
Proof.
  apply (shared_rate_limit 3 busy_network busy_uses).
  - repeat constructor; cbn; discriminate.
  - reflexivity.
Defined.

(** ** Witnesses for the lemmas on history and containers *)

Lemma history_stays_chronological_witness :
  history_in_order (snd (run burst_trace (governor_state 2 1 [] 0))).
Proof.
  apply (history_stays_chronological burst_trace (governor_state 2 1 [] 0) eq_refl).
  split; constructor.
Defined.

Lemma missing_container_empty_witness :
  Meet_list_races same_text (PyInt 642564) (PyInt 1) (PyInt 1) (served bare_page)
  = (Ok [], snd (_get_page_content (meet_event_params (PyInt 642564) (PyInt 1) (PyInt 1))
                   (served bare_page)))
  /\ Result_get_time (PyInt 1234567) (served bare_page)
     = (Ok None, snd (_get_page_content (result_params (PyInt 1234567)) (served bare_page))).
Proof.
  split.
  - apply (proj1 (missing_container_empty same_text no_query (served bare_page) _
                    bare_page) (PyInt 642564) (PyInt 1) (PyInt 1) eq_refl eq_refl).
  - apply (proj1 (proj2 (missing_container_empty same_text no_query (served bare_page) _
                           bare_page)) (PyInt 1234567) eq_refl eq_refl).
Defined.

(** ** Races without heading, and new extractors *)

Lemma races_from_raises normalize_NFKD (pre : list node) t post e :
  Forall (fun y => exists r, race_of_table normalize_NFKD 0 y = Ok r) pre ->
  race_of_table normalize_NFKD 0 t = Raise e ->
  forall k, races_from normalize_NFKD k (pre ++ t :: post) = Raise e.
Proof.
  intros Hpre Ht. induction Hpre as [|a pre [r Ha] _ IH]; intros k;
    cbn [app races_from]; rewrite race_of_table_id.
  - now rewrite Ht.
  - rewrite Ha. cbn [Res.bind]. now rewrite IH.
Qed.

(** X16: [Meet.list_races] is all or nothing as well: a result table without
    heading row (or whose heading has no name cell) makes the call raise
    [AttributeError], whatever the tables before it hold; no race is
    returned for the others. *)
Theorem list_races_table_without_heading :
  forall (normalize_NFKD : string -> string) (st st' : pystate) (soup : node)
         (meet_id event_id gender : pyval) (before after : list node) (table : node),
    _get_page_content (meet_event_params meet_id gender event_id) st
    = (Ok (Some soup), st') ->
    result_tables soup = before ++ table :: after ->
    Forall (fun y => exists r, race_of_table normalize_NFKD 0 y = Ok r) before ->
    (Soup.find "tr" (Soup.class_in ["meetResultHead"]) table = None
     \/ exists head,
         Soup.find "tr" (Soup.class_in ["meetResultHead"]) table = Some head
         /\ Soup.find "th" (Soup.class_in ["event"]) head = None) ->
    Meet_list_races normalize_NFKD meet_id event_id gender st
    = (Raise AttributeError, st').
Proof.
  intros nf st st' soup meet_id event_id gender before after table Hget Htabs Hb Hhead.
  unfold Meet_list_races.
  erewrite (entry_with_document _ (py_find_all "table" (Soup.class_in ["meetResult"]))
              _ _ st st' soup (result_tables soup)) by (reflexivity || exact Hget).
  unfold St.lift. rewrite Htabs.
  rewrite (races_from_raises nf before table after AttributeError); [reflexivity|exact Hb|].
  unfold race_of_table. cbn [py_find call Res.bind].
  destruct Hhead as [->|(head & -> & Hth)]; [reflexivity|].
  cbn [py_find call Res.bind]. now rewrite Hth.
Qed.

Lemma list_races_table_without_heading_witness :
  Meet_list_races same_text (PyInt 642564) (PyInt 1) (PyInt 1)
    (served (page [result_table "Heats"; Tag "table" [("class", "meetResult")] []]))
  = (Raise AttributeError,
     snd (_get_page_content (meet_event_params (PyInt 642564) (PyInt 1) (PyInt 1))
            (served (page [result_table "Heats";
                           Tag "table" [("class", "meetResult")] []])))).
Proof.
  apply (list_races_table_without_heading same_text
           (served (page [result_table "Heats"; Tag "table" [("class", "meetResult")] []]))
           _ (page [result_table "Heats"; Tag "table" [("class", "meetResult")] []])
           (PyInt 642564) (PyInt 1) (PyInt 1)
           [result_table "Heats"] [] (Tag "table" [("class", "meetResult")] [])
           eq_refl eq_refl).
  - constructor; [|constructor]. eexists. reflexivity.
  - left. reflexivity.
Defined.

(** X17: the cache belongs to the extractor object: the first page request
    of an extractor the scraper has just handed out is always sent, whatever
    pages the other extractors hold, also one for the same mapping. *)
Theorem new_extractor_fetches :
  forall (sc : scraper) (p : params),
    (1 <= max_requests_per_second (sc_sessionManager sc))%Z ->
    let i := fst (get_extractor sc) in
    let sc1 := snd (get_extractor sc) in
    requests_sent (sc_env (snd (call_on i (_get_page_content p) sc1)))
    = requests_sent (sc_env sc) ++ [p].
Proof.
  intros sc p Hmax. cbn zeta. unfold get_extractor, call_on. cbn [fst snd sc_objects].
  rewrite nth_error_app2 by lia. rewrite Nat.sub_diag. cbn [nth_error sc_env sc_sessionManager].
  pose proof (_get_page_content_sends p
                {| env := sc_env sc; sessionManager := sc_sessionManager sc;
                   self := ScraperMixin_init 60 |} eq_refl Hmax) as Hs.
  destruct (_get_page_content p _) as [r st1]. exact Hs.
Qed.

Lemma new_extractor_fetches_witness :
  requests_sent
    (sc_env (snd (call_on (fst (get_extractor holding_scraper)) (_get_page_content athlete_params)
                    (snd (get_extractor holding_scraper)))))
  = [athlete_params; athlete_params].
Proof.
  exact (new_extractor_fetches holding_scraper athlete_params ltac:(cbn; lia)).
Defined.

(** ** The time of a result *)

Lemma _get_page_content_returns p st :
  (1 <= max_requests_per_second (sessionManager st))%Z ->
  _get_page_content p st
  = (Ok (page_content (self (snd (_get_page_content p st)))),
     snd (_get_page_content p st)).
Proof.
  intros Hmax. rewrite _get_page_content_eq.
  destruct (needs_update p (self st) (now (env st))); [|reflexivity].
  destruct (check_request_rate_limit_total st Hmax) as (st0 & Hadmit & _).
  now rewrite (_update_page_content_admitted p st st0 Hadmit).
Qed.

(** X18: [Result.get_time] never raises (with a limit of at least one
    request): it returns the text of the first [td] of class
    [swimtimeLarge] of the document the cache holds after the page request,
    as it stands on the page, and [None] when there is no document or no
    such cell; the state it leaves is the one of the page request. *)
Theorem get_time_total :
  forall (result_id : pyval) (st : pystate),
    (1 <= max_requests_per_second (sessionManager st))%Z ->
    let st' := snd (_get_page_content (result_params result_id) st) in
    Result_get_time result_id st
    = (Ok match page_content (self st') with
          | Some soup =>
              option_map Soup.text (Soup.find "td" (Soup.class_in ["swimtimeLarge"]) soup)
          | None => None
          end, st').
Proof.
  intros result_id st Hmax. cbn zeta.
  unfold Result_get_time, St.try_except_return, St.bind, St.lift, St.ret.
  rewrite (_get_page_content_returns _ st Hmax).
  destruct (page_content _) as [soup|]; [|reflexivity].
  cbn [py_find call Res.bind].
  now destruct (Soup.find "td" _ soup).
Qed.

Lemma get_time_total_witness :
  Result_get_time (PyInt 1234567) (served result_page)
  = (Ok (Some "28.44"),
     snd (_get_page_content (result_params (PyInt 1234567)) (served result_page))).
Proof.
  exact (get_time_total (PyInt 1234567) (served result_page) ltac:(cbn; lia)).
Defined.
